(** * DataIO: the per-module storage broker of WNDR (common/dataio.py)

    A shallow embedding of [CogData], [ModelDataManager], [TableBuilder]
    and [DictTableBuilder], together with the fragment of Python and of
    the sqlite3 engine that these classes rely on. *)

From Stdlib Require Import ZArith NArith Ascii String List Bool Lia.
From Stdlib Require Import DecimalString DecimalPos DecimalZ.
From stdpp Require Import gmap strings list.

(** ** Python builtins used by the module *)

Module Py.

(** A [str] is modelled as a sequence of code points below 256; the
    upper-case letters among them are A-Z and, in the upper half, the
    code points 192 to 222 without the multiplication sign 215. *)

Definition in_range (lo hi c : ascii) : bool :=
  (N_of_ascii lo <=? N_of_ascii c)%N && (N_of_ascii c <=? N_of_ascii hi)%N.

Definition is_upper (c : ascii) : bool :=
  in_range "A" "Z" c
  || (in_range "192" "222" c && negb (Ascii.eqb c "215")).

Definition lower_char (c : ascii) : ascii :=
  if is_upper c then ascii_of_N (N_of_ascii c + 32) else c.

(** [str.lower()] *)
Fixpoint lower (s : string) : string :=
  match s with
  | EmptyString => EmptyString
  | String c s' => String (lower_char c) (lower s')
  end.

(** [str(n)] for an [int]. *)
Definition str_of_int (z : Z) : string := NilZero.string_of_int (Z.to_int z).

(** [s.startswith(p)] *)
Fixpoint startswith (p s : string) : bool :=
  match p, s with
  | EmptyString, _ => true
  | String a p', String b s' => if Ascii.eqb a b then startswith p' s' else false
  | String _ _, EmptyString => false
  end.

(** [c in s] for a one-character [c]. *)
Fixpoint contains (c : ascii) (s : string) : bool :=
  match s with
  | EmptyString => false
  | String a s' => Ascii.eqb a c || contains c s'
  end.

End Py.

(** ** Scopes and their storage key *)

(** A scope is either a [discord.abc.Snowflake] object, of which the
    module reads the class name and the [id], or a [str]. *)
Inductive model : Type :=
  | Snowflake (kind : string) (id : Z)
  | Named (name : string).

(** The character class [[a-z0-9_]] of the substitution pattern. *)
Definition key_char (c : ascii) : bool :=
  Py.in_range "a" "z" c || Py.in_range "0" "9" c || Ascii.eqb c "_".

(** [re.sub(r'[^a-z0-9_]', '_', s)] *)
Fixpoint sub_non_key (s : string) : string :=
  match s with
  | EmptyString => EmptyString
  | String c s' => String (if key_char c then c else "_"%char) (sub_non_key s')
  end.

(** [CogData.__model_db_name] *)
Definition model_db_name (m : model) : string :=
  match m with
  | Snowflake kind id => Py.lower (kind +:+ "_" +:+ Py.str_of_int id)
  | Named s => sub_non_key (Py.lower s)
  end.

(** ** Exceptions and the state-and-exception monad *)

(** The messages of the [ValueError]s raised by the module, and the one
    of the builtin [int]. *)
Inductive reason : Type :=
  | NotCreateTable              (* La requete doit commencer par "CREATE TABLE" *)
  | DefaultKeysDiffer           (* Les valeurs par defaut doivent avoir les memes cles *)
  | NoTableName                 (* Impossible de trouver le nom de la table *)
  | TableMissing (t : string)   (* La table ... n'existe pas *)
  | NotKeyValue (t : string)    (* La table ... n'est pas une table cle/valeur *)
  | InvalidLiteral.             (* invalid literal for int() *)

Inductive exn : Type :=
  | ValueError (why : reason)
  | TypeError
  | IndexError
  | OverflowError
  | OperationalError            (* sqlite3.OperationalError *)
  | ProgrammingError            (* sqlite3.ProgrammingError *)
  | Unmodelled.                 (* a statement outside the modelled SQL fragment *)

Inductive result (A : Type) : Type :=
  | Ok (a : A)
  | Raise (e : exn).
Arguments Ok {A} a.
Arguments Raise {A} e.

Definition rbind {A B} (r : result A) (k : A -> result B) : result B :=
  match r with
  | Ok a => k a
  | Raise e => Raise e
  end.

(** A computation reads and writes a state [S]; when it raises, the
    state reached so far is kept, as in Python. *)
Definition M (S A : Type) : Type := S -> result A * S.

Definition ret {S A} (a : A) : M S A := fun s => (Ok a, s).
Definition raise {S A} (e : exn) : M S A := fun s => (Raise e, s).
Definition bind {S A B} (m : M S A) (k : A -> M S B) : M S B :=
  fun s => match m s with
           | (Ok a, s') => k a s'
           | (Raise e, s') => (Raise e, s')
           end.
Definition lift {S A} (r : result A) : M S A := fun s => (r, s).
Definition gets {S A} (f : S -> A) : M S A := fun s => (Ok (f s), s).
Definition modify {S} (f : S -> S) : M S unit := fun s => (Ok tt, f s).

Declare Scope monad_scope.
Delimit Scope monad_scope with monad.
Notation "x <- m ;; k" := (bind m (fun x => k))
  (at level 100, m at next level, right associativity) : monad_scope.
Notation "m ;;; k" := (bind m (fun _ => k))
  (at level 100, right associativity) : monad_scope.
Notation "x <-- r ;; k" := (rbind r (fun x => k))
  (at level 100, r at next level, right associativity) : monad_scope.
Open Scope monad_scope.

(** ** Python values, dictionaries, and what sqlite3 stores *)

Inductive pyval : Type :=
  | PNone
  | PBool (b : bool)
  | PInt (z : Z)
  | PStr (s : string).

(** A [dict[str, Any]]: the items in insertion order. *)
Definition dict : Type := list (string * pyval).
Definition keys (d : dict) : list string := map fst d.
Definition values (d : dict) : list pyval := map snd d.

Inductive sqlval : Type :=
  | SNull
  | SInt (z : Z)
  | SText (s : string).

(** How sqlite3 binds a Python parameter ([bool] is an [int]); an
    [int] that does not fit in 64 bits is refused with [OverflowError]. *)
Definition fits (v : pyval) : bool :=
  match v with
  | PInt z => (- 2 ^ 63 <=? z)%Z && (z <? 2 ^ 63)%Z
  | _ => true
  end.

Definition adapt (v : pyval) : sqlval :=
  match v with
  | PNone => SNull
  | PBool b => SInt (if b then 1 else 0)
  | PInt z => SInt z
  | PStr s => SText s
  end.

(** How sqlite3 hands a stored value back. *)
Definition to_python (v : sqlval) : pyval :=
  match v with
  | SNull => PNone
  | SInt z => PInt z
  | SText s => PStr s
  end.

Definition sqlval_eqb (a b : sqlval) : bool :=
  match a, b with
  | SNull, SNull => true
  | SInt x, SInt y => (x =? y)%Z
  | SText x, SText y => String.eqb x y
  | _, _ => false
  end.

(** ** TableBuilder *)

Record TableBuilder : Type := {
  query : string;
  default_values : list dict;
  insert_on_reconnect : bool;
}.

Definition mem (k : string) (l : list string) : bool := existsb (String.eqb k) l.

(** [set(a) == set(b)] on lists of keys. *)
Definition set_eqb (a b : list string) : bool :=
  forallb (fun k => mem k b) a && forallb (fun k => mem k a) b.

(** [TableBuilder.__init__] *)
Definition TableBuilder_init (q : string) (defaults : list dict) (reconnect : bool)
  : result TableBuilder :=
  if negb (Py.startswith "CREATE TABLE" q) then Raise (ValueError NotCreateTable)
  else
    let same_keys :=
      match defaults with
      | [] => true
      | d0 :: _ => forallb (fun d => set_eqb (keys d) (keys d0)) defaults
      end in
    if negb same_keys then Raise (ValueError DefaultKeysDiffer)
    else Ok {| query := q; default_values := defaults; insert_on_reconnect := reconnect |}.

(** [DictTableBuilder.__init__]; the [isinstance] test holds by typing. *)
Definition DictTableBuilder_init (name : string) (defaults : dict) (reconnect : bool)
  : result TableBuilder :=
  let q := "CREATE TABLE IF NOT EXISTS " +:+ name +:+ " (key TEXT PRIMARY KEY, value TEXT)" in
  let default := map (fun kv => [("key", PStr (fst kv)); ("value", snd kv)]) defaults in
  TableBuilder_init q default reconnect.

(** *** The table name, found by regular expression *)

Definition newline : ascii := "010"%char.

(** The text up to the first newline: what the group can range over. *)
Fixpoint line (s : string) : string :=
  match s with
  | EmptyString => EmptyString
  | String c s' => if Ascii.eqb c newline then EmptyString else String c (line s')
  end.

(** The greedy group followed by a space and an opening parenthesis,
    on one line: the text before the last such pair. *)
Fixpoint before_last_paren (l : string) : option string :=
  match l with
  | EmptyString => None
  | String c l' =>
      match before_last_paren l' with
      | Some g => Some (String c g)
      | None => if Py.startswith " (" l then Some EmptyString else None
      end
  end.

Fixpoint drop_prefix (p s : string) : option string :=
  match p, s with
  | EmptyString, _ => Some s
  | String a p', String b s' => if Ascii.eqb a b then drop_prefix p' s' else None
  | String _ _, EmptyString => None
  end.

Definition match_here (pre s : string) : option string :=
  match drop_prefix pre s with
  | Some rest => before_last_paren (line rest)
  | None => None
  end.

(** [re.search] of the literal [pre], a greedy group, a space and an
    opening parenthesis: [group(1)] of the leftmost match. *)
Fixpoint re_search (pre s : string) : option string :=
  match match_here pre s with
  | Some g => Some g
  | None =>
      match s with
      | EmptyString => None
      | String _ s' => re_search pre s'
      end
  end.

(** [TableBuilder.table_name] *)
Definition table_name (b : TableBuilder) : result string :=
  match re_search "CREATE TABLE IF NOT EXISTS " (query b) with
  | Some g => Ok g
  | None =>
      match re_search "CREATE TABLE " (query b) with
      | Some g => Ok g
      | None => Raise (ValueError NoTableName)
      end
  end.

(** ** More builtins: [int(...)] and [str(...)] *)

Module Cast.

Definition digit (c : ascii) : option Z :=
  if Py.in_range "0" "9" c then Some (Z.of_N (N_of_ascii c) - 48)%Z else None.

(** Decimal digits, with single underscores between digits;
    [after_digit] tells whether the last character read was a digit. *)
Fixpoint digits_val (acc : Z) (after_digit : bool) (s : string) : option Z :=
  match s with
  | EmptyString => if after_digit then Some acc else None
  | String c s' =>
      if Ascii.eqb c "_"
      then (if after_digit then digits_val acc false s' else None)
      else match digit c with
           | Some d => digits_val (10 * acc + d)%Z true s'
           | None => None
           end
  end.

(** The code points that [int] skips around the digits: the blanks of
    ASCII, and the two white-space code points above it. *)
Definition is_space (c : ascii) : bool :=
  Py.in_range "009" "013" c || Ascii.eqb c " "
  || Ascii.eqb c "133" || Ascii.eqb c "160".

Fixpoint lstrip (s : string) : string :=
  match s with
  | EmptyString => EmptyString
  | String c s' => if is_space c then lstrip s' else s
  end.

Definition strip (s : string) : string :=
  String.rev (lstrip (String.rev (lstrip s))).

Definition unsigned (s : string) : result Z :=
  match digits_val 0 false s with
  | Some z => Ok z
  | None => Raise (ValueError InvalidLiteral)
  end.

(** [int(s)] for a [str]: surrounding blanks, a sign, decimal digits. *)
Definition int_of_str (s : string) : result Z :=
  match strip s with
  | String "-" r => z <-- unsigned r ;; Ok (- z)%Z
  | String "+" r => unsigned r
  | t => unsigned t
  end.

(** [int(v)] *)
Definition int (v : pyval) : result Z :=
  match v with
  | PNone => Raise TypeError
  | PBool b => Ok (if b then 1 else 0)%Z
  | PInt z => Ok z
  | PStr s => int_of_str s
  end.

(** [str(v)] *)
Definition str (v : pyval) : string :=
  match v with
  | PNone => "None"
  | PBool b => if b then "True" else "False"
  | PInt z => Py.str_of_int z
  | PStr s => s
  end.

(** [bool(n)] for an [int]. *)
Definition bool_of_int (z : Z) : bool := negb (z =? 0)%Z.

End Cast.

(** The [cast] argument of [get_dict_value]. *)
Inductive cast : Type := CastStr | CastInt | CastBool.

(** ** The sqlite3 engine, on the fragment the module uses

    Tables have named columns, declared [TEXT] or without a type, at
    most one of them the primary key.  Names are matched without regard
    to letter case, as the engine does, and are taken to be identifiers
    that are not reserved words.  Statements outside this fragment
    raise [Unmodelled]. *)

Module Sql.

Record column : Type := {
  col_name : string;
  col_text : bool;      (* declared TEXT: text affinity *)
  col_pk : bool;        (* PRIMARY KEY *)
}.

Record table : Type := {
  tbl_name : string;
  tbl_cols : list column;
  tbl_rows : list (list sqlval);   (* in rowid order, one value per column *)
}.

(** The tables of a database file, in the order of [sqlite_master]. *)
Abbreviation database := (list table).

Definition ident_char (c : ascii) : bool :=
  Py.in_range "a" "z" c || Py.in_range "A" "Z" c || Py.in_range "0" "9" c
  || Ascii.eqb c "_".

Fixpoint all_chars (p : ascii -> bool) (s : string) : bool :=
  match s with
  | EmptyString => true
  | String c s' => p c && all_chars p s'
  end.

(** The keywords of SQLite.  A statement that uses one of them as a
    name, unquoted, is refused or read in another way; [key], which
    SQLite takes as a name and the schemas of this module use, is the
    one keyword that the fragment admits. *)
Definition keywords : list string :=
  [ "abort"; "action"; "add"; "after"; "all"; "alter"; "always"; "analyze";
    "and"; "as"; "asc"; "attach"; "autoincrement"; "before"; "begin";
    "between"; "by"; "cascade"; "case"; "cast"; "check"; "collate"; "column";
    "commit"; "conflict"; "constraint"; "create"; "cross"; "current";
    "current_date"; "current_time"; "current_timestamp"; "database";
    "default"; "deferrable"; "deferred"; "delete"; "desc"; "detach";
    "distinct"; "do"; "drop"; "each"; "else"; "end"; "escape"; "except";
    "exclude"; "exclusive"; "exists"; "explain"; "fail"; "filter"; "first";
    "following"; "for"; "foreign"; "from"; "full"; "generated"; "glob";
    "group"; "groups"; "having"; "if"; "ignore"; "immediate"; "in"; "index";
    "indexed"; "initially"; "inner"; "insert"; "instead"; "intersect"; "into";
    "is"; "isnull"; "join"; "last"; "left"; "like"; "limit"; "match";
    "materialized"; "natural"; "no"; "not"; "nothing"; "notnull"; "null";
    "nulls"; "of"; "offset"; "on"; "or"; "order"; "others"; "outer"; "over";
    "partition"; "plan"; "pragma"; "preceding"; "primary"; "query"; "raise";
    "range"; "recursive"; "references"; "regexp"; "reindex"; "release";
    "rename"; "replace"; "restrict"; "returning"; "right"; "rollback"; "row";
    "rows"; "savepoint"; "select"; "set"; "table"; "temp"; "temporary";
    "then"; "ties"; "to"; "transaction"; "trigger"; "unbounded"; "union";
    "unique"; "update"; "using"; "vacuum"; "values"; "view"; "virtual";
    "when"; "where"; "window"; "with"; "within"; "without" ].

(** Names that SQLite keeps for itself: the keywords, and the names of
    its own tables. *)
Definition reserved (s : string) : bool :=
  existsb (String.eqb (Py.lower s)) keywords
  || Py.startswith "sqlite_" (Py.lower s).

(** The names of the fragment: a letter or an underscore, then
    letters, digits and underscores, and not reserved. *)
Definition is_ident (s : string) : bool :=
  match s with
  | EmptyString => false
  | String c _ =>
      negb (Py.in_range "0" "9" c) && all_chars ident_char s && negb (reserved s)
  end.

Definition eqb_ci (a b : string) : bool := String.eqb (Py.lower a) (Py.lower b).

(** *** CREATE TABLE *)

Record create_stmt : Type := {
  ct_if_not_exists : bool;
  ct_name : string;
  ct_cols : list column;
}.

Fixpoint span_ident (s : string) : string * string :=
  match s with
  | EmptyString => (EmptyString, EmptyString)
  | String c s' =>
      if ident_char c
      then (String c (fst (span_ident s')), snd (span_ident s'))
      else (EmptyString, s)
  end.

Definition optional (p s : string) : bool * string :=
  match drop_prefix p s with
  | Some r => (true, r)
  | None => (false, s)
  end.

Definition parse_column (s : string) : option (column * string) :=
  let '(name, r0) := span_ident s in
  if negb (is_ident name) then None
  else
    let '(txt, r1) := optional " TEXT" r0 in
    let '(pk, r2) := optional " PRIMARY KEY" r1 in
    Some ({| col_name := name; col_text := txt; col_pk := pk |}, r2).

Fixpoint parse_columns (fuel : nat) (s : string) : option (list column) :=
  match fuel with
  | O => None
  | S n =>
      match parse_column s with
      | None => None
      | Some (c, r) =>
          if String.eqb r ")" then Some [c]
          else match drop_prefix ", " r with
               | Some r' => option_map (cons c) (parse_columns n r')
               | None => None
               end
      end
  end.

Fixpoint distinct_ci (l : list string) : bool :=
  match l with
  | [] => true
  | x :: l' => negb (existsb (eqb_ci x) l') && distinct_ci l'
  end.

Definition parse_create (q : string) : option create_stmt :=
  match drop_prefix "CREATE TABLE " q with
  | None => None
  | Some r0 =>
      let '(ine, r1) := optional "IF NOT EXISTS " r0 in
      let '(name, r2) := span_ident r1 in
      if negb (is_ident name) then None
      else
        match drop_prefix " (" r2 with
        | None => None
        | Some r3 =>
            match parse_columns (String.length r3) r3 with
            | None => None
            | Some cols =>
                if (length (List.filter (fun c => col_pk c) cols) <=? 1)%nat
                   && distinct_ci (map col_name cols)
                then Some {| ct_if_not_exists := ine; ct_name := name; ct_cols := cols |}
                else None
            end
        end
  end.

Definition find_table (t : string) (db : database) : option table :=
  find (fun tb => eqb_ci (tbl_name tb) t) db.

Definition create_table (q : string) (db : database) : result database :=
  match parse_create q with
  | None => Raise Unmodelled
  | Some st =>
      match find_table (ct_name st) db with
      | Some _ => if ct_if_not_exists st then Ok db else Raise OperationalError
      | None => Ok (db ++ [{| tbl_name := ct_name st; tbl_cols := ct_cols st;
                              tbl_rows := [] |}])
      end
  end.

(** *** INSERT OR IGNORE / INSERT OR REPLACE *)

Inductive on_conflict : Type := OrIgnore | OrReplace.

(** Text affinity: an integer stored in a [TEXT] column becomes text. *)
Definition affinity (c : column) (v : sqlval) : sqlval :=
  if col_text c
  then match v with SInt z => SText (Py.str_of_int z) | _ => v end
  else v.

Fixpoint assoc_ci (k : string) (l : list (string * sqlval)) : option sqlval :=
  match l with
  | [] => None
  | (k', v) :: l' => if eqb_ci k' k then Some v else assoc_ci k l'
  end.

(** The row that [INSERT INTO t (names) VALUES (vals)] builds: columns
    that are not named get NULL. *)
Definition bind_row (cols : list column) (names : list string) (vals : list sqlval)
  : list sqlval :=
  map (fun c => affinity c (default SNull (assoc_ci (col_name c) (combine names vals)))) cols.

(** The primary key of a row, when it has one that is not NULL. *)
Fixpoint pk_of (cols : list column) (r : list sqlval) : option sqlval :=
  match cols, r with
  | c :: cols', v :: r' =>
      if col_pk c
      then match v with SNull => None | _ => Some v end
      else pk_of cols' r'
  | _, _ => None
  end.

Definition conflict (cols : list column) (r r' : list sqlval) : bool :=
  match pk_of cols r, pk_of cols r' with
  | Some a, Some b => sqlval_eqb a b
  | _, _ => false
  end.

Definition insert_row (oc : on_conflict) (tb : table) (names : list string)
    (vals : list sqlval) : table :=
  let r := bind_row (tbl_cols tb) names vals in
  match oc with
  | OrIgnore =>
      if existsb (conflict (tbl_cols tb) r) (tbl_rows tb) then tb
      else {| tbl_name := tbl_name tb; tbl_cols := tbl_cols tb;
              tbl_rows := tbl_rows tb ++ [r] |}
  | OrReplace =>
      {| tbl_name := tbl_name tb; tbl_cols := tbl_cols tb;
         tbl_rows := List.filter (fun r' => negb (conflict (tbl_cols tb) r r')) (tbl_rows tb)
                     ++ [r] |}
  end.

Definition has_column (tb : table) (n : string) : bool :=
  existsb (fun c => eqb_ci (col_name c) n) (tbl_cols tb).

(** Compiling [INSERT ... INTO t (names) VALUES (?, ...)]. *)
Definition prepare_insert (t : string) (names : list string) (db : database)
  : result table :=
  if negb (is_ident t && forallb is_ident names && distinct_ci names)
  then Raise Unmodelled
  else match names with
       | [] => Raise OperationalError
       | _ =>
           match find_table t db with
           | None => Raise OperationalError
           | Some tb =>
               if forallb (has_column tb) names then Ok tb
               else Raise OperationalError
           end
       end.

Definition put_table (tb : table) (db : database) : database :=
  map (fun x => if eqb_ci (tbl_name x) (tbl_name tb) then tb else x) db.

(** *** DELETE and SELECT on the [key] column *)

Definition cell (tb : table) (n : string) (r : list sqlval) : option sqlval :=
  assoc_ci n (combine (map col_name (tbl_cols tb)) r).

Definition key_is (tb : table) (k : string) (r : list sqlval) : bool :=
  match cell tb "key" r with
  | Some v => sqlval_eqb v (SText k)
  | None => false
  end.

Definition delete_key (tb : table) (k : string) : table :=
  {| tbl_name := tbl_name tb; tbl_cols := tbl_cols tb;
     tbl_rows := List.filter (fun r => negb (key_is tb k r)) (tbl_rows tb) |}.

End Sql.

(** ** A connection at work

    The methods of [ModelDataManager] act on [self.conn], a
    [sqlite3.Connection] in its default (deferred) isolation mode.  A
    [session] is what such a connection reads and writes: the database
    as the connection sees it, whether a transaction is open, and the
    content of the file, which changes on commit only. *)

Record session : Type := {
  db : Sql.database;
  in_tx : bool;
  file : Sql.database;
}.

(** [cursor.execute(query)] for a table creation: it joins the open
    transaction, or else takes effect on the file at once. *)
Definition execute_create (q : string) : M session unit :=
  fun s =>
    match Sql.create_table q (db s) with
    | Raise e => (Raise e, s)
    | Ok d =>
        (Ok tt, {| db := d; in_tx := in_tx s;
                   file := if in_tx s then file s else d |})
    end.

Fixpoint insert_many (oc : Sql.on_conflict) (names : list string)
    (rows : list (list pyval)) : M Sql.table unit :=
  match rows with
  | [] => ret tt
  | r :: rows' =>
      if (length r =? length names)%nat
      then if forallb fits r
           then modify (fun tb => Sql.insert_row oc tb names (map adapt r)) ;;;
                insert_many oc names rows'
           else raise OverflowError
      else raise ProgrammingError
  end.

(** [cursor.executemany('INSERT OR ... INTO t (names) VALUES (?, ...)', rows)]:
    the statement is compiled, a transaction is opened, the rows are
    inserted one by one. *)
Definition executemany_insert (oc : Sql.on_conflict) (t : string)
    (names : list string) (rows : list (list pyval)) : M session unit :=
  fun s =>
    match Sql.prepare_insert t names (db s) with
    | Raise e => (Raise e, s)
    | Ok tb =>
        let '(r, tb') := insert_many oc names rows tb in
        (r, {| db := Sql.put_table tb' (db s); in_tx := true; file := file s |})
    end.

(** [cursor.execute('DELETE FROM t WHERE key=?', key)] *)
Definition execute_delete (t : string) (key : string) : M session unit :=
  fun s =>
    if negb (Sql.is_ident t) then (Raise Unmodelled, s)
    else
      match Sql.find_table t (db s) with
      | None => (Raise OperationalError, s)
      | Some tb =>
          if negb (Sql.has_column tb "key") then (Raise OperationalError, s)
          else (Ok tt, {| db := Sql.put_table (Sql.delete_key tb key) (db s);
                          in_tx := true; file := file s |})
      end.

(** [conn.commit()] *)
Definition commit : M session unit :=
  modify (fun s => {| db := db s; in_tx := false; file := db s |}).

(** ** ModelDataManager: the method bodies *)

(** The [INSERT OR IGNORE] of the default rows: columns from the first
    row, one parameter tuple per row. *)
Definition insert_defaults (b : TableBuilder) : M session unit :=
  t <- lift (table_name b) ;;
  match default_values b with
  | [] => raise IndexError
  | d0 :: _ =>
      executemany_insert Sql.OrIgnore t (keys d0) (map values (default_values b))
  end.

(** The first test of the loop body of [__get_connection]: a table
    that is not listed in [tables] is created and seeded; the result is
    [commit_on_close]. *)
Definition create_missing (tables : list string) (b : TableBuilder)
    (commit_on_close : bool) : M session bool :=
  t <- lift (table_name b) ;;
  if negb (mem t tables)
  then execute_create (query b) ;;;
       (match default_values b with
        | [] => ret tt
        | _ => insert_defaults b
        end) ;;;
       ret true
  else ret commit_on_close.

(** The second test of the loop body: the reseed step. *)
Definition reseed (b : TableBuilder) : M session unit :=
  if insert_on_reconnect b then insert_defaults b else ret tt.

(** The loop over [self.builders]; [tables] was read before it. *)
Fixpoint init_tables (tables : list string) (bs : list TableBuilder)
    (commit_on_close : bool) : M session bool :=
  match bs with
  | [] => ret commit_on_close
  | b :: bs' =>
      c <- create_missing tables b commit_on_close ;;
      reseed b ;;;
      init_tables tables bs' c
  end.

(** [SELECT name FROM sqlite_master WHERE type="table"], which is also
    the property [ModelDataManager.tables]. *)
Definition tables : M session (list string) :=
  gets (fun s => map Sql.tbl_name (db s)).

(** What [__get_connection] does once connected. *)
Definition initialise (bs : list TableBuilder) : M session unit :=
  ts <- tables ;;
  commit_on_close <- init_tables ts bs false ;;
  if commit_on_close then commit else ret tt.

(** *** The same loop, over any engine

    [__get_connection] hands four kinds of requests to sqlite3: the
    listing of the tables, the statement of a builder, the
    [INSERT OR IGNORE] of its default rows and the commit.  Everything
    else it does with the builders alone.  Here the engine is a
    parameter: any state, and any outcome of each request. *)
Record engine (S : Type) : Type := {
  eng_tables : M S (list string);
  eng_execute : string -> M S unit;
  eng_insert_ignore : string -> list string -> list (list pyval) -> M S unit;
  eng_commit : M S unit;
}.

Arguments eng_tables {S} _.
Arguments eng_execute {S} _ _.
Arguments eng_insert_ignore {S} _ _ _ _.
Arguments eng_commit {S} _.

Section Bootstrap.

Context {S : Type} (E : engine S).

Definition insert_defaults_on (b : TableBuilder) : M S unit :=
  t <- lift (table_name b) ;;
  match default_values b with
  | [] => raise IndexError
  | d0 :: _ => eng_insert_ignore E t (keys d0) (map values (default_values b))
  end.

Definition create_missing_on (tables : list string) (b : TableBuilder)
    (commit_on_close : bool) : M S bool :=
  t <- lift (table_name b) ;;
  if negb (mem t tables)
  then eng_execute E (query b) ;;;
       (match default_values b with
        | [] => ret tt
        | _ => insert_defaults_on b
        end) ;;;
       ret true
  else ret commit_on_close.

Definition reseed_on (b : TableBuilder) : M S unit :=
  if insert_on_reconnect b then insert_defaults_on b else ret tt.

Fixpoint init_tables_on (tables : list string) (bs : list TableBuilder)
    (commit_on_close : bool) : M S bool :=
  match bs with
  | [] => ret commit_on_close
  | b :: bs' =>
      c <- create_missing_on tables b commit_on_close ;;
      reseed_on b ;;;
      init_tables_on tables bs' c
  end.

Definition bootstrap_on (bs : list TableBuilder) : M S unit :=
  ts <- eng_tables E ;;
  commit_on_close <- init_tables_on ts bs false ;;
  if commit_on_close then eng_commit E else ret tt.

End Bootstrap.

(** The engine of this development: the fragment of sqlite3 above. *)
Definition sqlite : engine session :=
  {| eng_tables := tables;
     eng_execute := execute_create;
     eng_insert_ignore := executemany_insert Sql.OrIgnore;
     eng_commit := commit |}.

(** [ModelDataManager.extract_column_names] *)
Definition extract_column_names (t : string) : M session (list string) :=
  fun s =>
    if negb (Sql.is_ident t) then (Raise Unmodelled, s)
    else
      match Sql.find_table t (db s) with
      | None => (Raise OperationalError, s)
      | Some tb => (Ok (map Sql.col_name (Sql.tbl_cols tb)), s)
      end.

(** A [sqlite3.Row]: the values of a row, by column name. *)
Definition row : Type := list (string * sqlval).

Definition row_get (n : string) (r : row) : result pyval :=
  match Sql.assoc_ci n r with
  | Some v => Ok (to_python v)
  | None => Raise IndexError
  end.

Definition rows_of (tb : Sql.table) (rs : list (list sqlval)) : list row :=
  map (fun r => combine (map Sql.col_name (Sql.tbl_cols tb)) r) rs.

(** [self.fetch('SELECT * FROM t WHERE key=?', key)] *)
Definition fetch_key (t : string) (key : string) : M session (option row) :=
  fun s =>
    if negb (Sql.is_ident t) then (Raise Unmodelled, s)
    else
      match Sql.find_table t (db s) with
      | None => (Raise OperationalError, s)
      | Some tb =>
          if negb (Sql.has_column tb "key") then (Raise OperationalError, s)
          else (Ok (head (rows_of tb (List.filter (Sql.key_is tb key) (Sql.tbl_rows tb)))), s)
      end.

(** [self.fetchall('SELECT * FROM t')] *)
Definition fetchall_table (t : string) : M session (list row) :=
  fun s =>
    if negb (Sql.is_ident t) then (Raise Unmodelled, s)
    else
      match Sql.find_table t (db s) with
      | None => (Raise OperationalError, s)
      | Some tb => (Ok (rows_of tb (Sql.tbl_rows tb)), s)
      end.

(** The two tests that open every key/value shortcut. *)
Definition check_dict_table (t : string) : M session unit :=
  ts <- tables ;;
  if negb (mem t ts) then raise (ValueError (TableMissing t))
  else
    columns <- extract_column_names t ;;
    if negb (mem "key" columns) || negb (mem "value" columns)
    then raise (ValueError (NotKeyValue t))
    else ret tt.

Definition apply_cast (c : cast) (v : pyval) : result pyval :=
  match c with
  | CastBool => z <-- Cast.int v ;; Ok (PBool (Cast.bool_of_int z))
  | CastStr => Ok (PStr (Cast.str v))
  | CastInt => z <-- Cast.int v ;; Ok (PInt z)
  end.

(** [ModelDataManager.get_dict_value]; the result [None] is Python's. *)
Definition get_dict_value (t : string) (key : string) (c : cast)
  : M session (option pyval) :=
  check_dict_table t ;;;
  r <- fetch_key t key ;;
  match r with
  | None => ret None
  | Some r =>
      v <- lift (row_get "value" r) ;;
      v' <- lift (apply_cast c v) ;;
      ret (Some v')
  end.

(** The dictionary comprehension of [get_dict_values]. *)
Fixpoint dict_put {V} (k : pyval) (v : V) (d : list (pyval * V)) : list (pyval * V) :=
  match d with
  | [] => [(k, v)]
  | (k', v') :: d' =>
      if sqlval_eqb (adapt k') (adapt k) then (k', v) :: d'
      else (k', v') :: dict_put k v d'
  end.

Fixpoint collect_values (rs : list row) (acc : list (pyval * string))
  : result (list (pyval * string)) :=
  match rs with
  | [] => Ok acc
  | r :: rs' =>
      k <-- row_get "key" r ;;
      v <-- row_get "value" r ;;
      collect_values rs' (dict_put k (Cast.str v) acc)
  end.

(** [ModelDataManager.get_dict_values] *)
Definition get_dict_values (t : string) : M session (list (pyval * string)) :=
  check_dict_table t ;;;
  rs <- fetchall_table t ;;
  lift (collect_values rs []).

(** [ModelDataManager.set_dict_value]; [str(value)] is taken within the
    limit that Python sets to the conversion of an [int] to text. *)
Definition set_dict_value (t : string) (key : string) (value : pyval)
  : M session unit :=
  check_dict_table t ;;;
  let value := match value with
               | PBool b => PInt (if b then 1 else 0)
               | v => v
               end in
  let dump := Cast.str value in
  executemany_insert Sql.OrReplace t ["key"; "value"] [[PStr key; PStr dump]] ;;;
  commit.

(** [ModelDataManager.delete_dict_value] *)
Definition delete_dict_value (t : string) (key : string) : M session unit :=
  check_dict_table t ;;;
  execute_delete t key ;;;
  commit.

(** ** Files, connection objects and the broker's state *)

(** A [pathlib.Path], by components. *)
Abbreviation path := (list string).

Record connection : Type := {
  conn_path : path;
  conn_db : Sql.database;     (* the database as the connection sees it *)
  conn_in_tx : bool;          (* a transaction is open: writes pending *)
  conn_closed : bool;
}.

(** The key of [CogData.__builders]: a class or a name. *)
Inductive model_type : Type :=
  | TypeOf (kind : string)
  | Name (name : string).

Record ModelDataManager : Type := {
  self_model : model;
  self_builders : list TableBuilder;
  conn : nat;                 (* the connection object, by handle *)
}.

Global Instance model_eq_dec : EqDecision model.
Proof. solve_decision. Defined.

Global Instance model_countable : Countable model.
Proof.
  refine (inj_countable'
    (fun m => match m with
              | Snowflake k i => inl (k, i)
              | Named s => inr s
              end)
    (fun x => match x with
              | inl (k, i) => Snowflake k i
              | inr s => Named s
              end) _).
  intros []; reflexivity.
Defined.

Global Instance model_type_eq_dec : EqDecision model_type.
Proof. solve_decision. Defined.

Global Instance model_type_countable : Countable model_type.
Proof.
  refine (inj_countable'
    (fun m => match m with
              | TypeOf k => inl k
              | Name s => inr s
              end)
    (fun x => match x with
              | inl k => TypeOf k
              | inr s => Name s
              end) _).
  intros []; reflexivity.
Defined.

(** The fields of a [CogData] object, the database files on disk (by
    path; folders are not recorded) and the connection objects opened
    so far. *)
Record state : Type := {
  cog_name : string;
  managers : gmap model ModelDataManager;          (* __managers *)
  builders : gmap model_type (list TableBuilder);  (* __builders *)
  fs : gmap path Sql.database;                     (* database files *)
  conns : list connection;                         (* by handle *)
}.

Definition set_managers (f : gmap model ModelDataManager -> gmap model ModelDataManager)
    (st : state) : state :=
  {| cog_name := cog_name st; managers := f (managers st); builders := builders st;
     fs := fs st; conns := conns st |}.

Definition set_builders
    (f : gmap model_type (list TableBuilder) -> gmap model_type (list TableBuilder))
    (st : state) : state :=
  {| cog_name := cog_name st; managers := managers st; builders := f (builders st);
     fs := fs st; conns := conns st |}.

Definition set_fs (f : gmap path Sql.database -> gmap path Sql.database)
    (st : state) : state :=
  {| cog_name := cog_name st; managers := managers st; builders := builders st;
     fs := f (fs st); conns := conns st |}.

Definition set_conns (f : list connection -> list connection) (st : state) : state :=
  {| cog_name := cog_name st; managers := managers st; builders := builders st;
     fs := fs st; conns := f (conns st) |}.

(** [sqlite3.connect(path)]: the file is created when it is missing;
    the result is the handle of the new connection object. *)
Definition connect (p : path) : M state nat :=
  fun st =>
    let d := default [] (fs st !! p) in
    let c := {| conn_path := p; conn_db := d; conn_in_tx := false;
                conn_closed := false |} in
    (Ok (length (conns st)),
     set_conns (fun cs => cs ++ [c]) (set_fs (insert p d) st)).

(** Running a method body on the connection object [h].  A closed
    connection refuses every operation; commits reach the file as long
    as it has not been unlinked.  A connection is taken alone here: the
    locks that SQLite sets between two connections to one file are not
    part of the fragment. *)
Definition on_conn {A} (h : nat) (m : M session A) : M state A :=
  fun st =>
    match conns st !! h with
    | None => (Raise ProgrammingError, st)
    | Some c =>
        if conn_closed c then (Raise ProgrammingError, st)
        else
          let s := {| db := conn_db c; in_tx := conn_in_tx c;
                      file := default [] (fs st !! conn_path c) |} in
          let '(r, s') := m s in
          let c' := {| conn_path := conn_path c; conn_db := db s';
                       conn_in_tx := in_tx s'; conn_closed := false |} in
          (r, set_fs (alter (fun _ => file s') (conn_path c))
                (set_conns (insert h c') st))
    end.

(** [conn.close()]: pending writes are dropped. *)
Definition conn_close (h : nat) : M state unit :=
  modify (set_conns (alter (fun c =>
    {| conn_path := conn_path c; conn_db := conn_db c; conn_in_tx := false;
       conn_closed := true |}) h)).

(** [ModelDataManager.__get_connection] *)
Definition get_connection (bs : list TableBuilder) (p : path) : M state nat :=
  h <- connect p ;;
  on_conn h (initialise bs) ;;;
  ret h.

(** [ModelDataManager.__init__] *)
Definition ModelDataManager_init (m : model) (db_path : path) (bs : list TableBuilder)
  : M state ModelDataManager :=
  h <- get_connection bs db_path ;;
  ret {| self_model := m; self_builders := bs; conn := h |}.

(** Calling a method of the manager [self]. *)
Definition call {A} (self : ModelDataManager) (m : M session A) : M state A :=
  on_conn (conn self) m.

(** [ModelDataManager.close] *)
Definition close_manager (self : ModelDataManager) : M state unit :=
  conn_close (conn self).

(** ** CogData *)

Module CogData.

Definition cog_folder (st : state) : path := ["cogs"; cog_name st].

Definition lower_type (mt : model_type) : model_type :=
  match mt with
  | Name s => Name (Py.lower s)
  | TypeOf k => TypeOf k
  end.

(** [CogData.link] *)
Definition link (mt : model_type) (bs : list TableBuilder) : M state unit :=
  modify (set_builders (insert (lower_type mt) bs)).

(** [CogData.get_linked_builders] *)
Definition get_linked_builders (mt : model_type) : M state (list TableBuilder) :=
  gets (fun st => default [] (builders st !! lower_type mt)).

Definition type_of (m : model) : model_type :=
  match m with
  | Snowflake k _ => TypeOf k
  | Named s => Name s
  end.

(** Where [__get_manager] puts the database of a scope. *)
Definition db_path (st : state) (m : model) : path :=
  (cog_folder st ++ ["data"]) ++ [model_db_name m +:+ ".db"].

(** [CogData.__get_manager]; the [data] folder is made when missing,
    which leaves no trace in a state that records files only. *)
Definition get_manager (m : model) : M state ModelDataManager :=
  defaults <- get_linked_builders (type_of m) ;;
  p <- gets (fun st => db_path st m) ;;
  ModelDataManager_init m p defaults.

(** [model.lower()] when the scope is a [str]. *)
Definition lower_model (m : model) : model :=
  match m with
  | Named s => Named (Py.lower s)
  | Snowflake k i => Snowflake k i
  end.

(** [CogData.get] *)
Definition get (m : model) : M state ModelDataManager :=
  let m := lower_model m in
  ms <- gets managers ;;
  match ms !! m with
  | Some mgr => ret mgr
  | None =>
      mgr <- get_manager m ;;
      modify (set_managers (insert m mgr)) ;;;
      ret mgr
  end.

(** [CogData.close] *)
Definition close (m : model) : M state unit :=
  let m := lower_model m in
  ms <- gets managers ;;
  match ms !! m with
  | Some mgr =>
      close_manager mgr ;;;
      modify (set_managers (delete m))
  | None => ret tt
  end.

(** [CogData.close_all] *)
Definition close_all : M state unit :=
  modify (fun st =>
    set_managers (fun _ => ∅)
      (map_fold (fun _ mgr s => snd (close_manager mgr s)) st (managers st))).

(** The file that [CogData.delete] unlinks. *)
Definition unlinked_path (st : state) (m : model) : path :=
  cog_folder st ++ [model_db_name m +:+ ".db"].

(** [CogData.delete] *)
Definition delete (m : model) : M state unit :=
  let m := lower_model m in
  ms <- gets managers ;;
  (match ms !! m with
   | Some mgr =>
       close_manager mgr ;;;
       modify (set_managers (delete m))
   | None => ret tt
   end) ;;;
  p <- gets (fun st => unlinked_path st m) ;;
  modify (set_fs (delete p)).

Fixpoint endswith (suffix s : string) : bool :=
  String.eqb suffix s ||
  match s with
  | EmptyString => false
  | String _ s' => endswith suffix s'
  end.

(** The paths that [self.cog_folder.glob('*.db')] yields. *)
Definition in_glob (folder p : path) : bool :=
  match drop (length folder) p with
  | [n] => bool_decide (take (length folder) p = folder) && endswith ".db" n
  | _ => false
  end.

(** [CogData.delete_all] *)
Definition delete_all : M state unit :=
  close_all ;;;
  modify (fun st =>
    set_fs (filter (fun kv => in_glob (cog_folder st) (fst kv) = false)) st).

(** *** The cache as a dictionary of objects

    [__managers] is a [dict] keyed by the scopes themselves: two scopes
    are one key when the [__eq__] and [__hash__] of their classes say
    so.  For a [str] that is equality of the text; for the objects of
    discord.py it is decided by classes that are not part of this
    repository.  [dict_key] stands for that identification: it sends a
    scope to one scope chosen among those equal to it.  The functions
    [get], [close] and [delete] above are [get_by], [close_by] and
    [delete_by] for scopes that are equal only to the scopes of the
    same class and id. *)
Section Keys.

Variable dict_key : model -> model.

(** [CogData.get] *)
Definition get_by (m : model) : M state ModelDataManager :=
  let m := lower_model m in
  ms <- gets managers ;;
  match ms !! dict_key m with
  | Some mgr => ret mgr
  | None =>
      mgr <- get_manager m ;;
      modify (set_managers (insert (dict_key m) mgr)) ;;;
      ret mgr
  end.

(** [CogData.close] *)
Definition close_by (m : model) : M state unit :=
  let m := lower_model m in
  ms <- gets managers ;;
  match ms !! dict_key m with
  | Some mgr =>
      close_manager mgr ;;;
      modify (set_managers (base.delete (dict_key m)))
  | None => ret tt
  end.

(** [CogData.delete] *)
Definition delete_by (m : model) : M state unit :=
  let m := lower_model m in
  ms <- gets managers ;;
  (match ms !! dict_key m with
   | Some mgr =>
       close_manager mgr ;;;
       modify (set_managers (base.delete (dict_key m)))
   | None => ret tt
   end) ;;;
  p <- gets (fun st => unlinked_path st m) ;;
  modify (set_fs (base.delete p)).

End Keys.

End CogData.

(** ** Notions used to state the properties *)

(** The characters decimal numerals are made of. *)
Definition numeral_char (c : ascii) : bool :=
  Py.in_range "0" "9" c || Ascii.eqb c "-".

(** Two scopes of one family: both typed identities, or both names
    written with the characters [a-z0-9_] only. *)
Definition key_domain (m1 m2 : model) : bool :=
  match m1, m2 with
  | Snowflake _ _, Snowflake _ _ => true
  | Named s1, Named s2 => Sql.all_chars key_char s1 && Sql.all_chars key_char s2
  | _, _ => false
  end.

(** Scopes that the broker cannot tell apart: typed identities with the
    same id whose kinds agree up to letter case, or equal names. *)
Definition same_scope (m1 m2 : model) : Prop :=
  match m1, m2 with
  | Snowflake k1 i1, Snowflake k2 i2 => Py.lower k1 = Py.lower k2 /\ i1 = i2
  | Named s1, Named s2 => s1 = s2
  | _, _ => False
  end.

(** The default rows all have the same set of fields. *)
Definition uniform_fields (ds : list dict) : Prop :=
  forall d1 d2, In d1 ds -> In d2 ds -> forall k, In k (keys d1) <-> In k (keys d2).

(** The columns that [DictTableBuilder] declares, and its statement. *)
Definition kv_cols : list Sql.column :=
  [ {| Sql.col_name := "key"; Sql.col_text := true; Sql.col_pk := true |};
    {| Sql.col_name := "value"; Sql.col_text := true; Sql.col_pk := false |} ].

Definition dict_query (name : string) : string :=
  "CREATE TABLE IF NOT EXISTS " +:+ name +:+ " (key TEXT PRIMARY KEY, value TEXT)".

Definition kv_table (name : string) (rows : list (list sqlval)) : Sql.table :=
  {| Sql.tbl_name := name; Sql.tbl_cols := kv_cols; Sql.tbl_rows := rows |}.

(** What a [TEXT] column keeps of a Python value. *)
Definition stored (v : pyval) : sqlval :=
  match adapt v with
  | SInt z => SText (Py.str_of_int z)
  | x => x
  end.

(** The row of a key/value table for one item of the defaults. *)
Definition kv_row (kv : string * pyval) : list sqlval :=
  [SText (fst kv); stored (snd kv)].

(** A row of a key/value table has the key [k]. *)
Definition row_has_key (k : string) (r : list sqlval) : bool :=
  match r with
  | SText k' :: _ => String.eqb k k'
  | _ => false
  end.

Definition has_key (k : string) (rows : list (list sqlval)) : bool :=
  existsb (row_has_key k) rows.

(** The rows after [INSERT OR IGNORE] of [new], one by one. *)
Definition insert_ignore_rows (cols : list Sql.column) (new rows : list (list sqlval))
  : list (list sqlval) :=
  fold_left
    (fun acc r => if existsb (Sql.conflict cols r) acc then acc else acc ++ [r])
    new rows.

(** No row of [new] clashes on the primary key with a row of [acc] or
    with an earlier row of [new]. *)
Fixpoint no_clash (cols : list Sql.column) (acc new : list (list sqlval)) : bool :=
  match new with
  | [] => true
  | r :: new' =>
      negb (existsb (Sql.conflict cols r) acc) && no_clash cols (acc ++ [r]) new'
  end.

(** The rows that a schema's defaults make in a table with columns
    [cols]. *)
Definition default_rows (cols : list Sql.column) (b : TableBuilder)
  : list (list sqlval) :=
  match default_values b with
  | [] => []
  | d0 :: _ =>
      map (fun d => Sql.bind_row cols (keys d0) (map adapt (values d)))
          (default_values b)
  end.

(** Databases as the engine makes them: tables named by identifiers,
    no two names equal up to letter case. *)
Definition wf_db (d : Sql.database) : bool :=
  forallb Sql.is_ident (map Sql.tbl_name d) && Sql.distinct_ci (map Sql.tbl_name d).

(** The errors of the key/value contract. *)
Definition contract_error (t : string) (e : exn) : Prop :=
  e = ValueError (TableMissing t) \/ e = ValueError (NotKeyValue t).

(** A table of the database is named [t], letter for letter, and has
    a column spelled [key] and a column spelled [value]. *)
Definition key_value_table (t : string) (d : Sql.database) : Prop :=
  exists tb, In tb d /\ Sql.tbl_name tb = t /\
    In "key" (map Sql.col_name (Sql.tbl_cols tb)) /\
    In "value" (map Sql.col_name (Sql.tbl_cols tb)).

(** The test that the key/value shortcuts make: the table is listed
    and has a column [key] and a column [value]. *)
Definition dict_table_ok (t : string) (d : Sql.database) : bool :=
  mem t (map Sql.tbl_name d) &&
  match Sql.find_table t d with
  | Some tb =>
      mem "key" (map Sql.col_name (Sql.tbl_cols tb)) &&
      mem "value" (map Sql.col_name (Sql.tbl_cols tb))
  | None => false
  end.

(** The table that a creation statement declares, holding [rows]. *)
Definition table_of (stmt : Sql.create_stmt) (rows : list (list sqlval)) : Sql.table :=
  {| Sql.tbl_name := Sql.ct_name stmt; Sql.tbl_cols := Sql.ct_cols stmt;
     Sql.tbl_rows := rows |}.

(** The state once a connection to [p] has been opened and has run a
    method body that left the session [s]. *)
Definition opened (p : path) (s : session) (st : state) : state :=
  {| cog_name := cog_name st; managers := managers st; builders := builders st;
     fs := <[p := file s]> (fs st);
     conns := conns st ++ [{| conn_path := p; conn_db := db s;
                              conn_in_tx := in_tx s; conn_closed := false |}] |}.

(** The session in which a new connection to [p] starts. *)
Definition fresh_session (p : path) (st : state) : session :=
  {| db := default [] (fs st !! p); in_tx := false;
     file := default [] (fs st !! p) |}.

(** The key/value schema that [DictTableBuilder(name, defaults)] builds
    (see [DictTableBuilder_init_ok] below). *)
Definition kv_schema (name : string) (defaults : dict) (reconnect : bool)
  : TableBuilder :=
  {| query := dict_query name;
     default_values :=
       map (fun kv => [("key", PStr (fst kv)); ("value", snd kv)]) defaults;
     insert_on_reconnect := reconnect |}.

(** The default items whose key no row of the table has. *)
Definition missing (defaults : dict) (rows : list (list sqlval)) : dict :=
  List.filter (fun kv => negb (has_key (fst kv) rows)) defaults.

(** What the manager [mgr] sees of its database. *)
Definition view (mgr : ModelDataManager) (st : state) : option Sql.database :=
  match conns st !! conn mgr with
  | Some c => if conn_closed c then None else Some (conn_db c)
  | None => None
  end.

(** [get(scope)], [close(scope)], then [get(scope)] again: what the
    second manager sees. *)
Definition reopened_view (m : model) : M state (option Sql.database) :=
  (CogData.get m ;;; CogData.close m ;;; mgr <- CogData.get m ;; gets (view mgr)).

(** ** Sample data, after the modules of the bot *)

Module Sample.

(** The settings of the [colors] module, linked to [discord.Guild]. *)
Definition settings : TableBuilder :=
  kv_schema "settings"
    [("Enabled", PBool false); ("PlaceNewColorRole", PStr "AboveLowest")] true.

Definition guild : model := Snowflake "Guild" 42.

(** A process that has just linked its schema; nothing is on disk. *)
Definition colors : state :=
  {| cog_name := "colors"; managers := ∅;
     builders := {[ TypeOf "Guild" := [settings] ]};
     fs := ∅; conns := [] |}.

(** A general schema without a primary key, reseeded on every open. *)
Definition notes : TableBuilder :=
  {| query := "CREATE TABLE notes (body TEXT)";
     default_values := [[("body", PStr "hello")]];
     insert_on_reconnect := true |}.

Definition notebook : state :=
  {| cog_name := "notebook"; managers := ∅;
     builders := {[ Name "global" := [notes] ]};
     fs := ∅; conns := [] |}.

Definition notes_table (rows : list (list sqlval)) : Sql.table :=
  {| Sql.tbl_name := "notes";
     Sql.tbl_cols := [{| Sql.col_name := "body"; Sql.col_text := true;
                         Sql.col_pk := false |}];
     Sql.tbl_rows := rows |}.

End Sample.

Module Sample2.

(** A later version of the settings: one default key was added. *)
Definition settings : TableBuilder :=
  kv_schema "settings"
    [("Enabled", PBool false); ("PlaceNewColorRole", PStr "AboveLowest");
     ("Limit", PInt 5)] true.

(** The stored table of a guild that switched [Enabled] on. *)
Definition stored_rows : list (list sqlval) :=
  [[SText "Enabled"; SText "1"];
   [SText "PlaceNewColorRole"; SText "AboveLowest"]].

Definition guild_path : path := ["cogs"; "colors"; "data"; "guild_42.db"].

(** The process after the upgrade, before the guild is opened. *)
Definition colors : state :=
  {| cog_name := "colors"; managers := ∅;
     builders := {[ TypeOf "Guild" := [settings] ]};
     fs := {[ guild_path := [kv_table "settings" stored_rows] ]};
     conns := [] |}.

End Sample2.

(** A method call raised an error of the key/value contract. *)
Definition contract_violation {A} (t : string) (x : result A * session) : Prop :=
  exists e, contract_error t e /\ fst x = Raise e.

Module Sample3.

(** A table with the two columns of a key/value table and one more. *)
Definition prefs (rows : list (list sqlval)) : Sql.table :=
  {| Sql.tbl_name := "prefs";
     Sql.tbl_cols :=
       kv_cols ++ [{| Sql.col_name := "note"; Sql.col_text := true;
                      Sql.col_pk := false |}];
     Sql.tbl_rows := rows |}.

Definition before : session :=
  {| db := [prefs []]; in_tx := false; file := [prefs []] |}.

Definition after : session :=
  {| db := [prefs [[SText "flag"; SText "1"; SNull]]]; in_tx := false;
     file := [prefs [[SText "flag"; SText "1"; SNull]]] |}.

End Sample3.

(** The text that [set_dict_value] stores for a [bool]. *)
Definition bool_text (b : bool) : string := if b then "1" else "0".

(** The key/value table after an upsert of [key]. *)
Definition upsert (key : string) (text : string) (rows : list (list sqlval))
  : list (list sqlval) :=
  List.filter (fun r => negb (row_has_key key r)) rows ++ [[SText key; SText text]].

(** The session after a committed write that left the database [d]. *)
Definition committed (d : Sql.database) : session :=
  {| db := d; in_tx := false; file := d |}.

(** ** What a process does with a [CogData] *)

(** The calls that the modules make; a call that raises leaves the
    state it reached, and the process goes on. *)
Inductive action : Type :=
  | Get (m : model)
  | Close (m : model)
  | Delete (m : model)
  | Link (mt : model_type) (bs : list TableBuilder)
  | Call (mgr : ModelDataManager) (body : M session unit)
  | CloseAll
  | DeleteAll.

Definition perform (dict_key : model -> model) (st : state) (a : action) : state :=
  match a with
  | Get m => snd (CogData.get_by dict_key m st)
  | Close m => snd (CogData.close_by dict_key m st)
  | Delete m => snd (CogData.delete_by dict_key m st)
  | Link mt bs => snd (CogData.link mt bs st)
  | Call mgr body => snd (call mgr body st)
  | CloseAll => snd (CogData.close_all st)
  | DeleteAll => snd (CogData.delete_all st)
  end.

(** The calls that close or delete the scope [m], or a scope that is
    the same key of the cache. *)
Definition evicts (dict_key : model -> model) (m : model) (a : action) : bool :=
  match a with
  | Close m' | Delete m' =>
      bool_decide (dict_key (CogData.lower_model m') = dict_key (CogData.lower_model m))
  | CloseAll | DeleteAll => true
  | _ => false
  end.

Module Sample4.

(** Keys of the cache under which a member of a guild is the user of
    the same id, and every other scope is itself. *)
Definition member_is_user (m : model) : model :=
  match m with
  | Snowflake kind id => if String.eqb kind "Member" then Snowflake "User" id else m
  | Named _ => m
  end.

(** What the process does between two [get]s of the guild. *)
Definition between : list action :=
  [ Get (Named "global");
    Call {| self_model := Sample.guild; self_builders := [Sample.settings];
            conn := 0 |}
         (set_dict_value "settings" "Enabled" (PBool true));
    Close (Named "global");
    Get (Snowflake "User" 42);
    Close (Snowflake "Member" 42);
    Link (Name "global") [Sample.notes];
    Get Sample.guild ].

(** A guild switches [Enabled] on, its data are deleted, and the guild
    is opened again. *)
Definition delete_then_get : M state (option pyval) :=
  (mgr <- CogData.get Sample.guild ;;
   call mgr (set_dict_value "settings" "Enabled" (PBool true)) ;;;
   CogData.delete Sample.guild ;;;
   mgr' <- CogData.get Sample.guild ;;
   call mgr' (get_dict_value "settings" "Enabled" CastBool)).

(** The stored table of [Sample2], with the new default key. *)
Definition reseeded_rows : list (list sqlval) :=
  Sample2.stored_rows ++ [[SText "Limit"; SText "5"]].

End Sample4.

(** ** Further notions, for the properties beyond the claims *)

(** The row that [SELECT * FROM t WHERE key=?] yields on a key/value
    table: the first row with that key. *)
Definition kv_find (k : string) (rows : list (list sqlval)) : option (list sqlval) :=
  head (List.filter (row_has_key k) rows).

(** What [get_dict_value] makes of the row it fetched. *)
Definition read_value (c : cast) (r : list sqlval) : result (option pyval) :=
  v <-- row_get "value" (combine ["key"; "value"] r) ;;
  v' <-- apply_cast c v ;;
  Ok (Some v').

(** The rows of a key/value table without those of key [k]. *)
Definition without_key (k : string) (rows : list (list sqlval)) : list (list sqlval) :=
  List.filter (fun r => negb (row_has_key k r)) rows.

(** [str(v)] is within the default limit of the conversions between
    [int] and [str] (4300 digits), beyond which [str] and [int] raise. *)
Definition printable (v : pyval) : bool :=
  match v with
  | PInt z => (Z.abs z <? 10 ^ 4300)%Z
  | _ => true
  end.

(** The text that [set_dict_value] writes for a value. *)
Definition dump_of (v : pyval) : string :=
  Cast.str match v with
           | PBool b => PInt (if b then 1 else 0)
           | w => w
           end.

Module Sample5.

(** A session on the stored settings of [Sample2], with one more row
    whose value is NULL. *)
Definition rows : list (list sqlval) :=
  Sample2.stored_rows ++ [[SText "Topic"; SNull]].

Definition settings : session := committed [kv_table "settings" rows].

End Sample5.

(** The connection object [h] refuses every operation: it has been
    closed (or was never made). *)
Definition is_closed (h : nat) (st : state) : bool :=
  match conns st !! h with
  | Some c => conn_closed c
  | None => true
  end.

Module Sample6.

(** A process whose schema for guilds is reseeded on every open and
    has no default row. *)
Definition broken : state :=
  {| cog_name := "colors"; managers := ∅;
     builders := {[ TypeOf "Guild" := [kv_schema "settings" [] true] ]};
     fs := ∅; conns := [] |}.

(** The process of [Sample] once the guild has been opened. *)
Definition running : state := snd (CogData.get Sample.guild Sample.colors).

Definition guild_manager : ModelDataManager :=
  {| self_model := Sample.guild; self_builders := [Sample.settings]; conn := 0 |}.

End Sample6.

(** [p in s] for two strings. *)
Fixpoint has_sub (p s : string) : bool :=
  Py.startswith p s ||
  match s with
  | EmptyString => false
  | String _ s' => has_sub p s'
  end.

(** A schema that an open of the database [d] has nothing to do for:
    its table is listed and its policy is [once]. *)
Definition settled (d : Sql.database) (b : TableBuilder) : bool :=
  negb (insert_on_reconnect b) &&
  match table_name b with
  | Ok t => mem t (map Sql.tbl_name d)
  | Raise _ => false
  end.

Module Sample7.

(** The statement of the [refix] module, past the opening parenthesis:
    the column definitions start on the next line. *)
Definition fixers_columns : string :=
  String newline
    ("guild_id INTEGER, label TEXT, enabled BOOLEAN DEFAULT 1, " +:+
     "PRIMARY KEY (guild_id, label))").

(** A statement that the constructor takes and that names no table
    for [table_name]. *)
Definition tight : TableBuilder :=
  {| query := "CREATE TABLE notes(body TEXT)"; default_values := [];
     insert_on_reconnect := false |}.

(** The settings of [Sample], declared with policy [once]. *)
Definition settings_once : TableBuilder :=
  kv_schema "settings"
    [("Enabled", PBool false); ("PlaceNewColorRole", PStr "AboveLowest")] false.

End Sample7.

(** The [cast] under which a module reads a setting whose default is
    [v], and what comes back of [v]: [None] is stored as NULL, which
    [str] renders. *)
Definition cast_of (v : pyval) : cast :=
  match v with
  | PBool _ => CastBool
  | PInt _ => CastInt
  | _ => CastStr
  end.

Definition read_back (v : pyval) : pyval :=
  match v with
  | PNone => PStr "None"
  | w => w
  end.

(** A row of a key/value table, from its key and its stored value,
    and the entry that [get_dict_values] makes of it. *)
Definition kv_cells (kv : string * sqlval) : list sqlval := [SText (fst kv); snd kv].

Definition kv_text (kv : string * sqlval) : pyval * string :=
  (PStr (fst kv), Cast.str (to_python (snd kv))).

Module Sample8.

(** The stored settings of [Sample5], by key and value. *)
Definition items : list (string * sqlval) :=
  [("Enabled", SText "1"); ("PlaceNewColorRole", SText "AboveLowest");
   ("Topic", SNull)].

(** The defaults of the [msgboard] module. *)
Definition board_defaults : dict :=
  [("BoardChannelID", PInt 0); ("Threshold", PInt 3); ("VoteEmoji", PStr "*");
   ("MaxMessageAge", PInt 86400)].

End Sample8.

Module Sample9.

(** A default that sqlite3 cannot bind: an [int] beyond 64 bits. *)
Definition huge : Z := 2 ^ 64.

Definition counters : TableBuilder :=
  kv_schema "counters" [("Seen", PInt huge); ("Kept", PInt 0)] false.

End Sample9.

(** Two default rows that list the same two fields, the second in the
    other order. *)
Definition crossed (a b : string) (x y u v : pyval) : list dict :=
  [[(a, x); (b, y)]; [(b, u); (a, v)]].

(** A table of two columns without primary key. *)
Definition two_columns (t a b : string) (ta tb : bool) (rows : list (list sqlval))
  : Sql.table :=
  {| Sql.tbl_name := t;
     Sql.tbl_cols := [{| Sql.col_name := a; Sql.col_text := ta; Sql.col_pk := false |};
                      {| Sql.col_name := b; Sql.col_text := tb; Sql.col_pk := false |}];
     Sql.tbl_rows := rows |}.

Module Sample10.

(** Display names, by language. *)
Definition labels : TableBuilder :=
  {| query := "CREATE TABLE IF NOT EXISTS labels (lang TEXT, label TEXT)";
     default_values := crossed "lang" "label" (PStr "fr") (PStr "Couleurs")
                         (PStr "Colors") (PStr "en");
     insert_on_reconnect := false |}.

End Sample10.

(** ** Notions for the reopening of a key/value table *)

(** A schema whose table is not the table [name]. *)
Definition elsewhere (name : string) (b : TableBuilder) : bool :=
  match table_name b with
  | Ok t => negb (Sql.eqb_ci t name)
  | Raise _ => true
  end.

(** No connection object that is still open is on the file [p]: the
    locks that SQLite sets between the connections to one file play
    no part. *)
Definition unshared (p : path) (st : state) : bool :=
  forallb (fun c => conn_closed c || negb (bool_decide (conn_path c = p))) (conns st).

Module Sample12.

(** A second schema of the guilds, after the [msgboard] module. *)
Definition logs : TableBuilder :=
  {| query := "CREATE TABLE IF NOT EXISTS logs (message_id TEXT PRIMARY KEY, copied TEXT)";
     default_values := []; insert_on_reconnect := false |}.

(** The process of [Sample2] with both schemas linked; the file of
    the guild holds the settings only. *)
Definition board : state :=
  {| cog_name := "colors"; managers := ∅;
     builders := {[ TypeOf "Guild" := [logs; Sample2.settings] ]};
     fs := {[ Sample2.guild_path := [kv_table "settings" Sample2.stored_rows] ]};
     conns := [] |}.

End Sample12.

Module Sample13.

(** A table that passes the test of the key/value shortcuts and has
    no primary key. *)
Definition flags (rows : list (list sqlval)) : Sql.table :=
  two_columns "flags" "key" "value" true true rows.

End Sample13.

(** * Properties *)

(** ** Strings *)

Section StringFacts.

Lemma app_nil_l (s : string) : "" +:+ s = s.
Proof. reflexivity. Qed.

Lemma app_cons (c : ascii) (s t : string) : String c s +:+ t = String c (s +:+ t).
Proof. reflexivity. Qed.

Lemma lower_app (s t : string) : Py.lower (s +:+ t) = Py.lower s +:+ Py.lower t.
Proof.
  induction s as [|c s IH]; [reflexivity|].
  rewrite app_cons. simpl. rewrite IH. reflexivity.
Qed.

Lemma numeral_char_lower (c : ascii) :
  numeral_char c = true -> Py.lower_char c = c /\ c <> "_"%char.
Proof.
  destruct c as [[] [] [] [] [] [] [] []]; vm_compute; intros H;
    first [discriminate H | split; [reflexivity | discriminate]].
Qed.

Lemma numeral_lower (s : string) :
  Sql.all_chars numeral_char s = true -> Py.lower s = s.
Proof.
  induction s as [|c s IH]; [reflexivity|].
  simpl. intros [Hc Hs]%andb_prop.
  rewrite (proj1 (numeral_char_lower c Hc)), IH by exact Hs. reflexivity.
Qed.

Lemma numeral_no_underscore (s : string) :
  Sql.all_chars numeral_char s = true -> Py.contains "_" s = false.
Proof.
  induction s as [|c s IH]; [reflexivity|].
  simpl. intros [Hc Hs]%andb_prop.
  rewrite IH by exact Hs.
  destruct (Ascii.eqb_spec c "_") as [->|_]; [|reflexivity].
  destruct (numeral_char_lower _ Hc) as [_ Hne]. congruence.
Qed.

Lemma uint_numeral (d : Decimal.uint) :
  Sql.all_chars numeral_char (NilEmpty.string_of_uint d) = true.
Proof. induction d; simpl; auto. Qed.

Lemma str_of_int_numeral (z : Z) :
  Sql.all_chars numeral_char (Py.str_of_int z) = true.
Proof.
  unfold Py.str_of_int.
  destruct (Z.to_int z) as [d|d]; simpl.
  - destruct d; try reflexivity; apply (uint_numeral (_ d)).
  - destruct d; try reflexivity; apply (uint_numeral (_ d)).
Qed.

Lemma to_int_not_nil (z : Z) :
  Z.to_int z <> Decimal.Pos Decimal.Nil /\ Z.to_int z <> Decimal.Neg Decimal.Nil.
Proof.
  destruct z as [|p|p]; simpl; split; try discriminate;
    intros [= H]; revert H; apply DecimalPos.Unsigned.to_uint_nonnil.
Qed.

Lemma str_of_int_inj (a b : Z) : Py.str_of_int a = Py.str_of_int b -> a = b.
Proof.
  unfold Py.str_of_int. intros H.
  assert (Hs : Some (Z.to_int a) = Some (Z.to_int b)).
  { destruct (to_int_not_nil a), (to_int_not_nil b).
    rewrite <- (NilZero.isi (Z.to_int a)), <- (NilZero.isi (Z.to_int b)) by assumption.
    rewrite H. reflexivity. }
  injection Hs as Hs.
  rewrite <- (DecimalZ.of_to a), <- (DecimalZ.of_to b), Hs. reflexivity.
Qed.

(** Two texts that end in an underscore followed by an underscore-free
    tail agree only when both parts agree. *)
Lemma split_last_underscore (a b d e : string) :
  Py.contains "_" d = false -> Py.contains "_" e = false ->
  a +:+ String "_" d = b +:+ String "_" e -> a = b /\ d = e.
Proof.
  intros Hd He. revert b.
  assert (Hin : forall x y, Py.contains "_" (x +:+ String "_" y) = true).
  { induction x as [|c x IH]; intros y; [reflexivity|].
    rewrite app_cons. simpl. rewrite IH. apply orb_true_r. }
  induction a as [|c a IH]; intros [|c' b]; rewrite ?app_cons, ?app_nil_l.
  - intros [= ->]. split; reflexivity.
  - intros [= _ H]. rewrite H, Hin in Hd. discriminate.
  - intros [= _ H]. rewrite <- H, Hin in He. discriminate.
  - intros [= -> H]. destruct (IH _ H) as [-> ->]. split; reflexivity.
Qed.

Lemma key_char_lower (c : ascii) : key_char c = true -> Py.lower_char c = c.
Proof.
  destruct c as [[] [] [] [] [] [] [] []]; vm_compute; intros H;
    first [discriminate H | reflexivity].
Qed.

Lemma key_chars_fixed (s : string) :
  Sql.all_chars key_char s = true -> sub_non_key (Py.lower s) = s.
Proof.
  induction s as [|c s IH]; [reflexivity|].
  simpl. intros [Hc Hs]%andb_prop.
  rewrite (key_char_lower c Hc), Hc, IH by exact Hs. reflexivity.
Qed.

End StringFacts.

(** ** The storage key of a scope *)

(** C2 (as amended): within one family of scopes -- typed identities, or
    names written in [a-z0-9_] -- two scopes get the same storage key
    exactly when they are the same scope (for typed identities: same id,
    kinds equal up to letter case); the key depends on the scope alone. *)
Theorem model_db_name_injective_on (m1 m2 : model) :
  key_domain m1 m2 = true ->
  (model_db_name m1 = model_db_name m2 <-> same_scope m1 m2).
Proof.
  destruct m1 as [k1 i1|s1], m2 as [k2 i2|s2]; simpl; try discriminate.
  - intros _. rewrite !lower_app.
    rewrite !(numeral_lower (Py.str_of_int _)) by apply str_of_int_numeral.
    change (Py.lower "_") with "_".
    change ("_" +:+ Py.str_of_int i1) with (String "_" (Py.str_of_int i1)).
    change ("_" +:+ Py.str_of_int i2) with (String "_" (Py.str_of_int i2)).
    split.
    + intros H. apply split_last_underscore in H as [Hk Hi];
        try (apply numeral_no_underscore, str_of_int_numeral).
      split; [exact Hk | apply str_of_int_inj, Hi].
    + intros [-> ->]. reflexivity.
  - intros [H1 H2]%andb_prop. rewrite !key_chars_fixed by assumption. tauto.
Qed.

Lemma model_db_name_injective_on_witness :
  key_domain (Snowflake "Guild" 1) (Snowflake "Guild" 2) = true /\
  (model_db_name (Snowflake "Guild" 1) = model_db_name (Snowflake "Guild" 2)
   <-> same_scope (Snowflake "Guild" 1) (Snowflake "Guild" 2)).
Proof.
  split; [reflexivity|].
  apply (model_db_name_injective_on (Snowflake "Guild" 1) (Snowflake "Guild" 2)).
  reflexivity.
Defined.

(** C2 (as stated) fails: two distinct names, and a name and a typed
    identity, share a storage key. *)
Lemma model_db_name_collides :
  (Named "a-b" <> Named "a_b" /\
   model_db_name (Named "a-b") = model_db_name (Named "a_b")) /\
  (Snowflake "Guild" 1 <> Named "guild_1" /\
   model_db_name (Snowflake "Guild" 1) = model_db_name (Named "guild_1")).
Proof. repeat split; (discriminate || reflexivity). Qed.

(** ** Building a table schema *)

Lemma mem_In (k : string) (l : list string) : mem k l = true <-> In k l.
Proof.
  unfold mem. rewrite existsb_exists. split.
  - intros (x & Hx & ->%String.eqb_eq). exact Hx.
  - intros H. exists k. split; [exact H | apply String.eqb_refl].
Qed.

Lemma set_eqb_spec (a b : list string) :
  set_eqb a b = true <-> (forall k, In k a <-> In k b).
Proof.
  unfold set_eqb. rewrite andb_true_iff, !forallb_forall.
  setoid_rewrite mem_In. firstorder.
Qed.

Lemma same_keys_spec (d0 : dict) (ds : list dict) :
  forallb (fun d => set_eqb (keys d) (keys d0)) (d0 :: ds) = true <->
  uniform_fields (d0 :: ds).
Proof.
  rewrite forallb_forall. setoid_rewrite set_eqb_spec. split.
  - intros H d1 d2 H1 H2 k. rewrite (H d1 H1 k), (H d2 H2 k). reflexivity.
  - intros H d Hd k. apply H; [exact Hd | left; reflexivity].
Qed.

(** C9: [TableBuilder(query, default_values)] raises its [ValueError]
    exactly when the query does not start with [CREATE TABLE] or the
    default rows do not all have the same set of fields; otherwise the
    schema is built as given.  No storage is involved: the constructor
    is a function of its arguments. *)
Theorem TableBuilder_init_fails_iff (q : string) (ds : list dict) (r : bool) :
  ((exists why, TableBuilder_init q ds r = Raise (ValueError why)) <->
   (Py.startswith "CREATE TABLE" q = false \/ ~ uniform_fields ds)) /\
  ((Py.startswith "CREATE TABLE" q = true /\ uniform_fields ds) <->
   TableBuilder_init q ds r =
     Ok {| query := q; default_values := ds; insert_on_reconnect := r |}).
Proof.
  unfold TableBuilder_init.
  destruct (Py.startswith "CREATE TABLE" q) eqn:Hq; simpl.
  - assert (Hu : match ds with
                 | [] => true
                 | d0 :: _ => forallb (fun d => set_eqb (keys d) (keys d0)) ds
                 end = true <-> uniform_fields ds).
    { destruct ds as [|d0 ds]; [|apply same_keys_spec].
      split; [intros _ d1 d2 [] | reflexivity]. }
    destruct (match ds with [] => true | d0 :: _ => _ end) eqn:Hs; simpl.
    + apply proj1 in Hu. specialize (Hu eq_refl). split; split.
      * intros [why [=]].
      * intros [[=]|Hn]. contradiction.
      * reflexivity.
      * intros _. split; [reflexivity | exact Hu].
    + assert (Hn : ~ uniform_fields ds) by (intros H; apply Hu in H; discriminate).
      split; split.
      * intros _. right. exact Hn.
      * intros _. eexists. reflexivity.
      * intros [_ H]. contradiction.
      * intros [=].
  - split; split.
    + intros _. left. reflexivity.
    + intros _. eexists. reflexivity.
    + intros [[=] _].
    + intros [=].
Qed.

(** ** The statement of a key/value schema *)

Lemma ident_char_not_newline (c : ascii) :
  Sql.ident_char c = true -> Ascii.eqb c newline = false /\ Ascii.eqb c " " = false.
Proof.
  destruct c as [[] [] [] [] [] [] [] []]; vm_compute; intros H;
    first [discriminate H | split; reflexivity].
Qed.

Lemma is_ident_chars (s : string) :
  Sql.is_ident s = true -> Sql.all_chars Sql.ident_char s = true.
Proof.
  destruct s; [discriminate|]. unfold Sql.is_ident.
  intros [[_ H]%andb_prop _]%andb_prop. exact H.
Qed.

Lemma span_ident_app (name rest : string) :
  Sql.all_chars Sql.ident_char name = true ->
  Sql.span_ident (name +:+ String " " rest) = (name, String " " rest).
Proof.
  induction name as [|c name IH]; [reflexivity|].
  intros H. simpl in H. apply andb_prop in H as [Hc Hs].
  rewrite app_cons. simpl.
  rewrite Hc, IH by exact Hs. reflexivity.
Qed.

Lemma line_ident_app (name rest : string) :
  Sql.all_chars Sql.ident_char name = true ->
  line (name +:+ rest) = name +:+ line rest.
Proof.
  induction name as [|c name IH]; [reflexivity|].
  intros H. simpl in H. apply andb_prop in H as [Hc Hs].
  rewrite !app_cons. simpl.
  rewrite (proj1 (ident_char_not_newline c Hc)), IH by exact Hs. reflexivity.
Qed.

Lemma before_last_paren_app (name rest : string) :
  before_last_paren rest = Some "" ->
  before_last_paren (name +:+ rest) = Some name.
Proof.
  intros Hr. induction name as [|c name IH]; [exact Hr|].
  rewrite app_cons. simpl. rewrite IH. reflexivity.
Qed.

Lemma parse_dict_query (name : string) :
  Sql.is_ident name = true ->
  Sql.parse_create (dict_query name) =
    Some {| Sql.ct_if_not_exists := true; Sql.ct_name := name; Sql.ct_cols := kv_cols |}.
Proof.
  intros Hid. unfold dict_query, Sql.parse_create.
  rewrite ?app_cons, app_nil_l. simpl.
  change (name +:+ " (key TEXT PRIMARY KEY, value TEXT)")
    with (name +:+ String " " "(key TEXT PRIMARY KEY, value TEXT)").
  rewrite span_ident_app by (apply is_ident_chars, Hid).
  rewrite Hid. reflexivity.
Qed.

Lemma table_name_dict (name : string) (ds : list dict) (r : bool) :
  Sql.is_ident name = true ->
  table_name {| query := dict_query name; default_values := ds;
                insert_on_reconnect := r |} = Ok name.
Proof.
  intros Hid. unfold table_name, dict_query. simpl query.
  assert (H : re_search "CREATE TABLE IF NOT EXISTS "
            ("CREATE TABLE IF NOT EXISTS " +:+ name +:+
             " (key TEXT PRIMARY KEY, value TEXT)") = Some name).
  { rewrite ?app_cons, app_nil_l.
    unfold re_search, match_here. simpl drop_prefix. cbv iota.
    rewrite line_ident_app by (apply is_ident_chars, Hid).
    rewrite before_last_paren_app by reflexivity. reflexivity. }
  rewrite H. reflexivity.
Qed.

Lemma table_name_kv (name : string) (defaults : dict) (r : bool) :
  Sql.is_ident name = true -> table_name (kv_schema name defaults r) = Ok name.
Proof. apply table_name_dict. Qed.

Lemma DictTableBuilder_init_ok (name : string) (defaults : dict) (r : bool) :
  DictTableBuilder_init name defaults r =
    Ok {| query := dict_query name;
          default_values :=
            map (fun kv => [("key", PStr (fst kv)); ("value", snd kv)]) defaults;
          insert_on_reconnect := r |}.
Proof.
  unfold DictTableBuilder_init, TableBuilder_init. fold (dict_query name).
  assert (Hs : Py.startswith "CREATE TABLE" (dict_query name) = true).
  { unfold dict_query. rewrite ?app_cons. reflexivity. }
  rewrite Hs. simpl negb. cbv iota.
  destruct defaults as [|kv0 defaults]; [reflexivity|].
  match goal with
  | |- (if negb ?c then _ else _) = _ => assert (Hk : c = true)
  end.
  { apply forallb_forall. intros d [<-|(kv & <- & _)%in_map_iff]; reflexivity. }
  rewrite Hk. reflexivity.
Qed.

(** ** The engine: names, insertion, replacement *)

Lemma eqb_ci_refl (a : string) : Sql.eqb_ci a a = true.
Proof. apply String.eqb_refl. Qed.

Lemma eqb_ci_trans_l (a b c : string) :
  Sql.eqb_ci b c = true -> Sql.eqb_ci a b = Sql.eqb_ci a c.
Proof. unfold Sql.eqb_ci. intros ->%String.eqb_eq. reflexivity. Qed.

Lemma find_table_name (t : string) (d : Sql.database) (tb : Sql.table) :
  Sql.find_table t d = Some tb -> Sql.eqb_ci (Sql.tbl_name tb) t = true /\ In tb d.
Proof.
  unfold Sql.find_table. intros H. apply find_some in H. tauto.
Qed.

(** Replacing the table found under a name: it is found again, new. *)
Lemma find_table_put (t : string) (d : Sql.database) (tb tb' : Sql.table) :
  Sql.find_table t d = Some tb ->
  Sql.tbl_name tb' = Sql.tbl_name tb ->
  Sql.find_table t (Sql.put_table tb' d) = Some tb'.
Proof.
  intros Hf Hn. pose proof (proj1 (find_table_name _ _ _ Hf)) as Ht.
  rewrite <- Hn in Ht. clear Hn.
  revert Hf. unfold Sql.find_table, Sql.put_table.
  induction d as [|x d IH]; [discriminate|]. simpl.
  destruct (Sql.eqb_ci (Sql.tbl_name x) t) eqn:Hx.
  - intros _. rewrite (eqb_ci_trans_l _ _ _ Ht), Hx. simpl. rewrite Ht. reflexivity.
  - intros Hf. rewrite (eqb_ci_trans_l _ _ _ Ht), Hx. simpl. rewrite Hx.
    apply IH, Hf.
Qed.

(** Other tables are not affected. *)
Lemma find_table_put_other (t : string) (d : Sql.database) (tb' : Sql.table) :
  Sql.eqb_ci (Sql.tbl_name tb') t = false ->
  Sql.find_table t (Sql.put_table tb' d) = Sql.find_table t d.
Proof.
  intros Hn. unfold Sql.find_table, Sql.put_table.
  induction d as [|x d IH]; [reflexivity|]. simpl.
  destruct (Sql.eqb_ci (Sql.tbl_name x) (Sql.tbl_name tb')) eqn:Hx; simpl.
  - rewrite Hn.
    assert (Hx' : Sql.eqb_ci (Sql.tbl_name x) t = false).
    { unfold Sql.eqb_ci in *. apply String.eqb_eq in Hx. rewrite Hx. exact Hn. }
    rewrite Hx'. exact IH.
  - rewrite IH. reflexivity.
Qed.

Lemma insert_many_ignore (names : list string) (rows : list (list pyval))
    (tb : Sql.table) :
  Forall (fun r => length r = length names) rows ->
  Forall (fun r => forallb fits r = true) rows ->
  insert_many Sql.OrIgnore names rows tb =
    (Ok tt,
     {| Sql.tbl_name := Sql.tbl_name tb; Sql.tbl_cols := Sql.tbl_cols tb;
        Sql.tbl_rows :=
          insert_ignore_rows (Sql.tbl_cols tb)
            (map (fun r => Sql.bind_row (Sql.tbl_cols tb) names (map adapt r)) rows)
            (Sql.tbl_rows tb) |}).
Proof.
  intros Hlen Hfit. revert tb.
  induction Hlen as [|r rows Hr _ IH]; intros [n cols rs]; [reflexivity|].
  apply Forall_cons_iff in Hfit as [Hf Hfit].
  simpl insert_many. rewrite Hr, Nat.eqb_refl, Hf.
  unfold bind, modify. rewrite (IH Hfit). simpl.
  destruct (existsb _ rs); reflexivity.
Qed.

Lemma no_clash_insert (cols : list Sql.column) (new rows : list (list sqlval)) :
  no_clash cols rows new = true -> insert_ignore_rows cols new rows = rows ++ new.
Proof.
  revert rows. induction new as [|r new IH]; intros rows; simpl.
  - rewrite app_nil_r. reflexivity.
  - intros [Hr Hn]%andb_prop. apply negb_true_iff in Hr.
    unfold insert_ignore_rows in *. simpl. rewrite Hr, IH by exact Hn.
    rewrite <- app_assoc. reflexivity.
Qed.

Lemma all_clash_insert (cols : list Sql.column) (new rows : list (list sqlval)) :
  forallb (fun r => existsb (Sql.conflict cols r) rows) new = true ->
  insert_ignore_rows cols new rows = rows.
Proof.
  induction new as [|r new IH]; [reflexivity|].
  simpl. intros [Hr Hn]%andb_prop.
  unfold insert_ignore_rows in *. simpl. rewrite Hr. apply IH, Hn.
Qed.

(** A row that carries a primary key clashes with itself. *)
Lemma conflict_self (cols : list Sql.column) (r : list sqlval) :
  is_Some (Sql.pk_of cols r) -> Sql.conflict cols r r = true.
Proof.
  unfold Sql.conflict. intros [v ->].
  destruct v; simpl; [reflexivity | apply Z.eqb_refl | apply String.eqb_refl].
Qed.

Lemma keyed_rows_clash (cols : list Sql.column) (rows : list (list sqlval)) :
  forallb (fun r => bool_decide (is_Some (Sql.pk_of cols r))) rows = true ->
  forallb (fun r => existsb (Sql.conflict cols r) rows) rows = true.
Proof.
  intros H. apply forallb_forall. intros r Hr.
  apply existsb_exists. exists r. split; [exact Hr|].
  apply conflict_self.
  rewrite forallb_forall in H. specialize (H r Hr). eapply bool_decide_eq_true_1, H.
Qed.

(** ** Opening a connection *)

Lemma get_connection_run (bs : list TableBuilder) (p : path) (st : state) :
  get_connection bs p st =
    (match fst (initialise bs (fresh_session p st)) with
     | Ok _ => Ok (length (conns st))
     | Raise e => Raise e
     end,
     opened p (snd (initialise bs (fresh_session p st))) st).
Proof.
  unfold get_connection, bind, connect, on_conn, fresh_session. simpl.
  rewrite (list_lookup_middle (conns st) [] _ (length (conns st))) by reflexivity.
  simpl. rewrite lookup_insert_eq. simpl.
  destruct (initialise bs _) as [r s1]. simpl.
  assert (Hst : set_fs (alter (fun _ => file s1) p)
            (set_conns (insert (length (conns st))
               {| conn_path := p; conn_db := db s1; conn_in_tx := in_tx s1;
                  conn_closed := false |})
               (set_conns (fun cs => cs ++
                  [{| conn_path := p; conn_db := default [] (fs st !! p);
                      conn_in_tx := false; conn_closed := false |}])
                  (set_fs (insert p (default [] (fs st !! p))) st)))
          = opened p s1 st).
  { unfold set_fs, set_conns, opened. simpl. f_equal.
    - rewrite alter_insert_eq. reflexivity.
    - rewrite (insert_app_r_alt _ _ (length (conns st))) by lia.
      rewrite Nat.sub_diag. reflexivity. }
  rewrite Hst. destruct r; reflexivity.
Qed.

(** [CogData.get] on a scope that is not cached opens its database. *)
Lemma get_absent (m : model) (st : state) :
  managers st !! CogData.lower_model m = None ->
  let m' := CogData.lower_model m in
  let bs := default [] (builders st !! CogData.lower_type (CogData.type_of m')) in
  let p := CogData.db_path st m' in
  let rs := initialise bs (fresh_session p st) in
  let mgr := {| self_model := m'; self_builders := bs; conn := length (conns st) |} in
  CogData.get m st =
    match fst rs with
    | Ok _ => (Ok mgr, set_managers (insert m' mgr) (opened p (snd rs) st))
    | Raise e => (Raise e, opened p (snd rs) st)
    end.
Proof.
  intros Hm. cbv zeta.
  unfold CogData.get, bind, gets. rewrite Hm.
  unfold CogData.get_manager, ModelDataManager_init, CogData.get_linked_builders,
    bind, gets.
  rewrite get_connection_run.
  destruct (initialise _ _) as [[[]|e] s1]; reflexivity.
Qed.

(** [CogData.get] on a cached scope returns the cached manager and
    changes nothing. *)
Lemma get_cached (m : model) (st : state) (mgr : ModelDataManager) :
  managers st !! CogData.lower_model m = Some mgr ->
  CogData.get m st = (Ok mgr, st).
Proof.
  intros Hm. unfold CogData.get, bind, gets. rewrite Hm. reflexivity.
Qed.

Lemma close_cached (m : model) (st : state) (mgr : ModelDataManager) :
  managers st !! CogData.lower_model m = Some mgr ->
  CogData.close m st =
    (Ok tt, set_managers (delete (CogData.lower_model m))
              (snd (conn_close (conn mgr) st))).
Proof.
  intros Hm. unfold CogData.close, bind, gets. rewrite Hm. reflexivity.
Qed.

(** ** Seeding the defaults of one schema *)

Section Seeding.

Variables (b : TableBuilder) (stmt : Sql.create_stmt) (d0 : dict) (ds : list dict).

(** The engine accepts the creation statement, and declares the table
    under the name the schema extracts. *)
Hypothesis Hparse : Sql.parse_create (query b) = Some stmt.
Hypothesis Hname : table_name b = Ok (Sql.ct_name stmt).

(** There are default rows, they list the same fields in the same
    order, and the engine compiles their insertion. *)
Hypothesis Hdef : default_values b = d0 :: ds.
Hypothesis Hkeys : forallb (fun d => bool_decide (keys d = keys d0)) ds = true.
Hypothesis Hfits : forallb (fun d => forallb fits (values d)) (d0 :: ds) = true.
Hypothesis Hprep :
  Sql.prepare_insert (Sql.ct_name stmt) (keys d0) [table_of stmt []]
  = Ok (table_of stmt []).

Lemma create_fresh : Sql.create_table (query b) [] = Ok [table_of stmt []].
Proof. unfold Sql.create_table. rewrite Hparse. reflexivity. Qed.

Lemma prepare_rows (rows : list (list sqlval)) :
  Sql.prepare_insert (Sql.ct_name stmt) (keys d0) [table_of stmt rows]
  = Ok (table_of stmt rows).
Proof.
  revert Hprep. unfold Sql.prepare_insert.
  destruct (negb _); [discriminate|].
  destruct (keys d0) as [|k ks]; [discriminate|].
  unfold Sql.find_table. simpl. rewrite eqb_ci_refl.
  unfold Sql.has_column. simpl.
  destruct (existsb _ _ && forallb _ _); [reflexivity | discriminate].
Qed.

Lemma default_lengths :
  Forall (fun r : list pyval => length r = length (keys d0))
    (map values (default_values b)).
Proof.
  rewrite Hdef. apply List.Forall_forall. intros r (d & <- & Hd)%in_map_iff.
  assert (Hk : keys d = keys d0).
  { destruct Hd as [<-|Hd]; [reflexivity|].
    rewrite forallb_forall in Hkeys. eapply bool_decide_eq_true_1, Hkeys, Hd. }
  rewrite <- Hk. unfold keys, values. rewrite !length_map. reflexivity.
Qed.

Lemma default_fit :
  Forall (fun r : list pyval => forallb fits r = true)
    (map values (default_values b)).
Proof.
  rewrite Hdef. apply List.Forall_forall. intros r (d & <- & Hd)%in_map_iff.
  rewrite forallb_forall in Hfits. apply Hfits, Hd.
Qed.

Lemma insert_defaults_rows (rows : list (list sqlval)) (tx : bool)
    (f : Sql.database) :
  insert_defaults b {| db := [table_of stmt rows]; in_tx := tx; file := f |} =
    (Ok tt,
     {| db := [table_of stmt
                 (insert_ignore_rows (Sql.ct_cols stmt)
                    (default_rows (Sql.ct_cols stmt) b) rows)];
        in_tx := true; file := f |}).
Proof.
  unfold insert_defaults, bind, lift. rewrite Hname.
  pose proof default_lengths as Hlen. pose proof default_fit as Hfit.
  unfold default_rows.
  rewrite Hdef in *. unfold executemany_insert. simpl db.
  rewrite prepare_rows, (insert_many_ignore _ _ _ Hlen Hfit). simpl.
  rewrite eqb_ci_refl, map_map. reflexivity.
Qed.

Hypothesis Hclash :
  no_clash (Sql.ct_cols stmt) [] (default_rows (Sql.ct_cols stmt) b) = true.
Hypothesis Hkeyed :
  insert_on_reconnect b = true ->
  forallb (fun r => bool_decide (is_Some (Sql.pk_of (Sql.ct_cols stmt) r)))
    (default_rows (Sql.ct_cols stmt) b) = true.

Let seeded : Sql.database :=
  [table_of stmt (default_rows (Sql.ct_cols stmt) b)].

Lemma reseed_seeded (tx : bool) (f : Sql.database) :
  reseed b {| db := seeded; in_tx := tx; file := f |} =
    (Ok tt, {| db := seeded; in_tx := tx || insert_on_reconnect b; file := f |}).
Proof.
  unfold reseed, seeded. destruct (insert_on_reconnect b) eqn:Hr.
  - rewrite insert_defaults_rows, all_clash_insert, orb_true_r;
      [reflexivity | apply keyed_rows_clash, Hkeyed; reflexivity].
  - rewrite orb_false_r. reflexivity.
Qed.

(** The first open: the table is created, seeded and committed. *)
Lemma initialise_fresh :
  initialise [b] {| db := []; in_tx := false; file := [] |} =
    (Ok tt, {| db := seeded; in_tx := false; file := seeded |}).
Proof.
  unfold initialise, tables, bind, gets. simpl map.
  unfold init_tables, create_missing, bind, lift. rewrite Hname.
  change (mem (Sql.ct_name stmt) []) with false.
  unfold execute_create. simpl. rewrite create_fresh. simpl.
  rewrite Hdef, insert_defaults_rows.
  rewrite (no_clash_insert _ _ _ Hclash). simpl app. fold seeded.
  unfold ret. rewrite reseed_seeded. reflexivity.
Qed.

(** A later open: nothing is created, nothing is added. *)
Lemma initialise_seeded :
  initialise [b] {| db := seeded; in_tx := false; file := seeded |} =
    (Ok tt, {| db := seeded; in_tx := insert_on_reconnect b; file := seeded |}).
Proof.
  assert (Hm : mem (Sql.ct_name stmt) (map Sql.tbl_name seeded) = true).
  { unfold mem. simpl. rewrite String.eqb_refl. reflexivity. }
  unfold initialise, tables, bind, gets. simpl db.
  unfold init_tables, create_missing, bind, lift. rewrite Hname, Hm. simpl.
  unfold ret. rewrite reseed_seeded. reflexivity.
Qed.

End Seeding.

(** ** Opening a scope twice *)

(** C4: the claim fails on a schema without primary key registered
    with policy [always]: the first open of a fresh scope inserts the
    default row in the creation branch and once more in the reseed
    branch, so the file holds it twice; and the connection opened after
    [close(scope)] holds it a third time.  The constructor's docstring
    says that the values are inserted again on each connection if
    absent. *)
Lemma keyless_always_duplicates :
  fs (snd (CogData.get (Named "global") Sample.notebook))
    !! ["cogs"; "notebook"; "data"; "global.db"]
  = Some [Sample.notes_table [[SText "hello"]; [SText "hello"]]] /\
  fst (reopened_view (Named "global") Sample.notebook)
  = Ok (Some [Sample.notes_table [[SText "hello"]; [SText "hello"]; [SText "hello"]]]).
Proof. split; vm_compute; reflexivity. Qed.

(** ** Key/value tables *)

Lemma conflict_kv (kv : string * pyval) (r : list sqlval) :
  Sql.conflict kv_cols (kv_row kv) r = row_has_key (fst kv) r.
Proof.
  destruct kv as [k v], r as [|[|z|k'] r]; reflexivity.
Qed.

Lemma has_key_conflict (kv : string * pyval) (rows : list (list sqlval)) :
  existsb (Sql.conflict kv_cols (kv_row kv)) rows = has_key (fst kv) rows.
Proof.
  unfold has_key. induction rows as [|r rows IH]; [reflexivity|].
  simpl. rewrite conflict_kv, IH. reflexivity.
Qed.

Lemma bind_row_kv (k : string) (v : pyval) :
  Sql.bind_row kv_cols ["key"; "value"] (map adapt [PStr k; v]) = kv_row (k, v).
Proof. destruct v; reflexivity. Qed.

Lemma default_rows_kv (name : string) (defaults : dict) (r : bool) :
  default_rows kv_cols (kv_schema name defaults r) = map kv_row defaults.
Proof.
  unfold default_rows, kv_schema. simpl.
  destruct defaults as [|kv0 defaults]; [reflexivity|].
  simpl map at 1. cbv iota. rewrite map_map.
  apply map_ext. intros [k v]. apply bind_row_kv.
Qed.

Lemma has_key_app (k : string) (rows rows' : list (list sqlval)) :
  has_key k (rows ++ rows') = has_key k rows || has_key k rows'.
Proof. apply existsb_app. Qed.

Lemma missing_snoc (defaults : dict) (rows : list (list sqlval))
    (kv : string * pyval) :
  ~ In (fst kv) (keys defaults) ->
  missing defaults (rows ++ [kv_row kv]) = missing defaults rows.
Proof.
  intros Hk. unfold missing. apply List.filter_ext_in. intros kv' Hin.
  rewrite has_key_app. unfold has_key at 2. simpl.
  destruct (String.eqb_spec (fst kv') (fst kv)) as [He|_].
  - exfalso. apply Hk. rewrite <- He. apply in_map, Hin.
  - rewrite !orb_false_r. reflexivity.
Qed.

(** [INSERT OR IGNORE] of the defaults of a key/value schema keeps the
    rows of the table and appends the items whose key was missing. *)
Lemma insert_ignore_kv (defaults : dict) (rows : list (list sqlval)) :
  List.NoDup (keys defaults) ->
  insert_ignore_rows kv_cols (map kv_row defaults) rows
  = rows ++ map kv_row (missing defaults rows).
Proof.
  intros Hnd. revert rows.
  induction defaults as [|kv defaults IH]; intros rows.
  - simpl. rewrite app_nil_r. reflexivity.
  - apply NoDup_cons_iff in Hnd as [Hk Hnd]. specialize (IH Hnd).
    unfold insert_ignore_rows in *. simpl fold_left.
    rewrite has_key_conflict. unfold missing at 1. simpl List.filter.
    destruct (has_key (fst kv) rows) eqn:Hh; simpl negb; cbv iota.
    + apply IH.
    + rewrite IH, missing_snoc by exact Hk.
      rewrite <- app_assoc. reflexivity.
Qed.

Lemma find_table_listed (t : string) (d : Sql.database) (tb : Sql.table) :
  Sql.find_table t d = Some tb -> Sql.tbl_name tb = t ->
  mem t (map Sql.tbl_name d) = true.
Proof.
  intros [_ Hin]%find_table_name Hn. apply mem_In.
  rewrite <- Hn. apply in_map, Hin.
Qed.

Lemma kv_default_lengths (defaults : dict) :
  Forall (fun r : list pyval => length r = 2)
    (map values (map (fun kv => [("key", PStr (fst kv)); ("value", snd kv)]) defaults)).
Proof.
  apply List.Forall_forall. intros r (d & <- & (kv & <- & _)%in_map_iff)%in_map_iff.
  reflexivity.
Qed.

Lemma kv_default_fit (defaults : dict) :
  forallb (fun kv => fits (snd kv)) defaults = true ->
  Forall (fun r : list pyval => forallb fits r = true)
    (map values (map (fun kv => [("key", PStr (fst kv)); ("value", snd kv)]) defaults)).
Proof.
  intros Hfit. apply List.Forall_forall.
  intros r (d & <- & (kv & <- & Hin)%in_map_iff)%in_map_iff.
  rewrite forallb_forall in Hfit. simpl. rewrite (Hfit kv Hin). reflexivity.
Qed.

(** The reseed statement of a key/value schema, run on a database that
    holds its table. *)
Lemma insert_defaults_kv (name : string) (defaults : dict) (r : bool)
    (rows : list (list sqlval)) (s : session) :
  Sql.is_ident name = true -> defaults <> [] ->
  forallb (fun kv => fits (snd kv)) defaults = true ->
  Sql.find_table name (db s) = Some (kv_table name rows) ->
  insert_defaults (kv_schema name defaults r) s =
    (Ok tt,
     {| db := Sql.put_table
                (kv_table name (insert_ignore_rows kv_cols (map kv_row defaults) rows))
                (db s);
        in_tx := true; file := file s |}).
Proof.
  intros Hid Hne Hfit Hf. destruct defaults as [|kv0 defaults]; [contradiction|].
  unfold insert_defaults, bind, lift.
  unfold kv_schema at 1. rewrite table_name_dict by exact Hid.
  cbn [default_values kv_schema map].
  change (keys [("key", PStr kv0.1); ("value", kv0.2)]) with ["key"; "value"].
  unfold executemany_insert, Sql.prepare_insert.
  rewrite Hid, Hf.
  change (negb (true && forallb Sql.is_ident ["key"; "value"]
                && Sql.distinct_ci ["key"; "value"])) with false.
  change (forallb (Sql.has_column (kv_table name rows)) ["key"; "value"]) with true.
  cbv iota.
  rewrite insert_many_ignore
    by (apply (kv_default_lengths (kv0 :: defaults))
        || apply (kv_default_fit (kv0 :: defaults) Hfit)).
  cbn [Sql.tbl_cols Sql.tbl_name Sql.tbl_rows kv_table].
  rewrite map_map. cbn [map].
  change (values [("key", PStr kv0.1); ("value", kv0.2)]) with [PStr kv0.1; kv0.2].
  rewrite (bind_row_kv kv0.1 kv0.2), map_map.
  rewrite (map_ext _ kv_row) by (intros [k v]; apply bind_row_kv).
  destruct kv0. reflexivity.
Qed.

Lemma no_clash_kv (defaults : dict) (acc : list (list sqlval)) :
  List.NoDup (keys defaults) ->
  (forall k, In k (keys defaults) -> has_key k acc = false) ->
  no_clash kv_cols acc (map kv_row defaults) = true.
Proof.
  intros Hnd. revert acc.
  induction defaults as [|kv defaults IH]; intros acc Hacc; [reflexivity|].
  apply NoDup_cons_iff in Hnd as [Hk Hnd]. simpl.
  rewrite has_key_conflict, (Hacc (fst kv)) by (left; reflexivity). simpl.
  apply IH; [exact Hnd|]. intros k Hin.
  rewrite has_key_app, (Hacc k) by (right; exact Hin). simpl.
  rewrite orb_false_r. apply String.eqb_neq. intros ->. exact (Hk Hin).
Qed.

(** Every key/value schema with at least one default, under a name of
    the fragment, meets the assumptions of the section above. *)
Lemma kv_schema_seedable (name : string) (kv0 : string * pyval) (rest : dict)
    (r : bool) :
  Sql.is_ident name = true ->
  List.NoDup (keys (kv0 :: rest)) ->
  forallb (fun kv => fits (snd kv)) (kv0 :: rest) = true ->
  let b := kv_schema name (kv0 :: rest) r in
  let stmt := {| Sql.ct_if_not_exists := true; Sql.ct_name := name;
                 Sql.ct_cols := kv_cols |} in
  let d0 := [("key", PStr (fst kv0)); ("value", snd kv0)] in
  let ds := map (fun kv => [("key", PStr (fst kv)); ("value", snd kv)]) rest in
  Sql.parse_create (query b) = Some stmt /\
  table_name b = Ok (Sql.ct_name stmt) /\
  default_values b = d0 :: ds /\
  forallb (fun d => bool_decide (keys d = keys d0)) ds = true /\
  forallb (fun d => forallb fits (values d)) (d0 :: ds) = true /\
  Sql.prepare_insert (Sql.ct_name stmt) (keys d0) [table_of stmt []]
    = Ok (table_of stmt []) /\
  no_clash (Sql.ct_cols stmt) [] (default_rows (Sql.ct_cols stmt) b) = true /\
  forallb (fun r => bool_decide (is_Some (Sql.pk_of (Sql.ct_cols stmt) r)))
    (default_rows (Sql.ct_cols stmt) b) = true.
Proof.
  intros Hid Hnd Hfit b stmt d0 ds.
  split; [apply parse_dict_query, Hid|].
  split; [apply table_name_kv, Hid|].
  split; [reflexivity|].
  split.
  { apply forallb_forall. intros d (kv & <- & _)%in_map_iff.
    apply bool_decide_eq_true_2. reflexivity. }
  split.
  { pose proof (kv_default_fit (kv0 :: rest) Hfit) as H.
    rewrite List.Forall_forall in H. apply forallb_forall.
    intros d Hd. apply H. apply (in_map values) in Hd. exact Hd. }
  split.
  { unfold Sql.prepare_insert. simpl Sql.ct_name. rewrite Hid.
    unfold Sql.find_table. simpl. rewrite eqb_ci_refl. reflexivity. }
  simpl Sql.ct_cols. unfold b. rewrite default_rows_kv. split.
  - apply no_clash_kv; [exact Hnd | reflexivity].
  - apply forallb_forall. intros row (kv & <- & _)%in_map_iff.
    apply bool_decide_eq_true_2. eexists. reflexivity.
Qed.

(** ** A reseeded schema without default rows *)

Lemma reseed_without_defaults (b : TableBuilder) (s : session) :
  insert_on_reconnect b = true -> default_values b = [] ->
  reseed b s =
    (match table_name b with
     | Ok _ => Raise IndexError
     | Raise e => Raise e
     end, s).
Proof.
  intros Hr Hd. unfold reseed, insert_defaults, bind, lift. rewrite Hr, Hd.
  destruct (table_name b); reflexivity.
Qed.

Lemma create_missing_kv_empty (tables : list string) (name : string) (c : bool)
    (s : session) :
  Sql.is_ident name = true ->
  exists c' s', create_missing tables (kv_schema name [] true) c s = (Ok c', s').
Proof.
  intros Hid. unfold create_missing, bind, lift.
  unfold kv_schema at 1. rewrite table_name_dict by exact Hid.
  destruct (negb (mem name tables)); [|unfold ret; eauto].
  unfold execute_create, Sql.create_table. simpl query.
  rewrite parse_dict_query by exact Hid. simpl.
  destruct (Sql.find_table name (db s)); unfold ret; simpl; eauto.
Qed.

Lemma init_tables_kv_empty (tables : list string) (name : string)
    (post : list TableBuilder) (c : bool) (s : session) :
  Sql.is_ident name = true ->
  exists s',
    init_tables tables (kv_schema name [] true :: post) c s = (Raise IndexError, s').
Proof.
  intros Hid. cbn [init_tables]. unfold bind.
  destruct (create_missing_kv_empty tables name c s Hid) as (c' & s1 & ->).
  rewrite reseed_without_defaults by reflexivity.
  rewrite table_name_kv by exact Hid. eauto.
Qed.

(** *** Over any engine *)

Section AnyEngine.

Context {S : Type} (E : engine S).

Lemma init_tables_on_app (ts : list string) (pre rest : list TableBuilder)
    (c : bool) (s : S) :
  init_tables_on E ts (pre ++ rest) c s =
    match init_tables_on E ts pre c s with
    | (Ok c', s') => init_tables_on E ts rest c' s'
    | (Raise e, s') => (Raise e, s')
    end.
Proof.
  revert c s. induction pre as [|b pre IH]; intros c s.
  - reflexivity.
  - cbn [app init_tables_on]. unfold bind.
    destruct (create_missing_on E ts b c s) as [[c1|e] s1]; [|reflexivity].
    destruct (reseed_on E b s1) as [[[]|e] s2]; [|reflexivity].
    apply IH.
Qed.

(** The reseed step of a schema of policy [always] without default
    rows raises before the engine is asked anything. *)
Lemma reseed_on_without_defaults (b : TableBuilder) (s : S) :
  insert_on_reconnect b = true -> default_values b = [] ->
  reseed_on E b s =
    (match table_name b with
     | Ok _ => Raise IndexError
     | Raise e => Raise e
     end, s).
Proof.
  intros Hr Hd. unfold reseed_on, insert_defaults_on, bind, lift. rewrite Hr, Hd.
  destruct (table_name b); reflexivity.
Qed.

Lemma init_tables_on_stops (ts : list string) (b : TableBuilder)
    (post : list TableBuilder) (c : bool) (s : S) :
  insert_on_reconnect b = true -> default_values b = [] ->
  (exists e s', init_tables_on E ts (b :: post) c s = (Raise e, s')) /\
  (forall c' s', create_missing_on E ts b c s = (Ok c', s') ->
     init_tables_on E ts (b :: post) c s = (Raise IndexError, s')).
Proof.
  intros Hr Hd.
  assert (Hok : forall c' s', create_missing_on E ts b c s = (Ok c', s') ->
                  init_tables_on E ts (b :: post) c s = (Raise IndexError, s')).
  { intros c' s' Hc.
    assert (Ht : exists t, table_name b = Ok t).
    { revert Hc. unfold create_missing_on, bind, lift.
      destruct (table_name b); [eauto | discriminate]. }
    destruct Ht as [t Ht]. cbn [init_tables_on]. unfold bind. rewrite Hc.
    rewrite reseed_on_without_defaults, Ht by assumption. reflexivity. }
  split; [|exact Hok].
  destruct (create_missing_on E ts b c s) as [[c1|e] s1] eqn:Hc.
  - rewrite (Hok c1 s1 eq_refl). eauto.
  - cbn [init_tables_on]. unfold bind. rewrite Hc. eauto.
Qed.

End AnyEngine.

(** The loop of this development is the general one, run on the
    engine of this development. *)
Lemma bootstrap_on_sqlite (bs : list TableBuilder) (s : session) :
  bootstrap_on sqlite bs s = initialise bs s.
Proof.
  unfold bootstrap_on, initialise, bind. cbn [eng_tables sqlite].
  destruct (tables s) as [[ts|e] s0]; [|reflexivity].
  assert (H : forall c s1, init_tables_on sqlite ts bs c s1 = init_tables ts bs c s1).
  { induction bs as [|b bs IH]; intros c s1; [reflexivity|].
    cbn [init_tables_on init_tables]. unfold bind.
    change (create_missing_on sqlite ts b c s1) with (create_missing ts b c s1).
    destruct (create_missing ts b c s1) as [[c1|e] s2]; [|reflexivity].
    change (reseed_on sqlite b s2) with (reseed b s2).
    destruct (reseed b s2) as [[[]|e] s3]; [|reflexivity].
    apply IH. }
  rewrite H. reflexivity.
Qed.



(** ** The key/value contract *)

Lemma mem_find_table (t : string) (d : Sql.database) :
  mem t (map Sql.tbl_name d) = true -> exists tb, Sql.find_table t d = Some tb.
Proof.
  intros (n & (tb & <- & Hin)%in_map_iff & ->%String.eqb_eq)%existsb_exists.
  destruct (Sql.find_table (Sql.tbl_name tb) d) eqn:Hf; [eauto|].
  unfold Sql.find_table in Hf.
  pose proof (find_none _ _ Hf tb Hin) as Hn. simpl in Hn.
  rewrite eqb_ci_refl in Hn. discriminate.
Qed.

Lemma wf_db_ident (t : string) (d : Sql.database) :
  wf_db d = true -> mem t (map Sql.tbl_name d) = true -> Sql.is_ident t = true.
Proof.
  intros [Hw _]%andb_prop Hm%mem_In. rewrite forallb_forall in Hw. auto.
Qed.

(** The two tests either pass or raise an error of the contract; the
    session is left as it was. *)
Lemma check_dict_table_run (t : string) (s : session) :
  wf_db (db s) = true ->
  check_dict_table t s =
    (if dict_table_ok t (db s) then Ok tt
     else Raise (ValueError (if mem t (map Sql.tbl_name (db s))
                             then NotKeyValue t else TableMissing t)), s).
Proof.
  intros Hw. unfold check_dict_table, dict_table_ok, bind, tables, gets.
  destruct (mem t (map Sql.tbl_name (db s))) eqn:Hm; simpl; [|reflexivity].
  unfold extract_column_names. rewrite (wf_db_ident _ _ Hw Hm). simpl.
  destruct (mem_find_table _ _ Hm) as [tb ->].
  destruct (mem "key" _), (mem "value" _); reflexivity.
Qed.

(** A method that starts with the two tests raises an error of the
    contract exactly when they fail, provided what follows them raises
    no such error; and then the session is unchanged. *)
Lemma guarded_by_check {A} (t : string) (rest : M session A) (s : session) :
  wf_db (db s) = true ->
  (forall e, fst (rest s) = Raise e -> ~ contract_error t e) ->
  (contract_violation t ((check_dict_table t ;;; rest) s)
   <-> dict_table_ok t (db s) = false) /\
  (contract_violation t ((check_dict_table t ;;; rest) s) ->
   snd ((check_dict_table t ;;; rest) s) = s).
Proof.
  intros Hw Hrest. unfold bind. rewrite check_dict_table_run by exact Hw.
  destruct (dict_table_ok t (db s)).
  - assert (Hno : ~ contract_violation t (rest s)).
    { intros (e & He & Hr). exact (Hrest e Hr He). }
    split; [split|]; [intros H; contradiction | discriminate | intros H; contradiction].
  - split; [split|]; [reflexivity | | reflexivity].
    intros _. eexists. split; [|reflexivity].
    destruct (mem t _); [right | left]; reflexivity.
Qed.

Lemma cast_int_error (v : pyval) (e : exn) :
  Cast.int v = Raise e -> e = TypeError \/ e = ValueError InvalidLiteral.
Proof.
  assert (Hu : forall s, Cast.unsigned s = Raise e -> e = ValueError InvalidLiteral).
  { intros s. unfold Cast.unsigned. destruct (Cast.digits_val _ _ _); congruence. }
  assert (Hneg : forall r, (z <-- Cast.unsigned r ;; Ok (- z)%Z) = Raise e ->
                           e = ValueError InvalidLiteral).
  { intros r. unfold rbind. destruct (Cast.unsigned r) eqn:Hr; [discriminate|].
    intros [= <-]. apply (Hu r Hr). }
  destruct v as [|b|z|s]; simpl.
  - intros [= <-]. tauto.
  - discriminate.
  - discriminate.
  - unfold Cast.int_of_str. intros H. right. revert H.
    destruct (Cast.strip s) as [|c r]; [apply Hu|].
    destruct c as [[] [] [] [] [] [] [] []]; first [apply Hneg | apply Hu].
Qed.

Lemma apply_cast_error (c : cast) (v : pyval) (e : exn) (t : string) :
  apply_cast c v = Raise e -> ~ contract_error t e.
Proof.
  assert (H : forall w, Cast.int w = Raise e -> ~ contract_error t e).
  { intros w Hw [-> | ->]; apply cast_int_error in Hw as [|]; discriminate. }
  destruct c; simpl; unfold rbind; try discriminate;
    destruct (Cast.int v) eqn:Hv; try discriminate; intros [= <-]; eauto.
Qed.

Lemma get_rest_error (t key : string) (c : cast) (s : session) (e : exn) :
  fst ((r <- fetch_key t key ;;
        match r with
        | None => ret None
        | Some r =>
            v <- lift (row_get "value" r) ;;
            v' <- lift (apply_cast c v) ;;
            ret (Some v')
        end) s) = Raise e ->
  ~ contract_error t e.
Proof.
  unfold bind, fetch_key, lift, ret.
  destruct (negb (Sql.is_ident t)); [intros [= <-] [|]; discriminate|].
  destruct (Sql.find_table t (db s)) as [tb|]; [|intros [= <-] [|]; discriminate].
  destruct (negb (Sql.has_column tb "key")); [intros [= <-] [|]; discriminate|].
  destruct (head _) as [r|]; [|discriminate].
  unfold row_get. destruct (Sql.assoc_ci "value" r) as [v|];
    [|intros [= <-] [|]; discriminate].
  destruct (apply_cast c (to_python v)) eqn:Hc; [discriminate|].
  intros [= <-]. eapply apply_cast_error, Hc.
Qed.

Lemma collect_values_error (rs : list row) (acc : list (pyval * string)) (e : exn) :
  collect_values rs acc = Raise e -> e = IndexError.
Proof.
  revert acc. induction rs as [|r rs IH]; intros acc; [discriminate|].
  simpl. unfold rbind, row_get.
  destruct (Sql.assoc_ci "key" r); [|congruence].
  destruct (Sql.assoc_ci "value" r); [|congruence].
  apply IH.
Qed.

Lemma get_all_rest_error (t : string) (s : session) (e : exn) :
  fst ((rs <- fetchall_table t ;; lift (collect_values rs [])) s) = Raise e ->
  ~ contract_error t e.
Proof.
  unfold bind, fetchall_table, lift.
  destruct (negb (Sql.is_ident t)); [intros [= <-] [|]; discriminate|].
  destruct (Sql.find_table t (db s)) as [tb|]; [|intros [= <-] [|]; discriminate].
  simpl. intros ->%collect_values_error [|]; discriminate.
Qed.

Lemma insert_many_error (oc : Sql.on_conflict) (names : list string)
    (rows : list (list pyval)) (tb : Sql.table) (e : exn) :
  fst (insert_many oc names rows tb) = Raise e ->
  e = ProgrammingError \/ e = OverflowError.
Proof.
  revert tb. induction rows as [|r rows IH]; intros tb; [discriminate|].
  simpl. destruct (_ =? _)%nat; [|intros [= <-]; tauto].
  destruct (forallb fits r); [|intros [= <-]; tauto].
  unfold bind, modify. apply IH.
Qed.

Lemma executemany_insert_error (oc : Sql.on_conflict) (t : string)
    (names : list string) (rows : list (list pyval)) (s : session) (e : exn) :
  fst (executemany_insert oc t names rows s) = Raise e ->
  e = Unmodelled \/ e = OperationalError \/ e = ProgrammingError
  \/ e = OverflowError.
Proof.
  unfold executemany_insert, Sql.prepare_insert.
  destruct (negb _); [intros [= <-]; tauto|].
  destruct names as [|n names]; [intros [= <-]; tauto|].
  destruct (Sql.find_table t (db s)) as [tb|]; [|intros [= <-]; tauto].
  destruct (forallb _ _); [|intros [= <-]; tauto].
  destruct (insert_many _ _ _ _) as [r tb'] eqn:Hi. simpl.
  intros ->. right. right.
  apply (insert_many_error oc (n :: names) rows tb). rewrite Hi. reflexivity.
Qed.

Lemma set_rest_error (t : string) (key dump : string) (s : session) (e : exn) :
  fst ((executemany_insert Sql.OrReplace t ["key"; "value"] [[PStr key; PStr dump]] ;;;
        commit) s) = Raise e ->
  ~ contract_error t e.
Proof.
  unfold bind.
  destruct (executemany_insert _ _ _ _ s) as [[[]|e'] s1] eqn:He; [discriminate|].
  simpl. intros [= <-].
  pose proof (executemany_insert_error Sql.OrReplace t ["key"; "value"]
                [[PStr key; PStr dump]] s e') as H.
  rewrite He in H.
  destruct (H eq_refl) as [->|[->|[->| ->]]]; intros [|]; discriminate.
Qed.

Lemma delete_rest_error (t key : string) (s : session) (e : exn) :
  fst ((execute_delete t key ;;; commit) s) = Raise e -> ~ contract_error t e.
Proof.
  unfold bind, execute_delete.
  destruct (negb (Sql.is_ident t)); [intros [= <-] [|]; discriminate|].
  destruct (Sql.find_table t (db s)) as [tb|]; [|intros [= <-] [|]; discriminate].
  destruct (negb (Sql.has_column tb "key")); [intros [= <-] [|]; discriminate|].
  discriminate.
Qed.

(** On a database as the engine makes it, the table that a name
    resolves to is the one listed under that very name, when there is
    one. *)
Lemma find_table_exact (t : string) (d : Sql.database) :
  Sql.distinct_ci (map Sql.tbl_name d) = true ->
  In t (map Sql.tbl_name d) ->
  exists tb, Sql.find_table t d = Some tb /\ Sql.tbl_name tb = t /\ In tb d.
Proof.
  unfold Sql.find_table. induction d as [|x d IH]; [intros _ []|].
  cbn [map Sql.distinct_ci find]. intros [Hx Hd]%andb_prop Hin.
  apply negb_true_iff in Hx.
  destruct (Sql.eqb_ci (Sql.tbl_name x) t) eqn:Hxt.
  - exists x. split; [reflexivity|]. split; [|left; reflexivity].
    destruct Hin as [Hn|Hin]; [exact Hn|]. exfalso.
    assert (He : existsb (Sql.eqb_ci (Sql.tbl_name x)) (map Sql.tbl_name d) = true).
    { apply existsb_exists. exists t. split; [exact Hin | exact Hxt]. }
    congruence.
  - destruct Hin as [Hn|Hin].
    + rewrite Hn, eqb_ci_refl in Hxt. discriminate.
    + destruct (IH Hd Hin) as (tb & Hf & Hn & Hi).
      exists tb. split; [exact Hf|]. split; [exact Hn | right; exact Hi].
Qed.

Lemma same_name_same_table (d : Sql.database) (tb tb' : Sql.table) :
  Sql.distinct_ci (map Sql.tbl_name d) = true ->
  In tb d -> In tb' d -> Sql.tbl_name tb = Sql.tbl_name tb' -> tb = tb'.
Proof.
  induction d as [|x d IH]; [intros _ []|].
  cbn [map Sql.distinct_ci]. intros [Hx Hd]%andb_prop.
  apply negb_true_iff in Hx.
  assert (Hno : forall y, In y d -> Sql.tbl_name x <> Sql.tbl_name y).
  { intros y Hy Hn.
    assert (He : existsb (Sql.eqb_ci (Sql.tbl_name x)) (map Sql.tbl_name d) = true).
    { apply existsb_exists. exists (Sql.tbl_name y).
      split; [apply in_map, Hy | rewrite Hn; apply eqb_ci_refl]. }
    congruence. }
  intros [<-|Hin] [<-|Hin'] Hn.
  - reflexivity.
  - exfalso. exact (Hno _ Hin' Hn).
  - exfalso. exact (Hno _ Hin (eq_sym Hn)).
  - apply IH; assumption.
Qed.

(** The test of the shortcuts, in terms of the tables of the
    database. *)
Lemma dict_table_ok_spec (t : string) (d : Sql.database) :
  wf_db d = true -> (dict_table_ok t d = true <-> key_value_table t d).
Proof.
  intros [_ Hd]%andb_prop. unfold dict_table_ok, key_value_table. split.
  - intros [Hm Hc]%andb_prop. apply mem_In in Hm.
    destruct (find_table_exact t d Hd Hm) as (tb & Hf & Hn & Hin).
    rewrite Hf in Hc. apply andb_prop in Hc as [Hk Hv].
    exists tb. rewrite <- !mem_In. auto.
  - intros (tb & Hin & Hn & Hk & Hv).
    assert (Hm : In t (map Sql.tbl_name d)) by (rewrite <- Hn; apply in_map, Hin).
    destruct (find_table_exact t d Hd Hm) as (tb' & Hf & Hn' & Hin').
    assert (tb' = tb) as -> by (apply (same_name_same_table d); congruence).
    rewrite Hf. apply andb_true_intro. split; [apply mem_In, Hm|].
    apply andb_true_intro. split; apply mem_In; assumption.
Qed.

(** C7 (as amended): on a database whose tables have names of the
    fragment, different up to letter case, each of the four key/value
    methods raises an error of the contract exactly when no table is
    listed under the very name given, letter for letter, or that table
    has no column spelled [key] or no column spelled [value]; the call
    then leaves the session as it was.  Tables with further columns
    pass the test. *)
Theorem key_value_contract (t key : string) (c : cast) (v : pyval) (s : session) :
  wf_db (db s) = true ->
  ((contract_violation t (get_dict_value t key c s)
    <-> ~ key_value_table t (db s)) /\
   (contract_violation t (get_dict_value t key c s) ->
    snd (get_dict_value t key c s) = s)) /\
  ((contract_violation t (get_dict_values t s)
    <-> ~ key_value_table t (db s)) /\
   (contract_violation t (get_dict_values t s) ->
    snd (get_dict_values t s) = s)) /\
  ((contract_violation t (set_dict_value t key v s)
    <-> ~ key_value_table t (db s)) /\
   (contract_violation t (set_dict_value t key v s) ->
    snd (set_dict_value t key v s) = s)) /\
  ((contract_violation t (delete_dict_value t key s)
    <-> ~ key_value_table t (db s)) /\
   (contract_violation t (delete_dict_value t key s) ->
    snd (delete_dict_value t key s) = s)).
Proof.
  intros Hw.
  assert (Hspec : dict_table_ok t (db s) = false <-> ~ key_value_table t (db s)).
  { rewrite <- (dict_table_ok_spec t (db s) Hw).
    destruct (dict_table_ok t (db s)); split; congruence. }
  rewrite <- Hspec.
  split; [|split; [|split]]; apply (guarded_by_check t _ s Hw).
  - apply get_rest_error.
  - apply get_all_rest_error.
  - apply set_rest_error.
  - apply delete_rest_error.
Qed.

Lemma key_value_contract_witness :
  wf_db (db Sample3.before) = true /\
  ~ key_value_table "settings" (db Sample3.before) /\
  contract_violation "settings"
    (set_dict_value "settings" "flag" (PBool true) Sample3.before) /\
  snd (set_dict_value "settings" "flag" (PBool true) Sample3.before) = Sample3.before.
Proof.
  assert (Hno : ~ key_value_table "settings" (db Sample3.before)).
  { intros (tb & [<-|[]] & Hn & _). discriminate Hn. }
  split; [reflexivity|]. split; [exact Hno|].
  destruct (key_value_contract "settings" "flag" CastBool (PBool true)
              Sample3.before eq_refl) as (_ & _ & [Hiff Hsame] & _).
  split; [apply Hiff, Hno|].
  apply Hsame, Hiff, Hno.
Defined.

(** C7 (as stated) fails: a table with a third column is not rejected;
    values are written to it and read back.  And a table that the
    engine finds under a name is reported missing when the name is
    written in another letter case than the one it is listed under. *)
Lemma extra_column_accepted :
  map Sql.col_name (Sql.tbl_cols (Sample3.prefs [])) = ["key"; "value"; "note"] /\
  set_dict_value "prefs" "flag" (PBool true) Sample3.before
    = (Ok tt, Sample3.after) /\
  get_dict_value "prefs" "flag" CastBool Sample3.after
    = (Ok (Some (PBool true)), Sample3.after) /\
  get_dict_values "prefs" Sample3.after
    = (Ok [(PStr "flag", "1")], Sample3.after) /\
  delete_dict_value "prefs" "flag" Sample3.after
    = (Ok tt, Sample3.before) /\
  Sql.find_table "Prefs" (db Sample3.after)
    = Some (Sample3.prefs [[SText "flag"; SText "1"; SNull]]) /\
  get_dict_value "Prefs" "flag" CastBool Sample3.after
    = (Raise (ValueError (TableMissing "Prefs")), Sample3.after).
Proof. repeat split; vm_compute; reflexivity. Qed.

(** ** Writing and reading a key *)

Lemma key_is_kv (t k : string) (rows : list (list sqlval)) (r : list sqlval) :
  Sql.key_is (kv_table t rows) k r = row_has_key k r.
Proof.
  destruct r as [|[|z|k'] r]; try reflexivity.
  unfold Sql.key_is, Sql.cell. simpl. apply String.eqb_sym.
Qed.

Lemma filter_upsert (t key text : string) (rows0 rows : list (list sqlval)) :
  List.filter (Sql.key_is (kv_table t rows0) key) (upsert key text rows)
  = [[SText key; SText text]].
Proof.
  unfold upsert. rewrite List.filter_app. simpl.
  rewrite key_is_kv. simpl. rewrite String.eqb_refl.
  replace (List.filter _ (List.filter _ rows)) with (@nil (list sqlval)); [reflexivity|].
  symmetry. induction rows as [|r rows IH]; [reflexivity|].
  simpl. destruct (row_has_key key r) eqn:Hr; simpl; [exact IH|].
  rewrite key_is_kv, Hr. exact IH.
Qed.

Lemma check_kv_table (t : string) (rows : list (list sqlval)) (s : session) :
  Sql.is_ident t = true ->
  Sql.find_table t (db s) = Some (kv_table t rows) ->
  check_dict_table t s = (Ok tt, s).
Proof.
  intros Hid Hf. unfold check_dict_table, bind, tables, gets.
  rewrite (find_table_listed _ _ _ Hf eq_refl). simpl.
  unfold extract_column_names. rewrite Hid, Hf. reflexivity.
Qed.

Lemma set_text_kv (t key : string) (v : pyval) (rows : list (list sqlval))
    (s : session) :
  Sql.is_ident t = true ->
  Sql.find_table t (db s) = Some (kv_table t rows) ->
  set_dict_value t key v s =
    (Ok tt,
     committed (Sql.put_table
       (kv_table t (upsert key (Cast.str match v with
                                         | PBool b => PInt (if b then 1 else 0)
                                         | w => w
                                         end) rows))
       (db s))).
Proof.
  intros Hid Hf. unfold set_dict_value, bind.
  rewrite (check_kv_table t rows s Hid Hf).
  set (dump := Cast.str _).
  unfold executemany_insert, Sql.prepare_insert. rewrite Hid, Hf.
  unfold insert_many, Sql.insert_row, Sql.bind_row, Sql.affinity, commit, modify,
    bind, ret, upsert, committed, kv_table.
  simpl.
  rewrite (List.filter_ext _ (fun r => negb (row_has_key key r)));
    [reflexivity|].
  intros r. exact (f_equal negb (conflict_kv (key, PStr dump) r)).
Qed.

Lemma get_after_upsert (t key text : string) (c : cast) (rows : list (list sqlval))
    (s : session) :
  Sql.is_ident t = true ->
  Sql.find_table t (db s) = Some (kv_table t (upsert key text rows)) ->
  get_dict_value t key c s =
    (match apply_cast c (PStr text) with
     | Ok v => Ok (Some v)
     | Raise e => Raise e
     end, s).
Proof.
  intros Hid Hf. unfold get_dict_value, bind.
  rewrite (check_kv_table t _ s Hid Hf).
  unfold fetch_key. rewrite Hid, Hf.
  change (Sql.has_column (kv_table t (upsert key text rows)) "key") with true.
  cbn [negb]. cbv iota.
  change (Sql.tbl_rows (kv_table t (upsert key text rows)))
    with (upsert key text rows).
  rewrite filter_upsert. simpl. unfold lift.
  destruct (apply_cast c (PStr text)); reflexivity.
Qed.




(** ** The cache of managers *)

(** [get], [close] and [delete] are the general functions, for scopes
    that are equal to themselves only. *)
Lemma by_structural_key (m : model) (st : state) :
  CogData.get_by (fun k => k) m st = CogData.get m st /\
  CogData.close_by (fun k => k) m st = CogData.close m st /\
  CogData.delete_by (fun k => k) m st = CogData.delete m st.
Proof. repeat split. Qed.

Lemma on_conn_managers {A} (h : nat) (body : M session A) (st : state) :
  managers (snd (on_conn h body st)) = managers st.
Proof.
  unfold on_conn. destruct (conns st !! h) as [c|]; [|reflexivity].
  destruct (conn_closed c); [reflexivity|].
  destruct (body _); reflexivity.
Qed.

Section Cache.

Variable dict_key : model -> model.

Lemma get_by_absent (m : model) (st : state) :
  managers st !! dict_key (CogData.lower_model m) = None ->
  let m' := CogData.lower_model m in
  let bs := default [] (builders st !! CogData.lower_type (CogData.type_of m')) in
  let p := CogData.db_path st m' in
  let rs := initialise bs (fresh_session p st) in
  let mgr := {| self_model := m'; self_builders := bs; conn := length (conns st) |} in
  CogData.get_by dict_key m st =
    match fst rs with
    | Ok _ => (Ok mgr, set_managers (insert (dict_key m') mgr) (opened p (snd rs) st))
    | Raise e => (Raise e, opened p (snd rs) st)
    end.
Proof.
  intros Hm. cbv zeta.
  unfold CogData.get_by, bind, gets. rewrite Hm.
  unfold CogData.get_manager, ModelDataManager_init, CogData.get_linked_builders,
    bind, gets.
  rewrite get_connection_run.
  destruct (initialise _ _) as [[[]|e] s1]; reflexivity.
Qed.

Lemma get_by_cached (m : model) (st : state) (mgr : ModelDataManager) :
  managers st !! dict_key (CogData.lower_model m) = Some mgr ->
  CogData.get_by dict_key m st = (Ok mgr, st).
Proof.
  intros Hm. unfold CogData.get_by, bind, gets. rewrite Hm. reflexivity.
Qed.

Lemma get_by_caches (m : model) (st st1 : state) (mgr : ModelDataManager) :
  CogData.get_by dict_key m st = (Ok mgr, st1) ->
  managers st1 !! dict_key (CogData.lower_model m) = Some mgr.
Proof.
  destruct (managers st !! dict_key (CogData.lower_model m)) as [mgr0|] eqn:Hm.
  - rewrite (get_by_cached m st mgr0 Hm). intros [= <- <-]. exact Hm.
  - rewrite (get_by_absent m st Hm).
    destruct (fst (initialise _ _)); [|discriminate].
    intros [= <- <-]. apply lookup_insert_eq.
Qed.

(** A call that does not close or delete the scope, or a scope that
    is the same key, keeps its manager in the cache. *)
Lemma perform_keeps (m : model) (a : action) (st : state) (mgr : ModelDataManager) :
  managers st !! dict_key (CogData.lower_model m) = Some mgr ->
  evicts dict_key m a = false ->
  managers (perform dict_key st a) !! dict_key (CogData.lower_model m) = Some mgr.
Proof.
  intros Hm Ha. destruct a as [m'|m'|m'|mt bs|mgr' body| |]; simpl in *;
    try discriminate.
  - destruct (managers st !! dict_key (CogData.lower_model m')) as [mgr0|] eqn:Hm'.
    + rewrite (get_by_cached m' st mgr0 Hm'). exact Hm.
    + rewrite (get_by_absent m' st Hm').
      destruct (fst (initialise _ _)); simpl; [|exact Hm].
      rewrite lookup_insert_ne; [exact Hm|]. congruence.
  - apply bool_decide_eq_false_1 in Ha.
    unfold CogData.close_by, bind, gets.
    destruct (managers st !! dict_key (CogData.lower_model m')); simpl; [|exact Hm].
    rewrite lookup_delete_ne by exact Ha. exact Hm.
  - apply bool_decide_eq_false_1 in Ha.
    unfold CogData.delete_by, bind, gets.
    destruct (managers st !! dict_key (CogData.lower_model m')); simpl; [|exact Hm].
    rewrite lookup_delete_ne by exact Ha. exact Hm.
  - exact Hm.
  - unfold call. rewrite on_conn_managers. exact Hm.
Qed.

End Cache.



(** ** Deleting a scope *)

(** [delete(scope)] unlinks a file next to the [data] folder; the file
    that [get(scope)] opens, inside that folder, stays as it is. *)
Lemma delete_keeps_database (m : model) (st : state) :
  fs (snd (CogData.delete m st)) !! CogData.db_path st (CogData.lower_model m)
  = fs st !! CogData.db_path st (CogData.lower_model m).
Proof.
  unfold CogData.delete, bind, gets, modify.
  assert (Hne : CogData.unlinked_path st (CogData.lower_model m)
                <> CogData.db_path st (CogData.lower_model m)).
  { unfold CogData.unlinked_path, CogData.db_path. intros H.
    apply (f_equal length) in H. rewrite !length_app in H. simpl in H. lia. }
  destruct (managers st !! CogData.lower_model m); simpl;
    rewrite lookup_delete_ne by exact Hne; reflexivity.
Qed.

(** C1 (the code departs from it): after [delete(scope)] the database
    file of the scope is still on disk, with its content, and the next
    [get(scope)] reads the old rows instead of fresh defaults: the
    guild that switched [Enabled] on still finds it on. *)
Theorem delete_leaves_database :
  (forall m st,
     fs (snd (CogData.delete m st)) !! CogData.db_path st (CogData.lower_model m)
     = fs st !! CogData.db_path st (CogData.lower_model m)) /\
  fst (Sample4.delete_then_get Sample.colors) = Ok (Some (PBool true)) /\
  fs (snd (Sample4.delete_then_get Sample.colors))
    !! ["cogs"; "colors"; "data"; "guild_42.db"]
  = Some [kv_table "settings"
            [[SText "PlaceNewColorRole"; SText "AboveLowest"];
             [SText "Enabled"; SText "1"]]].
Proof.
  split; [exact delete_keeps_database|].
  split; vm_compute; reflexivity.
Qed.

(** ** The commit at the end of the bootstrap *)

(** When every table is listed already, the loop returns the flag it
    was given, whatever the reseed steps wrote. *)
Lemma init_tables_flag (tables : list string) (bs : list TableBuilder)
    (c c' : bool) (s s' : session) :
  (forall b t, In b bs -> table_name b = Ok t -> mem t tables = true) ->
  init_tables tables bs c s = (Ok c', s') -> c' = c.
Proof.
  revert c s. induction bs as [|b bs IH]; intros c s Hall.
  - intros [= <- _]. reflexivity.
  - cbn [init_tables]. unfold create_missing, bind, lift.
    destruct (table_name b) as [t|e] eqn:Ht; [|discriminate].
    rewrite (Hall b t (or_introl eq_refl) Ht). cbn [negb]. cbv iota.
    unfold ret at 1.
    destruct (reseed b s) as [[[]|e] s1]; [|discriminate].
    apply IH. intros b' t' Hin. apply Hall. right. exact Hin.
Qed.

(** C3 (the code departs from it): when every table exists, the loop
    leaves [commit_on_close] false even though the reseed step inserted
    a row; the connection holds the row in an open transaction, the
    file does not have it, and closing the scope loses it. *)
Theorem reseed_is_not_committed :
  (forall tables bs s c' s',
     (forall b t, In b bs -> table_name b = Ok t -> mem t tables = true) ->
     init_tables tables bs false s = (Ok c', s') -> c' = false) /\
  init_tables ["settings"] [Sample2.settings] false
    (committed [kv_table "settings" Sample2.stored_rows])
  = (Ok false,
     {| db := [kv_table "settings" Sample4.reseeded_rows]; in_tx := true;
        file := [kv_table "settings" Sample2.stored_rows] |}) /\
  initialise [Sample2.settings] (committed [kv_table "settings" Sample2.stored_rows])
  = (Ok tt,
     {| db := [kv_table "settings" Sample4.reseeded_rows]; in_tx := true;
        file := [kv_table "settings" Sample2.stored_rows] |}) /\
  fs (snd (CogData.get Sample.guild Sample2.colors)) !! Sample2.guild_path
  = Some [kv_table "settings" Sample2.stored_rows] /\
  fs (snd ((CogData.get Sample.guild ;;; CogData.close Sample.guild) Sample2.colors))
    !! Sample2.guild_path
  = Some [kv_table "settings" Sample2.stored_rows].
Proof.
  split; [intros tables bs s c' s'; apply init_tables_flag|].
  repeat split; vm_compute; reflexivity.
Qed.

(** * Further properties of the module *)

(** ** Reading and writing keys

    In this part a key/value table is a table with the two columns
    that [DictTableBuilder] declares, [key] being its primary key, as
    [kv_table] has them; and the name of the table is one of the
    fragment: letters, digits and underscores, not starting with a
    digit, and no word that SQLite reserves. *)

Lemma get_kv (t k : string) (c : cast) (rows : list (list sqlval)) (s : session) :
  Sql.is_ident t = true ->
  Sql.find_table t (db s) = Some (kv_table t rows) ->
  get_dict_value t k c s =
    (match kv_find k rows with
     | None => Ok None
     | Some r => read_value c r
     end, s).
Proof.
  intros Hid Hf. unfold get_dict_value, bind.
  rewrite (check_kv_table t rows s Hid Hf).
  unfold fetch_key. rewrite Hid, Hf.
  change (Sql.has_column (kv_table t rows) "key") with true.
  cbn [negb]. cbv iota.
  change (Sql.tbl_rows (kv_table t rows)) with rows.
  rewrite (List.filter_ext _ (row_has_key k)) by (intros r; apply key_is_kv).
  unfold kv_find, rows_of.
  destruct (List.filter (row_has_key k) rows) as [|r rs]; [reflexivity|].
  cbn [map head]. unfold read_value, lift, rbind, ret.
  change (map Sql.col_name (Sql.tbl_cols (kv_table t rows))) with ["key"; "value"].
  destruct (row_get "value" _) as [v|e]; [|reflexivity].
  destruct (apply_cast c v); reflexivity.
Qed.

Lemma delete_kv (t k : string) (rows : list (list sqlval)) (s : session) :
  Sql.is_ident t = true ->
  Sql.find_table t (db s) = Some (kv_table t rows) ->
  delete_dict_value t k s =
    (Ok tt, committed (Sql.put_table (kv_table t (without_key k rows)) (db s))).
Proof.
  intros Hid Hf. unfold delete_dict_value, bind.
  rewrite (check_kv_table t rows s Hid Hf).
  unfold execute_delete. rewrite Hid, Hf.
  change (Sql.has_column (kv_table t rows) "key") with true.
  cbn [negb]. cbv iota. unfold commit, modify, committed. cbn [db].
  unfold Sql.delete_key, without_key, kv_table. cbn [Sql.tbl_name Sql.tbl_cols Sql.tbl_rows].
  rewrite (List.filter_ext _ (fun r => negb (row_has_key k r)));
    [reflexivity|].
  intros r. f_equal. apply (key_is_kv t k rows r).
Qed.

Lemma kv_find_absent (k : string) (rows : list (list sqlval)) :
  has_key k rows = false -> kv_find k rows = None.
Proof.
  unfold kv_find, has_key. induction rows as [|r rows IH]; [reflexivity|].
  simpl. intros [-> Hr]%orb_false_elim. apply IH, Hr.
Qed.

Lemma has_key_without (k : string) (rows : list (list sqlval)) :
  has_key k (without_key k rows) = false.
Proof.
  unfold has_key, without_key. induction rows as [|r rows IH]; [reflexivity|].
  simpl. destruct (row_has_key k r) eqn:Hr; simpl; [exact IH|].
  rewrite Hr. exact IH.
Qed.

Lemma row_has_key_other (k k' : string) (r : list sqlval) :
  k <> k' -> row_has_key k' r = true -> row_has_key k r = false.
Proof.
  intros Hne. destruct r as [|[|z|x] r]; simpl; try discriminate.
  intros ->%String.eqb_eq. apply String.eqb_neq. exact Hne.
Qed.

Lemma kv_find_without_other (k k' : string) (rows : list (list sqlval)) :
  k <> k' -> kv_find k' (without_key k rows) = kv_find k' rows.
Proof.
  intros Hne. unfold kv_find, without_key. f_equal.
  induction rows as [|r rows IH]; [reflexivity|].
  simpl. destruct (row_has_key k' r) eqn:Hr'.
  - rewrite (row_has_key_other k k' r Hne Hr'). simpl. rewrite Hr', IH. reflexivity.
  - destruct (row_has_key k r); simpl; [exact IH|]. rewrite Hr'. exact IH.
Qed.

Lemma kv_find_upsert_other (k k' text : string) (rows : list (list sqlval)) :
  k <> k' -> kv_find k' (upsert k text rows) = kv_find k' rows.
Proof.
  intros Hne. rewrite <- (kv_find_without_other k k' rows Hne).
  unfold kv_find, upsert, without_key. rewrite List.filter_app. simpl.
  assert (Hk : (k' =? k)%string = false) by (apply String.eqb_neq; congruence).
  rewrite Hk, app_nil_r. reflexivity.
Qed.

Lemma kv_find_upsert (k text : string) (rows : list (list sqlval)) :
  kv_find k (upsert k text rows) = Some [SText k; SText text].
Proof.
  unfold kv_find, upsert. rewrite List.filter_app. simpl. rewrite String.eqb_refl.
  pose proof (has_key_without k rows) as H. apply kv_find_absent in H.
  unfold kv_find, without_key in H.
  destruct (List.filter (row_has_key k) _); [reflexivity | discriminate].
Qed.

(** X1: on a key/value table, [get_dict_value] of a key that no row has
    returns [None], for every cast, and leaves the session as it was. *)
Theorem get_missing_key_is_none (t k : string) (c : cast)
    (rows : list (list sqlval)) (s : session) :
  Sql.is_ident t = true ->
  Sql.find_table t (db s) = Some (kv_table t rows) ->
  has_key k rows = false ->
  get_dict_value t k c s = (Ok None, s).
Proof.
  intros Hid Hf Hk. rewrite (get_kv t k c rows s Hid Hf).
  rewrite (kv_find_absent k rows Hk). reflexivity.
Qed.

Lemma get_missing_key_is_none_witness :
  get_dict_value "settings" "Limit" CastInt Sample5.settings
  = (Ok None, Sample5.settings).
Proof.
  apply (get_missing_key_is_none "settings" "Limit" CastInt Sample5.rows);
    reflexivity.
Defined.

(** X2: [delete_dict_value] succeeds whether or not the key is there,
    commits, and afterwards [get_dict_value] of that key returns
    [None]. *)
Theorem delete_then_get_is_none (t k : string) (c : cast)
    (rows : list (list sqlval)) (s : session) :
  Sql.is_ident t = true ->
  Sql.find_table t (db s) = Some (kv_table t rows) ->
  exists s',
    delete_dict_value t k s = (Ok tt, s') /\
    in_tx s' = false /\ file s' = db s' /\
    Sql.find_table t (db s') = Some (kv_table t (without_key k rows)) /\
    get_dict_value t k c s' = (Ok None, s').
Proof.
  intros Hid Hf. eexists. split; [apply (delete_kv t k rows s Hid Hf)|].
  assert (Hf' : Sql.find_table t
                  (Sql.put_table (kv_table t (without_key k rows)) (db s))
                = Some (kv_table t (without_key k rows))).
  { apply (find_table_put t (db s) (kv_table t rows)); [exact Hf | reflexivity]. }
  split; [reflexivity|]. split; [reflexivity|]. split; [exact Hf'|].
  rewrite (get_kv t k c (without_key k rows)) by (exact Hid || exact Hf').
  rewrite (kv_find_absent _ _ (has_key_without k rows)). reflexivity.
Qed.

Lemma delete_then_get_is_none_witness :
  exists s',
    delete_dict_value "settings" "Enabled" Sample5.settings = (Ok tt, s') /\
    in_tx s' = false /\ file s' = db s' /\
    Sql.find_table "settings" (db s')
      = Some (kv_table "settings" (without_key "Enabled" Sample5.rows)) /\
    get_dict_value "settings" "Enabled" CastBool s' = (Ok None, s').
Proof.
  apply (delete_then_get_is_none "settings" "Enabled" CastBool Sample5.rows
           Sample5.settings); reflexivity.
Defined.

(** X3: [set_dict_value] followed by [get_dict_value] with the default
    cast [str] returns the text of the value: [str(value)], and
    ["1"] or ["0"] for a [bool] (for a value that [str] renders: an
    [int] within the limit of the conversion). *)
Theorem set_then_get_text (t k : string) (v : pyval)
    (rows : list (list sqlval)) (s : session) :
  Sql.is_ident t = true ->
  Sql.find_table t (db s) = Some (kv_table t rows) ->
  printable v = true ->
  exists s',
    set_dict_value t k v s = (Ok tt, s') /\
    get_dict_value t k CastStr s' = (Ok (Some (PStr (dump_of v))), s').
Proof.
  intros Hid Hf _.
  exists (committed (Sql.put_table (kv_table t (upsert k (dump_of v) rows)) (db s))).
  split; [exact (set_text_kv t k v rows s Hid Hf)|].
  rewrite (get_kv t k CastStr (upsert k (dump_of v) rows));
    [|exact Hid|apply (find_table_put t (db s) (kv_table t rows));
                 [exact Hf | reflexivity]].
  rewrite kv_find_upsert. reflexivity.
Qed.

Lemma set_then_get_text_witness :
  exists s',
    set_dict_value "settings" "Topic" PNone Sample5.settings = (Ok tt, s') /\
    get_dict_value "settings" "Topic" CastStr s' = (Ok (Some (PStr "None")), s').
Proof.
  apply (set_then_get_text "settings" "Topic" PNone Sample5.rows Sample5.settings);
    reflexivity.
Defined.

Lemma check_outside_fragment (t : string) (s : session) :
  Sql.is_ident t = false -> exists e, check_dict_table t s = (Raise e, s).
Proof.
  intros Hid. unfold check_dict_table, bind, tables, gets, raise.
  destruct (negb (mem t _)); [eauto|].
  unfold extract_column_names. rewrite Hid. cbn [negb]. eauto.
Qed.



(** ** Integers as text *)

Lemma rev_app_rev_app (s t u : string) :
  String.rev_app (String.rev_app s t) u = String.rev_app t (s +:+ u).
Proof.
  revert t u. induction s as [|c s IH]; intros t u; [reflexivity|].
  simpl. rewrite IH. reflexivity.
Qed.

Lemma app_empty_r (s : string) : s +:+ "" = s.
Proof. induction s as [|c s IH]; [reflexivity|]. rewrite app_cons, IH. reflexivity. Qed.

Lemma rev_rev (s : string) : String.rev (String.rev s) = s.
Proof.
  unfold String.rev. rewrite rev_app_rev_app. simpl. apply app_empty_r.
Qed.

Lemma all_chars_rev_app (p : ascii -> bool) (s t : string) :
  Sql.all_chars p s = true -> Sql.all_chars p t = true ->
  Sql.all_chars p (String.rev_app s t) = true.
Proof.
  revert t. induction s as [|c s IH]; intros t; [auto|].
  simpl. intros [Hc Hs]%andb_prop Ht. apply IH; [exact Hs|].
  simpl. rewrite Hc, Ht. reflexivity.
Qed.

Lemma lstrip_numeral (s : string) :
  Sql.all_chars numeral_char s = true -> Cast.lstrip s = s.
Proof.
  destruct s as [|c s]; [reflexivity|]. simpl. intros [Hc _]%andb_prop.
  assert (Hs : Cast.is_space c = false).
  { revert Hc. destruct c as [[] [] [] [] [] [] [] []]; vm_compute;
      intros H; first [discriminate H | reflexivity]. }
  rewrite Hs. reflexivity.
Qed.

(** Numerals have no white space to strip. *)
Lemma strip_numeral (s : string) :
  Sql.all_chars numeral_char s = true -> Cast.strip s = s.
Proof.
  intros Hs. unfold Cast.strip. rewrite (lstrip_numeral s Hs).
  rewrite lstrip_numeral; [apply rev_rev|].
  apply all_chars_rev_app; [exact Hs | reflexivity].
Qed.

Lemma digits_val_cons (acc k : Z) (b : bool) (c : ascii) (s : string) :
  Cast.digit c = Some k ->
  Cast.digits_val acc b (String c s) = Cast.digits_val (10 * acc + k) true s.
Proof.
  intros Hc. cbn [Cast.digits_val]. rewrite Hc.
  assert (Hu : Ascii.eqb c "_" = false).
  { revert Hc. unfold Cast.digit.
    destruct c as [[] [] [] [] [] [] [] []]; vm_compute;
      intros H; first [discriminate H | reflexivity]. }
  rewrite Hu. reflexivity.
Qed.

Ltac digit_step k :=
  cbn [NilEmpty.string_of_uint Pos.of_uint_acc Pos.of_uint];
  rewrite (digits_val_cons _ k) by reflexivity.

Lemma digits_acc (d : Decimal.uint) (p : positive) :
  Cast.digits_val (Z.pos p) true (NilEmpty.string_of_uint d)
  = Some (Z.pos (Pos.of_uint_acc d p)).
Proof.
  revert p. induction d; intros p; [reflexivity|..].
  - digit_step 0%Z. rewrite <- IHd. f_equal; lia.
  - digit_step 1%Z. rewrite <- IHd. f_equal; lia.
  - digit_step 2%Z. rewrite <- IHd. f_equal; lia.
  - digit_step 3%Z. rewrite <- IHd. f_equal; lia.
  - digit_step 4%Z. rewrite <- IHd. f_equal; lia.
  - digit_step 5%Z. rewrite <- IHd. f_equal; lia.
  - digit_step 6%Z. rewrite <- IHd. f_equal; lia.
  - digit_step 7%Z. rewrite <- IHd. f_equal; lia.
  - digit_step 8%Z. rewrite <- IHd. f_equal; lia.
  - digit_step 9%Z. rewrite <- IHd. f_equal; lia.
Qed.

Lemma digits_zero (d : Decimal.uint) (b : bool) :
  d <> Decimal.Nil \/ b = true ->
  Cast.digits_val 0 b (NilEmpty.string_of_uint d) = Some (Z.of_N (Pos.of_uint d)).
Proof.
  revert b. induction d; intros b Hb.
  - destruct Hb as [Hb| ->]; [contradiction | reflexivity].
  - digit_step 0%Z. apply IHd. right. reflexivity.
  - digit_step 1%Z. apply (digits_acc d 1).
  - digit_step 2%Z. apply (digits_acc d 2).
  - digit_step 3%Z. apply (digits_acc d 3).
  - digit_step 4%Z. apply (digits_acc d 4).
  - digit_step 5%Z. apply (digits_acc d 5).
  - digit_step 6%Z. apply (digits_acc d 6).
  - digit_step 7%Z. apply (digits_acc d 7).
  - digit_step 8%Z. apply (digits_acc d 8).
  - digit_step 9%Z. apply (digits_acc d 9).
Qed.

Lemma unsigned_of_pos (p : positive) :
  Cast.unsigned (NilEmpty.string_of_uint (Pos.to_uint p)) = Ok (Z.pos p).
Proof.
  unfold Cast.unsigned.
  rewrite (digits_zero _ false) by (left; apply DecimalPos.Unsigned.to_uint_nonnil).
  rewrite DecimalPos.Unsigned.of_to. reflexivity.
Qed.

(** [int(str(n))] is [n]. *)
Lemma int_of_str_of_int (z : Z) : Cast.int_of_str (Py.str_of_int z) = Ok z.
Proof.
  unfold Cast.int_of_str. rewrite strip_numeral by apply str_of_int_numeral.
  unfold Py.str_of_int. destruct z as [|p|p]; [reflexivity| |].
  - pose proof (unsigned_of_pos p) as H.
    pose proof (DecimalPos.Unsigned.to_uint_nonnil p) as Hn.
    simpl Z.to_int. destruct (Pos.to_uint p); [contradiction|..]; exact H.
  - pose proof (unsigned_of_pos p) as H.
    pose proof (DecimalPos.Unsigned.to_uint_nonnil p) as Hn.
    simpl Z.to_int. destruct (Pos.to_uint p); [contradiction|..];
      cbn [NilZero.string_of_int NilZero.string_of_uint]; unfold rbind;
      rewrite H; reflexivity.
Qed.

(** X5: an [int] written with [set_dict_value] is read back by
    [get_dict_value] with [cast=int]: the decimal text that is stored
    parses to the same integer, whatever its sign, and beyond the 64
    bits of an SQLite integer (up to the limit of the conversion). *)
Theorem int_round_trip (t k : string) (z : Z) (rows : list (list sqlval))
    (s : session) :
  Sql.is_ident t = true ->
  Sql.find_table t (db s) = Some (kv_table t rows) ->
  printable (PInt z) = true ->
  exists s',
    set_dict_value t k (PInt z) s = (Ok tt, s') /\
    Sql.find_table t (db s')
      = Some (kv_table t (upsert k (Py.str_of_int z) rows)) /\
    get_dict_value t k CastInt s' = (Ok (Some (PInt z)), s').
Proof.
  intros Hid Hf _.
  exists (committed (Sql.put_table
            (kv_table t (upsert k (Py.str_of_int z) rows)) (db s))).
  assert (Hf' : Sql.find_table t
                  (Sql.put_table (kv_table t (upsert k (Py.str_of_int z) rows)) (db s))
                = Some (kv_table t (upsert k (Py.str_of_int z) rows))).
  { apply (find_table_put t (db s) (kv_table t rows)); [exact Hf | reflexivity]. }
  split; [exact (set_text_kv t k (PInt z) rows s Hid Hf)|].
  split; [exact Hf'|].
  rewrite (get_kv t k CastInt (upsert k (Py.str_of_int z) rows))
    by (exact Hid || exact Hf').
  rewrite kv_find_upsert. unfold read_value. simpl.
  rewrite int_of_str_of_int. reflexivity.
Qed.

Lemma int_round_trip_witness :
  exists s',
    set_dict_value "settings" "Limit" (PInt (-86400)) Sample5.settings = (Ok tt, s') /\
    Sql.find_table "settings" (db s')
      = Some (kv_table "settings" (upsert "Limit" "-86400" Sample5.rows)) /\
    get_dict_value "settings" "Limit" CastInt s' = (Ok (Some (PInt (-86400))), s').
Proof.
  apply (int_round_trip "settings" "Limit" (-86400) Sample5.rows Sample5.settings);
    vm_compute; reflexivity.
Defined.

(** X6: whatever the table and the state of the connection, a
    [set_dict_value] or [delete_dict_value] that returns has committed:
    no transaction is left open and the file holds what the connection
    sees, rows left pending by the bootstrap included. *)
Theorem key_value_writes_commit (t k : string) (v : pyval) (s s' : session) :
  set_dict_value t k v s = (Ok tt, s') \/ delete_dict_value t k s = (Ok tt, s') ->
  in_tx s' = false /\ file s' = db s'.
Proof.
  intros [H|H]; revert H.
  - unfold set_dict_value, bind.
    destruct (check_dict_table t s) as [[[]|e] s1]; [|discriminate].
    destruct (executemany_insert _ _ _ _ s1) as [[[]|e] s2]; [|discriminate].
    intros [= <-]. split; reflexivity.
  - unfold delete_dict_value, bind.
    destruct (check_dict_table t s) as [[[]|e] s1]; [|discriminate].
    destruct (execute_delete t k s1) as [[[]|e] s2]; [|discriminate].
    intros [= <-]. split; reflexivity.
Qed.

Lemma key_value_writes_commit_witness :
  in_tx Sample3.after = false /\ file Sample3.after = db Sample3.after.
Proof.
  apply (key_value_writes_commit "prefs" "flag" (PBool true)
           {| db := db Sample3.before; in_tx := true; file := [] |} Sample3.after).
  left. reflexivity.
Defined.

(** X7: [get_dict_value] and [get_dict_values] never write: the
    session is the same afterwards, whether they return or raise. *)
Theorem key_value_reads_do_not_write (t k : string) (c : cast) (s : session) :
  snd (get_dict_value t k c s) = s /\ snd (get_dict_values t s) = s.
Proof.
  assert (Hc : forall e s1, check_dict_table t s = (e, s1) -> s1 = s).
  { unfold check_dict_table, bind, tables, gets, extract_column_names, raise, ret.
    intros e s1.
    destruct (negb (mem t _)); [intros [= _ <-]; reflexivity|].
    destruct (negb (Sql.is_ident t)); [intros [= _ <-]; reflexivity|].
    destruct (Sql.find_table t (db s)); [|intros [= _ <-]; reflexivity].
    destruct (_ || _); intros [= _ <-]; reflexivity. }
  split.
  - unfold get_dict_value, bind.
    destruct (check_dict_table t s) as [[[]|e] s1];
      specialize (Hc _ _ eq_refl); subst s1; [|reflexivity].
    unfold fetch_key.
    destruct (negb (Sql.is_ident t)); [reflexivity|].
    destruct (Sql.find_table t (db s)) as [tb|]; [|reflexivity].
    destruct (negb (Sql.has_column tb "key")); [reflexivity|].
    destruct (head _) as [r|]; [|reflexivity].
    unfold lift. destruct (row_get "value" r) as [w|]; [|reflexivity].
    destruct (apply_cast c w); reflexivity.
  - unfold get_dict_values, bind.
    destruct (check_dict_table t s) as [[[]|e] s1];
      specialize (Hc _ _ eq_refl); subst s1; [|reflexivity].
    unfold fetchall_table.
    destruct (negb (Sql.is_ident t)); [reflexivity|].
    destruct (Sql.find_table t (db s)) as [tb|]; reflexivity.
Qed.

(** ** The registry: failures, closing, linking *)

Lemma lower_char_idem (c : ascii) : Py.lower_char (Py.lower_char c) = Py.lower_char c.
Proof. destruct c as [[] [] [] [] [] [] [] []]; reflexivity. Qed.

Lemma lower_idem (s : string) : Py.lower (Py.lower s) = Py.lower s.
Proof.
  induction s as [|c s IH]; [reflexivity|].
  simpl. rewrite lower_char_idem, IH. reflexivity.
Qed.

Lemma type_of_lower (m : model) :
  CogData.lower_type (CogData.type_of (CogData.lower_model m))
  = CogData.lower_type (CogData.type_of m).
Proof. destruct m; simpl; [reflexivity|]. rewrite lower_idem. reflexivity. Qed.

Lemma on_conn_closed {A} (h : nat) (body : M session A) (st : state) :
  is_closed h st = true -> on_conn h body st = (Raise ProgrammingError, st).
Proof.
  unfold is_closed, on_conn. destruct (conns st !! h) as [c|]; [|reflexivity].
  intros ->. reflexivity.
Qed.

Lemma conn_close_closed (h h' : nat) (st : state) :
  is_closed h' st = true \/ h' = h ->
  is_closed h' (snd (conn_close h st)) = true.
Proof.
  unfold is_closed, conn_close, modify. simpl. rewrite list_lookup_alter.
  intros H. destruct (decide (h = h')) as [->|Hne].
  - destruct (conns st !! h'); reflexivity.
  - destruct H as [H|H]; [exact H | congruence].
Qed.

(** X8: a [get] that raises caches nothing, so that the next [get] of
    the scope tries again; the schemas are as before, and the database
    file of the scope exists by then. *)
Theorem failed_get_caches_nothing (m : model) (st st' : state) (e : exn) :
  CogData.get m st = (Raise e, st') ->
  managers st' = managers st /\
  managers st' !! CogData.lower_model m = None /\
  builders st' = builders st /\
  is_Some (fs st' !! CogData.db_path st (CogData.lower_model m)).
Proof.
  destruct (managers st !! CogData.lower_model m) as [mgr|] eqn:Hm.
  { rewrite (get_cached m st mgr Hm). discriminate. }
  rewrite (get_absent m st Hm).
  destruct (fst (initialise _ _)); [discriminate|].
  intros [= _ <-]. unfold opened. simpl.
  split; [reflexivity|]. split; [exact Hm|]. split; [reflexivity|].
  rewrite lookup_insert_eq. eauto.
Qed.

Lemma failed_get_caches_nothing_witness :
  let st' := snd (CogData.get Sample.guild Sample6.broken) in
  managers st' = managers Sample6.broken /\
  managers st' !! CogData.lower_model Sample.guild = None /\
  builders st' = builders Sample6.broken /\
  is_Some (fs st' !! CogData.db_path Sample6.broken (CogData.lower_model Sample.guild)).
Proof.
  apply (failed_get_caches_nothing Sample.guild Sample6.broken _ IndexError).
  vm_compute. reflexivity.
Defined.

(** X9: after [close(scope)] the manager that was cached is of no use:
    every method called on it raises [sqlite3.ProgrammingError] and
    changes nothing; the scope is no longer cached and the files are
    as they were. *)
Theorem closed_manager_refuses {A} (m : model) (mgr : ModelDataManager)
    (body : M session A) (st : state) :
  managers st !! CogData.lower_model m = Some mgr ->
  let st' := snd (CogData.close m st) in
  call mgr body st' = (Raise ProgrammingError, st') /\
  managers st' !! CogData.lower_model m = None /\
  fs st' = fs st.
Proof.
  intros Hm st'. subst st'. rewrite (close_cached m st mgr Hm).
  cbn [snd]. split; [|split].
  - unfold call. apply on_conn_closed.
    change (is_closed (conn mgr) (snd (conn_close (conn mgr) st)) = true).
    apply conn_close_closed. right. reflexivity.
  - apply lookup_delete_eq.
  - reflexivity.
Qed.

Lemma closed_manager_refuses_witness :
  let st' := snd (CogData.close Sample.guild Sample6.running) in
  call Sample6.guild_manager (get_dict_value "settings" "Enabled" CastBool) st'
    = (Raise ProgrammingError, st') /\
  managers st' !! CogData.lower_model Sample.guild = None /\
  fs st' = fs Sample6.running.
Proof.
  apply (closed_manager_refuses Sample.guild Sample6.guild_manager
           (get_dict_value "settings" "Enabled" CastBool) Sample6.running).
  vm_compute. reflexivity.
Defined.

(** What [close_all] leaves: only connection objects change, and
    those of the cached managers are closed. *)
Lemma close_all_run (st : state) :
  let st' := snd (CogData.close_all st) in
  cog_name st' = cog_name st /\ managers st' = ∅ /\
  builders st' = builders st /\ fs st' = fs st /\
  (forall h, is_closed h st = true -> is_closed h st' = true) /\
  (forall m mgr, managers st !! m = Some mgr -> is_closed (conn mgr) st' = true).
Proof.
  unfold CogData.close_all, modify. cbn [snd].
  set (f := fun (_ : model) (mgr : ModelDataManager) (s : state) =>
              snd (close_manager mgr s)).
  set (P := fun (r : state) (ms : gmap model ModelDataManager) =>
       cog_name r = cog_name st /\ builders r = builders st /\ fs r = fs st /\
       (forall h, is_closed h st = true -> is_closed h r = true) /\
       (forall m mgr, ms !! m = Some mgr -> is_closed (conn mgr) r = true)).
  assert (H : forall ms : gmap model ModelDataManager, P (map_fold f st ms) ms).
  { apply (map_fold_weak_ind P f st); unfold P.
    - repeat split; try reflexivity; [tauto|]. intros m mgr. rewrite lookup_empty.
      discriminate.
    - intros i x ms r Hi (Hc & Hb & Hf & Hk & Hcl). unfold f, close_manager.
      repeat split; try assumption.
      + intros h Hh. apply conn_close_closed. left. apply Hk, Hh.
      + intros m mgr. destruct (decide (i = m)) as [->|Hne].
        * rewrite lookup_insert_eq. intros [= ->].
          apply conn_close_closed. right. reflexivity.
        * rewrite lookup_insert_ne by exact Hne. intros Hm.
          apply conn_close_closed. left. eapply Hcl, Hm. }
  destruct (H (managers st)) as (Hc & Hb & Hf & Hk & Hcl).
  repeat split; assumption.
Qed.

(** X10: after [close_all] no scope is cached, every manager that was
    cached refuses every call with [sqlite3.ProgrammingError], and the
    schemas and the database files are as before. *)
Theorem close_all_closes_every_manager {A} (m : model) (mgr : ModelDataManager)
    (body : M session A) (st : state) :
  managers st !! m = Some mgr ->
  let st' := snd (CogData.close_all st) in
  call mgr body st' = (Raise ProgrammingError, st') /\
  managers st' = ∅ /\ builders st' = builders st /\ fs st' = fs st.
Proof.
  intros Hm st'.
  destruct (close_all_run st) as (_ & Hms & Hb & Hf & _ & Hcl).
  split; [|repeat split; assumption].
  apply on_conn_closed. eapply Hcl, Hm.
Qed.

Lemma close_all_closes_every_manager_witness :
  let st' := snd (CogData.close_all Sample6.running) in
  call Sample6.guild_manager (set_dict_value "settings" "Enabled" (PBool true)) st'
    = (Raise ProgrammingError, st') /\
  managers st' = ∅ /\ builders st' = builders Sample6.running /\
  fs st' = fs Sample6.running.
Proof.
  apply (close_all_closes_every_manager Sample.guild Sample6.guild_manager
           (set_dict_value "settings" "Enabled" (PBool true)) Sample6.running).
  vm_compute. reflexivity.
Defined.

(** X11: [delete_all] unlinks the files matching [*.db] directly in
    the folder of the module, and nothing else: the databases of the
    scopes, which [get] keeps in the [data] subfolder, all stay on
    disk, while the cache is emptied. *)
Theorem delete_all_leaves_databases (st : state) :
  let st' := snd (CogData.delete_all st) in
  managers st' = ∅ /\
  (forall p, fs st' !! p
             = if CogData.in_glob (CogData.cog_folder st) p then None else fs st !! p) /\
  (forall m, fs st' !! CogData.db_path st m = fs st !! CogData.db_path st m).
Proof.
  destruct (close_all_run st) as (Hc & Hms & Hb & Hf & _ & _).
  assert (Hp : forall p,
    fs (snd (CogData.delete_all st)) !! p
    = if CogData.in_glob (CogData.cog_folder st) p then None else fs st !! p).
  { intros p. unfold CogData.delete_all, bind, modify.
    destruct (CogData.close_all st) as [[[]|e] st1] eqn:Hca;
      [|unfold CogData.close_all, modify in Hca; discriminate].
    cbn [snd] in *. unfold set_fs. cbn [fs].
    unfold CogData.cog_folder. rewrite Hc, Hf.
    rewrite map_lookup_filter. cbn [fst].
    destruct (fs st !! p) as [d|]; simpl;
      [|destruct (CogData.in_glob _ p); reflexivity].
    case_guard as Hg; simpl in Hg;
      destruct (CogData.in_glob _ p);
      first [reflexivity | discriminate | exfalso; apply Hg; reflexivity]. }
  cbv zeta. split; [|split].
  - unfold CogData.delete_all, bind, modify.
    destruct (CogData.close_all st) as [[[]|e] st1] eqn:Hca;
      [|unfold CogData.close_all, modify in Hca; discriminate].
    cbn [snd] in *. exact Hms.
  - exact Hp.
  - intros m. rewrite Hp. reflexivity.
Qed.

(** X12: [get] opens a scope with the schemas linked last to its type
    or name, found whatever the letter case of a name; the manager it
    returns and caches carries them, with a connection of its own. *)
Theorem get_uses_linked_builders (m : model) (mt : model_type)
    (bs : list TableBuilder) (st st' : state) (mgr : ModelDataManager) :
  CogData.lower_type mt = CogData.lower_type (CogData.type_of m) ->
  managers st !! CogData.lower_model m = None ->
  (CogData.link mt bs ;;; CogData.get m) st = (Ok mgr, st') ->
  mgr = {| self_model := CogData.lower_model m; self_builders := bs;
           conn := length (conns st) |} /\
  managers st' !! CogData.lower_model m = Some mgr /\
  builders st' !! CogData.lower_type mt = Some bs.
Proof.
  intros Hmt Hm. unfold bind at 1. unfold CogData.link at 1, modify.
  set (st1 := set_builders (insert (CogData.lower_type mt) bs) st).
  assert (Hb : builders st1 !! CogData.lower_type (CogData.type_of (CogData.lower_model m))
               = Some bs).
  { rewrite type_of_lower, <- Hmt. apply lookup_insert_eq. }
  pose proof (get_absent m st1 Hm) as Hget. cbv zeta in Hget.
  rewrite Hb in Hget. rewrite Hget. simpl default.
  destruct (fst (initialise bs _)); [|discriminate].
  intros [= <- <-]. split; [reflexivity|].
  split; [apply lookup_insert_eq|].
  apply lookup_insert_eq.
Qed.

Lemma get_uses_linked_builders_witness :
  let mgr := {| self_model := Named "global"; self_builders := [Sample.notes];
                conn := 0 |} in
  let st' := snd ((CogData.link (Name "GLOBAL") [Sample.notes] ;;;
                   CogData.get (Named "Global")) Sample.colors) in
  mgr = {| self_model := CogData.lower_model (Named "Global");
           self_builders := [Sample.notes];
           conn := length (conns Sample.colors) |} /\
  managers st' !! CogData.lower_model (Named "Global") = Some mgr /\
  builders st' !! CogData.lower_type (Name "GLOBAL") = Some [Sample.notes].
Proof.
  apply (get_uses_linked_builders (Named "Global") (Name "GLOBAL") [Sample.notes]
           Sample.colors).
  - reflexivity.
  - reflexivity.
  - vm_compute. reflexivity.
Defined.

(** X13: opening a scope for whose type no schema is linked cannot
    fail: [get] returns a manager without schemas, and the database
    file exists afterwards, with the content it had (none, when it is
    new). *)
Theorem get_without_schemas (m : model) (st : state) :
  builders st !! CogData.lower_type (CogData.type_of m) = None ->
  managers st !! CogData.lower_model m = None ->
  exists mgr st',
    CogData.get m st = (Ok mgr, st') /\
    self_builders mgr = [] /\
    view mgr st' = Some (default [] (fs st !! CogData.db_path st (CogData.lower_model m))) /\
    fs st' = <[CogData.db_path st (CogData.lower_model m)
               := default [] (fs st !! CogData.db_path st (CogData.lower_model m))]>
               (fs st).
Proof.
  intros Hb Hm. pose proof (get_absent m st Hm) as Hget. cbv zeta in Hget.
  rewrite type_of_lower, Hb in Hget. simpl in Hget.
  do 2 eexists. split; [exact Hget|].
  split; [reflexivity|]. split; [|reflexivity].
  unfold view. cbn [conn conns set_managers opened].
  rewrite (list_lookup_middle (conns st) [] _ (length (conns st))) by reflexivity.
  reflexivity.
Qed.

Lemma get_without_schemas_witness :
  exists mgr st',
    CogData.get (Named "Cache") Sample.colors = (Ok mgr, st') /\
    self_builders mgr = [] /\
    view mgr st'
      = Some (default [] (fs Sample.colors
                !! CogData.db_path Sample.colors (CogData.lower_model (Named "Cache")))) /\
    fs st' = <[CogData.db_path Sample.colors (CogData.lower_model (Named "Cache"))
               := default [] (fs Sample.colors
                    !! CogData.db_path Sample.colors (CogData.lower_model (Named "Cache")))]>
               (fs Sample.colors).
Proof.
  apply (get_without_schemas (Named "Cache") Sample.colors); reflexivity.
Defined.

(** X14: the storage key of a named scope is written with characters
    of [[a-z0-9_]] only, so that it is one path component; and the key
    does not depend on the lower-casing that [get], [close] and
    [delete] apply to a name before they compute it. *)
Theorem storage_key_is_safe (s : string) (m : model) :
  Sql.all_chars key_char (model_db_name (Named s)) = true /\
  model_db_name (CogData.lower_model m) = model_db_name m.
Proof.
  split.
  - simpl. induction (Py.lower s) as [|c l IH]; [reflexivity|].
    simpl. rewrite IH, andb_true_r.
    destruct (key_char c) eqn:Hc; [exact Hc | reflexivity].
  - destruct m as [k i|n]; [reflexivity|]. simpl. rewrite lower_idem. reflexivity.
Qed.

(** ** The table name of a schema *)

Lemma drop_prefix_app (p s : string) : drop_prefix p (p +:+ s) = Some s.
Proof.
  induction p as [|c p IH]; [reflexivity|].
  rewrite app_cons. simpl. rewrite Ascii.eqb_refl. exact IH.
Qed.

Lemma line_app (g s : string) :
  Py.contains newline g = false -> line (g +:+ s) = g +:+ line s.
Proof.
  induction g as [|c g IH]; [reflexivity|].
  rewrite !app_cons. simpl. intros [Hc Hg]%orb_false_elim.
  rewrite Hc, IH by exact Hg. reflexivity.
Qed.

Lemma before_last_paren_none (l : string) :
  has_sub " (" l = false -> before_last_paren l = None.
Proof.
  induction l as [|c l IH]; [reflexivity|].
  intros [Hs Hl]%orb_false_elim. cbn [before_last_paren].
  rewrite (IH Hl), Hs. reflexivity.
Qed.

Lemma before_last_paren_some (l g : string) :
  before_last_paren l = Some g -> has_sub " (" l = true.
Proof.
  destruct (has_sub " (" l) eqn:H; [reflexivity|].
  rewrite (before_last_paren_none l H). discriminate.
Qed.

Lemma before_last_paren_last (g l : string) :
  has_sub " (" l = false -> before_last_paren (g +:+ " (" +:+ l) = Some g.
Proof.
  intros Hl. induction g as [|c g IH].
  - rewrite app_nil_l. change (" (" +:+ l) with (String " " (String "(" l)).
    cbn [before_last_paren]. rewrite (before_last_paren_none l Hl). reflexivity.
  - rewrite app_cons. cbn [before_last_paren]. rewrite IH. reflexivity.
Qed.

Lemma re_search_here (pre s g : string) :
  match_here pre s = Some g -> re_search pre s = Some g.
Proof. intros H. destruct s; simpl; rewrite H; reflexivity. Qed.

Lemma startswith_drop (p s : string) :
  Py.startswith p s = false -> drop_prefix p s = None.
Proof.
  revert s. induction p as [|a p IH]; intros [|b s]; simpl;
    try discriminate; try reflexivity.
  destruct (Ascii.eqb a b); [apply IH | reflexivity].
Qed.

Lemma re_search_absent (pre s : string) :
  has_sub pre s = false -> re_search pre s = None.
Proof.
  induction s as [|c s IH].
  - simpl. rewrite orb_false_r. intros H. unfold match_here.
    rewrite (startswith_drop _ _ H). reflexivity.
  - intros [Hs Hl]%orb_false_elim. cbn [re_search]. unfold match_here.
    rewrite (startswith_drop _ _ Hs). apply IH, Hl.
Qed.

Lemma startswith_line (p s : string) :
  Py.startswith p (line s) = true -> Py.startswith p s = true.
Proof.
  revert s. induction p as [|a p IH]; intros [|b s]; simpl;
    try discriminate; try reflexivity.
  destruct (Ascii.eqb b newline); [discriminate|]. simpl.
  destruct (Ascii.eqb a b); [apply IH | discriminate].
Qed.

Lemma has_sub_line (p s : string) :
  has_sub p (line s) = true -> has_sub p s = true.
Proof.
  induction s as [|c s IH]; [intros H; exact H|].
  cbn [line]. destruct (Ascii.eqb c newline) eqn:Hc.
  - cbn [has_sub]. rewrite orb_false_r. intros H.
    destruct p; [reflexivity | discriminate].
  - cbn [has_sub]. intros [H|H]%orb_true_iff; apply orb_true_iff.
    + left. apply (startswith_line p (String c s)). cbn [line]. rewrite Hc. exact H.
    + right. apply IH, H.
Qed.

Lemma has_sub_drop (pre p s rest : string) :
  drop_prefix pre s = Some rest -> has_sub p rest = true -> has_sub p s = true.
Proof.
  revert s. induction pre as [|a pre IH]; intros s.
  - simpl. intros [= ->]. tauto.
  - destruct s as [|b s]; [discriminate|]. simpl.
    destruct (Ascii.eqb a b); [|discriminate].
    intros Hd Hr. rewrite (IH s Hd Hr). apply orb_true_r.
Qed.

Lemma re_search_some (pre s g : string) :
  re_search pre s = Some g -> has_sub " (" s = true.
Proof.
  induction s as [|c s IH]; cbn [re_search]; unfold match_here.
  - destruct (drop_prefix pre "") as [rest|] eqn:Hd; [|discriminate].
    destruct (before_last_paren (line rest)) as [g'|] eqn:Hb; [|discriminate].
    intros _. apply (has_sub_drop pre _ _ rest Hd).
    apply has_sub_line. apply (before_last_paren_some _ g' Hb).
  - destruct (drop_prefix pre (String c s)) as [rest|] eqn:Hd.
    + destruct (before_last_paren (line rest)) as [g'|] eqn:Hb.
      * intros _. apply (has_sub_drop pre _ _ rest Hd).
        apply has_sub_line. apply (before_last_paren_some _ g' Hb).
      * intros H. cbn [has_sub]. rewrite (IH H). apply orb_true_r.
    + intros H. cbn [has_sub]. rewrite (IH H). apply orb_true_r.
Qed.

(** X15: [table_name] is the text between the [CREATE TABLE [IF NOT
    EXISTS]] prefix and the last space-and-parenthesis of the first
    line: the table's name for the statements of the modules, whose
    column definitions start on the next line, and more than the name
    when a column definition on that line has a parenthesis after a
    space. *)
Theorem table_name_is_greedy (g rest : string) (ds : list dict) (r : bool) :
  Py.contains newline g = false ->
  has_sub " (" (line rest) = false ->
  table_name {| query := "CREATE TABLE IF NOT EXISTS " +:+ g +:+ " (" +:+ rest;
                default_values := ds; insert_on_reconnect := r |} = Ok g /\
  (has_sub "CREATE TABLE IF NOT EXISTS " ("CREATE TABLE " +:+ g +:+ " (" +:+ rest) = false ->
   table_name {| query := "CREATE TABLE " +:+ g +:+ " (" +:+ rest;
                 default_values := ds; insert_on_reconnect := r |} = Ok g).
Proof.
  intros Hg Hr.
  assert (Hm : forall pre, match_here pre (pre +:+ g +:+ " (" +:+ rest) = Some g).
  { intros pre. unfold match_here. rewrite drop_prefix_app, line_app by exact Hg.
    change (" (" +:+ rest) with (String " " (String "(" rest)).
    assert (Hl : line (String " " (String "(" rest)) = " (" +:+ line rest) by reflexivity.
    rewrite Hl. apply before_last_paren_last, Hr. }
  split.
  - unfold table_name. cbn [query]. rewrite (re_search_here _ _ g (Hm _)). reflexivity.
  - intros Hn. unfold table_name. cbn [query].
    rewrite (re_search_absent _ _ Hn), (re_search_here _ _ g (Hm _)). reflexivity.
Qed.

Lemma table_name_is_greedy_witness :
  table_name {| query := "CREATE TABLE IF NOT EXISTS " +:+ "enabled_fixers" +:+ " (" +:+
                         Sample7.fixers_columns;
                default_values := []; insert_on_reconnect := false |}
    = Ok "enabled_fixers" /\
  (has_sub "CREATE TABLE IF NOT EXISTS "
     ("CREATE TABLE " +:+ "enabled_fixers" +:+ " (" +:+ Sample7.fixers_columns) = false ->
   table_name {| query := "CREATE TABLE " +:+ "enabled_fixers" +:+ " (" +:+
                          Sample7.fixers_columns;
                 default_values := []; insert_on_reconnect := false |}
     = Ok "enabled_fixers").
Proof.
  apply (table_name_is_greedy "enabled_fixers" Sample7.fixers_columns [] false);
    reflexivity.
Defined.

(** X16: the constructor does not look for a table name.  A statement
    that starts with [CREATE TABLE] and has no opening parenthesis
    after a space is accepted; [table_name] then raises [ValueError],
    and so does every open of a scope whose first schema it is, before
    anything is created. *)
Theorem unnamed_table_fails_at_open (q : string) (ds : list dict) (r : bool)
    (b : TableBuilder) (bs : list TableBuilder) (s : session) :
  TableBuilder_init q ds r = Ok b ->
  has_sub " (" q = false ->
  table_name b = Raise (ValueError NoTableName) /\
  initialise (b :: bs) s = (Raise (ValueError NoTableName), s).
Proof.
  intros Hb Hq.
  assert (Hqb : query b = q).
  { revert Hb. unfold TableBuilder_init.
    destruct (negb (Py.startswith "CREATE TABLE" q)); [discriminate|].
    destruct (negb _); [discriminate|]. intros [= <-]. reflexivity. }
  assert (Hn : table_name b = Raise (ValueError NoTableName)).
  { unfold table_name. rewrite Hqb.
    destruct (re_search "CREATE TABLE IF NOT EXISTS " q) as [g|] eqn:H1.
    { apply re_search_some in H1. congruence. }
    destruct (re_search "CREATE TABLE " q) as [g|] eqn:H2.
    { apply re_search_some in H2. congruence. }
    reflexivity. }
  split; [exact Hn|].
  unfold initialise, tables, bind, gets. cbn [init_tables].
  unfold bind, create_missing, bind, lift. rewrite Hn. reflexivity.
Qed.

Lemma unnamed_table_fails_at_open_witness :
  table_name Sample7.tight = Raise (ValueError NoTableName) /\
  initialise [Sample7.tight] (committed []) = (Raise (ValueError NoTableName), committed []).
Proof.
  apply (unnamed_table_fails_at_open "CREATE TABLE notes(body TEXT)" [] false
           Sample7.tight [] (committed [])); reflexivity.
Defined.

(** ** Opening a database that is already set up *)

Lemma init_tables_settled (d : Sql.database) (bs : list TableBuilder) (c : bool)
    (s : session) :
  forallb (settled d) bs = true ->
  init_tables (map Sql.tbl_name d) bs c s = (Ok c, s).
Proof.
  induction bs as [|b bs IH]; [reflexivity|].
  cbn [forallb]. intros [Hb Hbs]%andb_prop.
  unfold settled in Hb. apply andb_prop in Hb as [Hr Ht].
  apply negb_true_iff in Hr.
  cbn [init_tables]. unfold bind at 1. unfold create_missing, bind, lift.
  destruct (table_name b) as [t|e]; [|discriminate].
  rewrite Ht. cbn [negb]. unfold ret at 1. cbv iota beta.
  unfold bind, reseed. rewrite Hr. unfold ret at 1. apply IH, Hbs.
Qed.

(** X17: when every schema of the scope has policy [once] and its
    table is in the database, opening the connection does nothing: no
    statement but the listing of the tables is run, nothing is written
    and nothing is committed, whatever the rows of the tables. *)
Theorem open_of_settled_database_is_silent (bs : list TableBuilder) (s : session) :
  forallb (settled (db s)) bs = true ->
  initialise bs s = (Ok tt, s).
Proof.
  intros H. unfold initialise, tables, bind, gets.
  rewrite (init_tables_settled (db s) bs false s H). reflexivity.
Qed.

Lemma open_of_settled_database_is_silent_witness :
  initialise [Sample7.settings_once] Sample5.settings = (Ok tt, Sample5.settings).
Proof.
  apply (open_of_settled_database_is_silent [Sample7.settings_once] Sample5.settings).
  reflexivity.
Defined.

(** ** Writes to one key, one after the other *)

Lemma put_table_put (tb1 tb2 : Sql.table) (d : Sql.database) :
  Sql.tbl_name tb1 = Sql.tbl_name tb2 ->
  Sql.put_table tb2 (Sql.put_table tb1 d) = Sql.put_table tb2 d.
Proof.
  intros Hn. unfold Sql.put_table. rewrite map_map. apply map_ext. intros x.
  rewrite Hn.
  destruct (Sql.eqb_ci (Sql.tbl_name x) (Sql.tbl_name tb2)) eqn:Hx.
  - rewrite Hn, eqb_ci_refl. reflexivity.
  - rewrite Hx. reflexivity.
Qed.

Lemma without_key_idem (k : string) (rows : list (list sqlval)) :
  without_key k (without_key k rows) = without_key k rows.
Proof.
  unfold without_key. induction rows as [|r rows IH]; [reflexivity|].
  simpl. destruct (row_has_key k r) eqn:Hr; simpl; [exact IH|].
  rewrite Hr. simpl. rewrite IH. reflexivity.
Qed.

Lemma without_key_upsert (k text : string) (rows : list (list sqlval)) :
  without_key k (upsert k text rows) = without_key k rows.
Proof.
  unfold upsert. fold (without_key k rows). unfold without_key at 1.
  rewrite List.filter_app. fold (without_key k (without_key k rows)).
  rewrite without_key_idem. simpl. rewrite String.eqb_refl. simpl.
  apply app_nil_r.
Qed.

Lemma upsert_upsert (k text text' : string) (rows : list (list sqlval)) :
  upsert k text' (upsert k text rows) = upsert k text' rows.
Proof.
  unfold upsert at 1. fold (without_key k (upsert k text rows)).
  rewrite without_key_upsert. reflexivity.
Qed.

Lemma upsert_without (k text : string) (rows : list (list sqlval)) :
  upsert k text (without_key k rows) = upsert k text rows.
Proof.
  unfold upsert. fold (without_key k (without_key k rows)).
  rewrite without_key_idem. reflexivity.
Qed.

(** X18: of two writes to one key of a key/value table, only the last
    one shows: setting a key twice, or deleting it and then setting it,
    leaves what the last [set_dict_value] alone leaves, and setting a
    key and then deleting it leaves what the deletion alone leaves --
    the table, the other tables and the file. *)
Theorem last_write_wins (t k : string) (v1 v2 : pyval) (rows : list (list sqlval))
    (s : session) :
  Sql.is_ident t = true ->
  Sql.find_table t (db s) = Some (kv_table t rows) ->
  printable v1 = true -> printable v2 = true ->
  (set_dict_value t k v1 ;;; set_dict_value t k v2) s = set_dict_value t k v2 s /\
  (delete_dict_value t k ;;; set_dict_value t k v2) s = set_dict_value t k v2 s /\
  (set_dict_value t k v1 ;;; delete_dict_value t k) s = delete_dict_value t k s.
Proof.
  intros Hid Hf _ _.
  assert (Hput : forall rows', Sql.find_table t (Sql.put_table (kv_table t rows') (db s))
                    = Some (kv_table t rows')).
  { intros rows'.
    apply (find_table_put t (db s) (kv_table t rows)); [exact Hf | reflexivity]. }
  split; [|split]; unfold bind at 1.
  - rewrite (set_text_kv t k v1 rows s Hid Hf).
    rewrite (set_text_kv t k v2 _ (committed _) Hid (Hput _)).
    rewrite (set_text_kv t k v2 rows s Hid Hf).
    cbn [db committed]. rewrite put_table_put by reflexivity.
    rewrite upsert_upsert. reflexivity.
  - rewrite (delete_kv t k rows s Hid Hf).
    rewrite (set_text_kv t k v2 _ (committed _) Hid (Hput _)).
    rewrite (set_text_kv t k v2 rows s Hid Hf).
    cbn [db committed]. rewrite put_table_put by reflexivity.
    rewrite upsert_without. reflexivity.
  - rewrite (set_text_kv t k v1 rows s Hid Hf).
    rewrite (delete_kv t k _ (committed _) Hid (Hput _)).
    rewrite (delete_kv t k rows s Hid Hf).
    cbn [db committed]. rewrite put_table_put by reflexivity.
    rewrite without_key_upsert. reflexivity.
Qed.

Lemma last_write_wins_witness :
  (set_dict_value "settings" "Topic" (PStr "art") ;;;
   set_dict_value "settings" "Topic" (PInt 7)) Sample5.settings
    = set_dict_value "settings" "Topic" (PInt 7) Sample5.settings /\
  (delete_dict_value "settings" "Topic" ;;;
   set_dict_value "settings" "Topic" (PInt 7)) Sample5.settings
    = set_dict_value "settings" "Topic" (PInt 7) Sample5.settings /\
  (set_dict_value "settings" "Topic" (PStr "art") ;;;
   delete_dict_value "settings" "Topic") Sample5.settings
    = delete_dict_value "settings" "Topic" Sample5.settings.
Proof.
  apply (last_write_wins "settings" "Topic" (PStr "art") (PInt 7) Sample5.rows
           Sample5.settings); vm_compute; reflexivity.
Defined.

(** ** Reading what the rows hold *)

Lemma kv_find_cells (k : string) (v : sqlval) (items : list (string * sqlval)) :
  List.NoDup (map fst items) -> In (k, v) items ->
  kv_find k (map kv_cells items) = Some [SText k; v].
Proof.
  unfold kv_find. induction items as [|[k0 v0] items IH]; [intros _ []|].
  cbn [map fst]. intros [Hk Hnd]%NoDup_cons_iff Hin.
  cbn [List.filter kv_cells row_has_key fst snd].
  destruct (String.eqb k k0) eqn:Hkk.
  - apply String.eqb_eq in Hkk. subst k0.
    destruct Hin as [[= <-]|Hin]; [reflexivity|].
    exfalso. apply Hk. apply (in_map fst) in Hin. exact Hin.
  - destruct Hin as [[= <- <-]|Hin].
    + rewrite String.eqb_refl in Hkk. discriminate.
    + apply IH; assumption.
Qed.

Lemma dict_put_new (k text : string) (items : list (string * sqlval)) :
  ~ In k (map fst items) ->
  dict_put (PStr k) text (map kv_text items) = map kv_text items ++ [(PStr k, text)].
Proof.
  induction items as [|[k0 v0] items IH]; [reflexivity|].
  cbn [map fst]. intros Hk. cbn [dict_put kv_text fst snd adapt sqlval_eqb].
  destruct (String.eqb k0 k) eqn:Hkk.
  - apply String.eqb_eq in Hkk. exfalso. apply Hk. left. exact Hkk.
  - cbn [app]. f_equal. apply IH. intros Hin. apply Hk. right. exact Hin.
Qed.

Lemma collect_kv (t : string) (rows0 : list (list sqlval))
    (items0 items : list (string * sqlval)) :
  List.NoDup (map fst (items0 ++ items)) ->
  collect_values (rows_of (kv_table t rows0) (map kv_cells items)) (map kv_text items0)
  = Ok (map kv_text (items0 ++ items)).
Proof.
  revert items0. induction items as [|[k v] items IH]; intros items0 Hnd.
  - rewrite app_nil_r. reflexivity.
  - assert (Hk : ~ In k (map fst items0)).
    { rewrite map_app in Hnd. apply NoDup_remove_2 in Hnd.
      intros Hin. apply Hnd. apply in_or_app. left. exact Hin. }
    change (rows_of (kv_table t rows0) (map kv_cells ((k, v) :: items)))
      with ([("key", SText k); ("value", v)]
              :: rows_of (kv_table t rows0) (map kv_cells items)).
    cbn [collect_values].
    change (row_get "key" [("key", SText k); ("value", v)]) with (Ok (PStr k)).
    change (row_get "value" [("key", SText k); ("value", v)]) with (Ok (to_python v)).
    cbn [rbind]. rewrite (dict_put_new k _ items0 Hk).
    change (map kv_text items0 ++ [(PStr k, Cast.str (to_python v))])
      with (map kv_text items0 ++ map kv_text [(k, v)]).
    rewrite <- map_app. rewrite IH.
    + rewrite <- app_assoc. reflexivity.
    + rewrite <- app_assoc. exact Hnd.
Qed.

(** X19: on a key/value table whose rows have text keys, all
    different, [get_dict_values] returns one entry per row, in the
    order of the rows, with the value rendered by [str] (a NULL gives
    the text [None]); it agrees on every key with [get_dict_value]
    under [cast=str]. *)
Theorem get_dict_values_lists_rows (t : string) (items : list (string * sqlval))
    (s : session) :
  Sql.is_ident t = true ->
  Sql.find_table t (db s) = Some (kv_table t (map kv_cells items)) ->
  List.NoDup (map fst items) ->
  get_dict_values t s = (Ok (map kv_text items), s) /\
  (forall k v, In (k, v) items ->
     get_dict_value t k CastStr s = (Ok (Some (PStr (snd (kv_text (k, v))))), s)).
Proof.
  intros Hid Hf Hnd. split.
  - unfold get_dict_values, bind.
    rewrite (check_kv_table t _ s Hid Hf).
    unfold fetchall_table. rewrite Hid, Hf. cbn [negb]. cbv iota.
    unfold lift.
    change (Sql.tbl_rows (kv_table t (map kv_cells items))) with (map kv_cells items).
    rewrite (collect_kv t _ [] items Hnd). reflexivity.
  - intros k v Hin. rewrite (get_kv t k CastStr _ s Hid Hf).
    rewrite (kv_find_cells k v items Hnd Hin). reflexivity.
Qed.

Lemma get_dict_values_lists_rows_witness :
  get_dict_values "settings" Sample5.settings
    = (Ok (map kv_text Sample8.items), Sample5.settings) /\
  (forall k v, In (k, v) Sample8.items ->
     get_dict_value "settings" k CastStr Sample5.settings
       = (Ok (Some (PStr (snd (kv_text (k, v))))), Sample5.settings)).
Proof.
  apply (get_dict_values_lists_rows "settings" Sample8.items Sample5.settings).
  - reflexivity.
  - reflexivity.
  - repeat constructor; simpl; intuition discriminate.
Defined.

(** X20: the defaults of a key/value schema can be read as soon as a
    new scope is opened: the first open of an empty database creates
    the table, seeds it and commits, and [get_dict_value] with the cast
    of the default's type ([bool], [int], else [str]) returns the
    default itself, for every key of the defaults -- [None], stored as
    NULL, comes back as the text [None]. *)
Theorem default_is_read_back (name : string) (kv0 : string * pyval) (rest : dict)
    (r : bool) (k : string) (v : pyval) :
  Sql.is_ident name = true ->
  List.NoDup (keys (kv0 :: rest)) ->
  forallb (fun kv => fits (snd kv)) (kv0 :: rest) = true ->
  In (k, v) (kv0 :: rest) ->
  exists s1,
    initialise [kv_schema name (kv0 :: rest) r] (committed []) = (Ok tt, s1) /\
    in_tx s1 = false /\ file s1 = db s1 /\
    get_dict_value name k (cast_of v) s1 = (Ok (Some (read_back v)), s1).
Proof.
  intros Hid Hnd Hfit Hin.
  destruct (kv_schema_seedable name kv0 rest r Hid Hnd Hfit)
    as (Hparse & Hname & Hdef & Hkeys & Hfits & Hprep & Hclash & Hkeyed).
  pose proof (initialise_fresh _ _ _ _ Hparse Hname Hdef Hkeys Hfits Hprep Hclash
                (fun _ => Hkeyed)) as Hinit.
  cbn [Sql.ct_cols] in Hinit. rewrite default_rows_kv in Hinit.
  set (items := map (fun kv : string * pyval => (fst kv, stored (snd kv))) (kv0 :: rest)).
  assert (Hrows : map kv_row (kv0 :: rest) = map kv_cells items).
  { unfold items. rewrite map_map. reflexivity. }
  rewrite Hrows in Hinit.
  eexists. split; [exact Hinit|].
  split; [reflexivity|]. split; [reflexivity|].
  assert (Hf : Sql.find_table name [kv_table name (map kv_cells items)]
               = Some (kv_table name (map kv_cells items))).
  { unfold Sql.find_table. simpl. rewrite eqb_ci_refl. reflexivity. }
  change (get_dict_value name k (cast_of v)
            (committed [kv_table name (map kv_cells items)])
          = (Ok (Some (read_back v)), committed [kv_table name (map kv_cells items)])).
  rewrite (get_kv name k (cast_of v) (map kv_cells items) (committed _) Hid Hf).
  assert (Hnd' : List.NoDup (map fst items)).
  { unfold items. rewrite map_map. exact Hnd. }
  assert (Hin' : In (k, stored v) items).
  { unfold items. apply in_map_iff. exists (k, v). split; [reflexivity | exact Hin]. }
  rewrite (kv_find_cells k (stored v) items Hnd' Hin').
  f_equal. unfold read_value.
  change (row_get "value" (combine ["key"; "value"] [SText k; stored v]))
    with (Ok (to_python (stored v))).
  cbn [rbind].
  assert (Hv : fits v = true).
  { rewrite forallb_forall in Hfit. apply (Hfit (k, v) Hin). }
  destruct v as [|b|z|x]; cbn [stored adapt to_python cast_of apply_cast read_back].
  - reflexivity.
  - destruct b; reflexivity.
  - cbn [Cast.int]. rewrite int_of_str_of_int. reflexivity.
  - reflexivity.
Qed.

Lemma default_is_read_back_witness :
  exists s1,
    initialise [kv_schema "settings" Sample8.board_defaults true] (committed [])
      = (Ok tt, s1) /\
    in_tx s1 = false /\ file s1 = db s1 /\
    get_dict_value "settings" "MaxMessageAge" (cast_of (PInt 86400)) s1
      = (Ok (Some (read_back (PInt 86400))), s1).
Proof.
  apply (default_is_read_back "settings" ("BoardChannelID", PInt 0)
           [("Threshold", PInt 3); ("VoteEmoji", PStr "*");
            ("MaxMessageAge", PInt 86400)] true "MaxMessageAge" (PInt 86400)).
  - reflexivity.
  - repeat constructor; simpl; intuition discriminate.
  - reflexivity.
  - simpl. tauto.
Defined.

(** ** Key/value schemas *)

Lemma match_here_last (pre g rest : string) :
  Py.contains newline g = false ->
  has_sub " (" (line rest) = false ->
  match_here pre (pre +:+ g +:+ " (" +:+ rest) = Some g.
Proof.
  intros Hg Hr. unfold match_here. rewrite drop_prefix_app, line_app by exact Hg.
  change (" (" +:+ rest) with (String " " (String "(" rest)).
  assert (Hl : line (String " " (String "(" rest)) = " (" +:+ line rest) by reflexivity.
  rewrite Hl. apply before_last_paren_last, Hr.
Qed.

(** X22: [DictTableBuilder] never raises, whatever the name and the
    mapping: the rows it makes of the items all have the fields [key]
    and [value], so the constructor of [TableBuilder] accepts them,
    one row per item; and [table_name] gives the name back as long as
    it has no line break (a name that is not an identifier included). *)
Theorem dict_builder_never_fails (name : string) (defaults : dict) (r : bool) :
  exists b,
    DictTableBuilder_init name defaults r = Ok b /\
    query b = dict_query name /\
    map keys (default_values b) = map (fun _ => ["key"; "value"]) defaults /\
    map values (default_values b) = map (fun kv => [PStr (fst kv); snd kv]) defaults /\
    insert_on_reconnect b = r /\
    (Py.contains newline name = false -> table_name b = Ok name).
Proof.
  eexists. split; [apply DictTableBuilder_init_ok|].
  cbn [query default_values insert_on_reconnect].
  split; [reflexivity|]. split; [rewrite map_map; reflexivity|].
  split; [rewrite map_map; reflexivity|]. split; [reflexivity|].
  intros Hn. unfold table_name, dict_query. cbn [query].
  rewrite (re_search_here _ _ name); [reflexivity|].
  apply (match_here_last "CREATE TABLE IF NOT EXISTS " name
           "key TEXT PRIMARY KEY, value TEXT)" Hn). reflexivity.
Qed.

Lemma dict_builder_never_fails_witness :
  exists b,
    DictTableBuilder_init "settings" Sample8.board_defaults true = Ok b /\
    query b = dict_query "settings" /\
    length (default_values b) = 4%nat /\
    insert_on_reconnect b = true /\
    table_name b = Ok "settings".
Proof.
  destruct (dict_builder_never_fails "settings" Sample8.board_defaults true)
    as (b & Hb & Hq & Hk & _ & Hr & Hn).
  exists b. split; [exact Hb|]. split; [exact Hq|].
  split; [apply (f_equal (@length _)) in Hk; rewrite !length_map in Hk; exact Hk|].
  split; [exact Hr|]. apply Hn. reflexivity.
Defined.

(** ** Values that are not text *)

(** X23: a key whose value is NULL -- the row that a default [None]
    leaves; [set_dict_value] itself only stores text -- reads as the
    text [None] under [cast=str] and raises [TypeError] under
    [cast=int] and [cast=bool]; nothing is changed. *)
Theorem null_value_reads (t k : string) (rows : list (list sqlval)) (s : session) :
  Sql.is_ident t = true ->
  Sql.find_table t (db s) = Some (kv_table t rows) ->
  kv_find k rows = Some [SText k; SNull] ->
  get_dict_value t k CastStr s = (Ok (Some (PStr "None")), s) /\
  get_dict_value t k CastInt s = (Raise TypeError, s) /\
  get_dict_value t k CastBool s = (Raise TypeError, s).
Proof.
  intros Hid Hf Hk.
  rewrite !(get_kv t k _ rows s Hid Hf), Hk. repeat split; reflexivity.
Qed.

Lemma null_value_reads_witness :
  get_dict_value "settings" "Topic" CastStr Sample5.settings
    = (Ok (Some (PStr "None")), Sample5.settings) /\
  get_dict_value "settings" "Topic" CastInt Sample5.settings
    = (Raise TypeError, Sample5.settings) /\
  get_dict_value "settings" "Topic" CastBool Sample5.settings
    = (Raise TypeError, Sample5.settings).
Proof.
  apply (null_value_reads "settings" "Topic" Sample5.rows Sample5.settings);
    reflexivity.
Defined.

(** X24: a first open that fails while seeding leaves its mark.  When
    the first default of a key/value schema is an [int] that does not
    fit in 64 bits, the open of a new database raises [OverflowError]
    after the table has been created, and the empty table is in the
    file; under policy [once] the next open of that file then succeeds
    without inserting anything, and every key reads as missing. *)
Theorem failed_seed_is_not_retried (name k : string) (z : Z) (rest : dict)
    (key : string) (c : cast) :
  Sql.is_ident name = true ->
  fits (PInt z) = false ->
  let b := kv_schema name ((k, PInt z) :: rest) false in
  let s1 := {| db := [kv_table name []]; in_tx := true; file := [kv_table name []] |} in
  initialise [b] (committed []) = (Raise OverflowError, s1) /\
  initialise [b] (committed (file s1)) = (Ok tt, committed (file s1)) /\
  get_dict_value name key c (committed (file s1)) = (Ok None, committed (file s1)).
Proof.
  intros Hid Hz b s1. split; [|split].
  - unfold initialise, tables, bind, gets. cbn [committed db map init_tables].
    unfold bind at 1. unfold create_missing, bind, lift.
    unfold b. rewrite table_name_kv by exact Hid.
    change (mem name []) with false. cbn [negb]. cbv iota.
    unfold execute_create, Sql.create_table.
    cbn [query kv_schema]. rewrite parse_dict_query by exact Hid.
    cbn [Sql.ct_name Sql.find_table find Sql.ct_cols db in_tx file app].
    cbn [default_values map].
    unfold insert_defaults, bind, lift.
    rewrite table_name_kv by exact Hid.
    cbn [default_values kv_schema map].
    unfold executemany_insert, Sql.prepare_insert. cbn [db].
    change (keys [("key", PStr (fst (k, PInt z))); ("value", snd (k, PInt z))])
      with ["key"; "value"].
    rewrite Hid.
    change (negb (true && forallb Sql.is_ident ["key"; "value"]
                  && Sql.distinct_ci ["key"; "value"])) with false.
    cbv iota. unfold Sql.find_table, committed.
    cbn [db in_tx file find app Sql.tbl_name].
    rewrite eqb_ci_refl.
    match goal with
    | |- context [forallb (Sql.has_column ?tb) _] =>
        change (forallb (Sql.has_column tb) ["key"; "value"]) with true
    end.
    cbv iota. cbn [insert_many values map length Nat.eqb snd fst forallb].
    change (fits (PStr k)) with true. rewrite Hz. cbn [andb].
    unfold raise. unfold Sql.put_table. cbn [map Sql.tbl_name].
    rewrite eqb_ci_refl. reflexivity.
  - assert (Hs : forallb (settled (db (committed (file s1)))) [b] = true).
    { cbn [forallb]. unfold settled, b.
      rewrite table_name_kv by exact Hid. cbn.
      rewrite String.eqb_refl. reflexivity. }
    unfold initialise, tables, bind, gets.
    rewrite (init_tables_settled _ [b] false _ Hs). reflexivity.
  - assert (Hf : Sql.find_table name (db (committed (file s1)))
                 = Some (kv_table name [])).
    { unfold Sql.find_table. simpl. rewrite eqb_ci_refl. reflexivity. }
    rewrite (get_kv name key c [] _ Hid Hf). reflexivity.
Qed.

Lemma failed_seed_is_not_retried_witness :
  let b := Sample9.counters in
  let s1 := {| db := [kv_table "counters" []]; in_tx := true;
               file := [kv_table "counters" []] |} in
  initialise [b] (committed []) = (Raise OverflowError, s1) /\
  initialise [b] (committed (file s1)) = (Ok tt, committed (file s1)) /\
  get_dict_value "counters" "Kept" CastInt (committed (file s1))
    = (Ok None, committed (file s1)).
Proof.
  apply (failed_seed_is_not_retried "counters" "Seen" Sample9.huge
           [("Kept", PInt 0)] "Kept" CastInt); reflexivity.
Defined.

(** ** Default rows of a general schema *)

Lemma no_key_no_conflict (cols : list Sql.column) (r : list sqlval)
    (rows : list (list sqlval)) :
  Sql.pk_of cols r = None -> existsb (Sql.conflict cols r) rows = false.
Proof.
  intros H. induction rows as [|r' rows IH]; [reflexivity|].
  simpl. unfold Sql.conflict at 1. rewrite H. exact IH.
Qed.

(** X25: default rows are inserted by position.  The constructor
    accepts rows that list the same fields in different orders; the
    insertion names the columns after the first row and takes the
    values of each row in that row's own order, so the values of a row
    written in the other order are stored under each other's column. *)
Theorem crossed_defaults_are_misplaced (q t a b : string) (x y u v : pyval)
    (r ta tb : bool) (rows : list (list sqlval)) (s : session) :
  let bld := {| query := q; default_values := crossed a b x y u v;
                insert_on_reconnect := r |} in
  let col_a := {| Sql.col_name := a; Sql.col_text := ta; Sql.col_pk := false |} in
  let col_b := {| Sql.col_name := b; Sql.col_text := tb; Sql.col_pk := false |} in
  Py.startswith "CREATE TABLE" q = true ->
  table_name bld = Ok t ->
  Sql.is_ident t = true -> Sql.is_ident a = true -> Sql.is_ident b = true ->
  Sql.eqb_ci a b = false ->
  forallb fits [x; y; u; v] = true ->
  Sql.find_table t (db s) = Some (two_columns t a b ta tb rows) ->
  TableBuilder_init q (crossed a b x y u v) r = Ok bld /\
  insert_defaults bld s =
    (Ok tt,
     {| db := Sql.put_table
                (two_columns t a b ta tb
                   (rows ++ [[Sql.affinity col_a (adapt x); Sql.affinity col_b (adapt y)];
                             [Sql.affinity col_a (adapt u); Sql.affinity col_b (adapt v)]]))
                (db s);
        in_tx := true; file := file s |}).
Proof.
  intros bld col_a col_b Hq Hname Ht Ha Hb Hab Hfit Hf.
  split.
  - unfold TableBuilder_init. rewrite Hq. cbn [negb]. cbv iota.
    unfold crossed, set_eqb, mem, keys. cbn [map fst forallb existsb].
    rewrite !String.eqb_refl, ?orb_true_r. reflexivity.
  - simpl in Hfit.
    destruct (fits x) eqn:Hx; [|discriminate].
    destruct (fits y) eqn:Hy; [|discriminate].
    destruct (fits u) eqn:Hu; [|discriminate].
    destruct (fits v) eqn:Hv; [|discriminate].
    unfold insert_defaults, bind, lift. rewrite Hname.
    cbn [default_values bld crossed].
    change (keys [(a, x); (b, y)]) with [a; b].
    unfold executemany_insert, Sql.prepare_insert.
    cbn [forallb Sql.distinct_ci existsb]. rewrite Ht, Ha, Hb, Hab, Hf.
    cbn [andb orb negb]. cbv iota.
    unfold Sql.has_column, two_columns at 1 2.
    cbn [forallb existsb Sql.tbl_cols Sql.col_name].
    rewrite !eqb_ci_refl, Hab. cbn [andb orb]. cbv iota.
    rewrite insert_many_ignore;
      [|repeat constructor|repeat constructor; simpl; rewrite ?Hx, ?Hy, ?Hu, ?Hv; reflexivity].
    unfold crossed, values.
    cbn [Sql.tbl_name Sql.tbl_cols Sql.tbl_rows two_columns map snd].
    unfold Sql.bind_row. cbn [map combine Sql.assoc_ci Sql.col_name].
    rewrite !eqb_ci_refl, Hab. cbn [default].
    unfold insert_ignore_rows. cbn [fold_left].
    rewrite !no_key_no_conflict by reflexivity.
    rewrite <- app_assoc. reflexivity.
Qed.

Lemma crossed_defaults_are_misplaced_witness :
  TableBuilder_init (query Sample10.labels)
      (crossed "lang" "label" (PStr "fr") (PStr "Couleurs") (PStr "Colors") (PStr "en"))
      false
    = Ok Sample10.labels /\
  insert_defaults Sample10.labels
      (committed [two_columns "labels" "lang" "label" true true []]) =
    (Ok tt,
     {| db := [two_columns "labels" "lang" "label" true true
                 [[SText "fr"; SText "Couleurs"]; [SText "Colors"; SText "en"]]];
        in_tx := true;
        file := [two_columns "labels" "lang" "label" true true []] |}).
Proof.
  apply (crossed_defaults_are_misplaced (query Sample10.labels) "labels" "lang" "label"
           (PStr "fr") (PStr "Couleurs") (PStr "Colors") (PStr "en") false true true []
           (committed [two_columns "labels" "lang" "label" true true []]));
    reflexivity.
Defined.

(** * Reopening a key/value table *)

Lemma insert_many_name (oc : Sql.on_conflict) (names : list string)
    (rows : list (list pyval)) (tb : Sql.table) :
  Sql.tbl_name (snd (insert_many oc names rows tb)) = Sql.tbl_name tb.
Proof.
  revert tb. induction rows as [|r rows IH]; intros tb; [reflexivity|].
  cbn [insert_many].
  destruct (_ =? _)%nat; [|reflexivity].
  destruct (forallb fits r); [|reflexivity].
  unfold bind, modify.
  specialize (IH (Sql.insert_row oc tb names (map adapt r))).
  destruct (insert_many oc names rows _) as [[[]|e] tb']; cbn [snd] in *;
    rewrite IH; unfold Sql.insert_row; destruct oc;
    try destruct (existsb _ _); reflexivity.
Qed.

Lemma find_table_app (t : string) (d d' : Sql.database) (tb : Sql.table) :
  Sql.find_table t d = Some tb -> Sql.find_table t (d ++ d') = Some tb.
Proof.
  unfold Sql.find_table. induction d as [|x d IH]; [discriminate|].
  simpl. destruct (Sql.eqb_ci (Sql.tbl_name x) t); [tauto | exact IH].
Qed.

Section OtherTables.

Variables (name : string) (tb0 : Sql.table).

(** The table [name] is in the database, as [tb0]. *)
Let holds (s : session) : Prop := Sql.find_table name (db s) = Some tb0.

Lemma execute_create_keeps (q : string) (s s' : session) (r : result unit) :
  holds s -> execute_create q s = (r, s') -> holds s'.
Proof.
  unfold holds, execute_create, Sql.create_table. intros Hf.
  destruct (Sql.parse_create q) as [stmt|]; [|intros [= _ <-]; exact Hf].
  destruct (Sql.find_table (Sql.ct_name stmt) (db s)).
  - destruct (Sql.ct_if_not_exists stmt); intros [= _ <-]; exact Hf.
  - intros [= _ <-]. cbn [db]. apply find_table_app, Hf.
Qed.

Lemma executemany_insert_keeps (oc : Sql.on_conflict) (t : string)
    (names : list string) (rows : list (list pyval)) (s s' : session)
    (r : result unit) :
  Sql.eqb_ci t name = false ->
  holds s -> executemany_insert oc t names rows s = (r, s') -> holds s'.
Proof.
  unfold holds, executemany_insert, Sql.prepare_insert. intros Ht Hf.
  destruct (negb _); [intros [= _ <-]; exact Hf|].
  destruct names as [|n names]; [intros [= _ <-]; exact Hf|].
  destruct (Sql.find_table t (db s)) as [tb|] eqn:Hft; [|intros [= _ <-]; exact Hf].
  destruct (forallb _ _); [|intros [= _ <-]; exact Hf].
  pose proof (insert_many_name oc (n :: names) rows tb) as Hn.
  destruct (insert_many oc (n :: names) rows tb) as [r' tb']. cbn [snd] in Hn.
  intros [= _ <-]. cbn [db].
  rewrite find_table_put_other; [exact Hf|].
  rewrite Hn. apply find_table_name in Hft as [Hci _].
  unfold Sql.eqb_ci in *. apply String.eqb_eq in Hci. rewrite Hci. exact Ht.
Qed.

Lemma insert_defaults_keeps (b : TableBuilder) (s s' : session) (r : result unit) :
  elsewhere name b = true ->
  holds s -> insert_defaults b s = (r, s') -> holds s'.
Proof.
  unfold elsewhere, insert_defaults, bind, lift. intros Hb Hf.
  destruct (table_name b) as [t|e]; [|intros [= _ <-]; exact Hf].
  apply negb_true_iff in Hb.
  destruct (default_values b) as [|d0 ds]; [intros [= _ <-]; exact Hf|].
  apply executemany_insert_keeps; assumption.
Qed.

Lemma create_missing_keeps (ts : list string) (b : TableBuilder) (c : bool)
    (s s' : session) (r : result bool) :
  elsewhere name b = true ->
  holds s -> create_missing ts b c s = (r, s') -> holds s'.
Proof.
  intros Hb Hf. unfold create_missing, bind, lift.
  destruct (table_name b) as [t|e]; [|intros [= _ <-]; exact Hf].
  destruct (negb (mem t ts)); [|intros [= _ <-]; exact Hf].
  destruct (execute_create (query b) s) as [[[]|e] s1] eqn:Hc;
    pose proof (execute_create_keeps _ _ _ _ Hf Hc) as Hf1;
    [|intros [= _ <-]; exact Hf1].
  destruct (default_values b) as [|d0 ds] eqn:Hd.
  - intros [= _ <-]. exact Hf1.
  - destruct (insert_defaults b s1) as [[[]|e] s2] eqn:Hi;
      pose proof (insert_defaults_keeps b s1 s2 _ Hb Hf1 Hi) as Hf2;
      intros [= _ <-]; exact Hf2.
Qed.

Lemma reseed_keeps (b : TableBuilder) (s s' : session) (r : result unit) :
  elsewhere name b = true ->
  holds s -> reseed b s = (r, s') -> holds s'.
Proof.
  intros Hb Hf. unfold reseed.
  destruct (insert_on_reconnect b); [|intros [= _ <-]; exact Hf].
  apply insert_defaults_keeps; assumption.
Qed.

Lemma init_tables_keeps (ts : list string) (bs : list TableBuilder) (c : bool)
    (s s' : session) (r : result bool) :
  forallb (elsewhere name) bs = true ->
  holds s -> init_tables ts bs c s = (r, s') -> holds s'.
Proof.
  revert c s. induction bs as [|b bs IH]; intros c s Hbs Hf.
  - intros [= _ <-]. exact Hf.
  - cbn [forallb] in Hbs. apply andb_prop in Hbs as [Hb Hbs].
    cbn [init_tables]. unfold bind.
    destruct (create_missing ts b c s) as [[c1|e] s1] eqn:Hc;
      pose proof (create_missing_keeps ts b c s s1 _ Hb Hf Hc) as Hf1;
      [|intros [= _ <-]; exact Hf1].
    destruct (reseed b s1) as [[[]|e] s2] eqn:Hr;
      pose proof (reseed_keeps b s1 s2 _ Hb Hf1 Hr) as Hf2;
      [|intros [= _ <-]; exact Hf2].
    apply IH; assumption.
Qed.

End OtherTables.

Lemma init_tables_on_sqlite (ts : list string) (bs : list TableBuilder) (c : bool)
    (s : session) :
  init_tables_on sqlite ts bs c s = init_tables ts bs c s.
Proof.
  revert c s. induction bs as [|b bs IH]; intros c s; [reflexivity|].
  cbn [init_tables_on init_tables]. unfold bind.
  change (create_missing_on sqlite ts b c s) with (create_missing ts b c s).
  destruct (create_missing ts b c s) as [[c1|e] s2]; [|reflexivity].
  change (reseed_on sqlite b s2) with (reseed b s2).
  destruct (reseed b s2) as [[[]|e] s3]; [|reflexivity].
  apply IH.
Qed.

(** The loop on a list of schemas among which is a key/value schema
    of policy [always] whose table is in the database. *)
Lemma init_tables_kv_among (name : string) (defaults : dict)
    (rows : list (list sqlval)) (pre post : list TableBuilder)
    (ts : list string) (c c' : bool) (s s' : session) :
  Sql.is_ident name = true -> defaults <> [] -> List.NoDup (keys defaults) ->
  forallb (fun kv => fits (snd kv)) defaults = true ->
  forallb (elsewhere name) (pre ++ post) = true ->
  mem name ts = true ->
  Sql.find_table name (db s) = Some (kv_table name rows) ->
  init_tables ts (pre ++ kv_schema name defaults true :: post) c s = (Ok c', s') ->
  Sql.find_table name (db s')
  = Some (kv_table name (rows ++ map kv_row (missing defaults rows))).
Proof.
  intros Hid Hne Hnd Hfit Hoth Hm Hf.
  rewrite forallb_app in Hoth. apply andb_prop in Hoth as [Hpre Hpost].
  rewrite <- init_tables_on_sqlite, init_tables_on_app, !init_tables_on_sqlite.
  destruct (init_tables ts pre c s) as [[c1|e] s1] eqn:H1; [|discriminate].
  pose proof (init_tables_keeps name _ ts pre c s s1 _ Hpre Hf H1) as Hf1.
  rewrite init_tables_on_sqlite.
  cbn [init_tables]. unfold bind at 1. unfold create_missing, bind at 1, lift.
  rewrite table_name_kv, Hm by exact Hid. cbn [negb]. cbv iota.
  unfold ret at 1. unfold bind at 1. unfold reseed.
  change (insert_on_reconnect (kv_schema name defaults true)) with true. cbv iota.
  rewrite (insert_defaults_kv name defaults true rows s1) by assumption.
  rewrite insert_ignore_kv by exact Hnd.
  intros H2.
  refine (init_tables_keeps name _ ts post c1 _ s' _ Hpost _ H2).
  cbn [db]. apply (find_table_put name (db s1) (kv_table name rows));
    [exact Hf1 | reflexivity].
Qed.

(** What a method called on a manager returns is what its body
    returns on the connection's view. *)
Lemma call_view {A} (mgr : ModelDataManager) (body : M session A) (st : state)
    (c : connection) :
  conns st !! conn mgr = Some c -> conn_closed c = false ->
  fst (call mgr body st)
  = fst (body {| db := conn_db c; in_tx := conn_in_tx c;
                 file := default [] (fs st !! conn_path c) |}).
Proof.
  intros Hc Hcl. unfold call, on_conn. rewrite Hc, Hcl.
  destruct (body _); reflexivity.
Qed.

Lemma kv_find_app (k : string) (rows rows' : list (list sqlval)) :
  kv_find k (rows ++ rows')
  = match kv_find k rows with
    | Some r => Some r
    | None => kv_find k rows'
    end.
Proof.
  unfold kv_find. rewrite List.filter_app.
  destruct (List.filter (row_has_key k) rows); reflexivity.
Qed.

Lemma has_key_find (k : string) (rows : list (list sqlval)) :
  has_key k rows = true -> exists r, kv_find k rows = Some r.
Proof.
  unfold has_key, kv_find. induction rows as [|r rows IH]; [discriminate|].
  simpl. destruct (row_has_key k r); [eauto | exact IH].
Qed.

Lemma missing_keys_differ (defaults : dict) (rows : list (list sqlval)) :
  List.NoDup (keys defaults) -> List.NoDup (keys (missing defaults rows)).
Proof.
  unfold keys, missing. induction defaults as [|kv defaults IH]; [tauto|].
  cbn [map List.filter]. intros [Hk Hnd]%NoDup_cons_iff.
  destruct (negb (has_key (fst kv) rows)); [|auto].
  cbn [map]. apply List.NoDup_cons; [|auto].
  intros (kv' & Hkv' & [Hin _]%filter_In)%in_map_iff.
  apply Hk. rewrite <- Hkv'. apply in_map, Hin.
Qed.


